(** * UMM outage dashboard: the aggregation pipeline of the back ends

    A shallow embedding of the record normalisation, classification,
    aggregation and loading code of

    - [umm-dashboard-react/backend/server.js]  (CSV back end),
    - [umm-dashboard-react/backend/server-sqlite.js]  (SQLite back end),
    - the prototype server whose text follows [main_prototype/QUICKSTART.md]
      ([safeJsonParseArray], [extractCapacityMw], [buildUmmSummary], ...),
    - the prototype back end [unnamed/part_002]  ([loadCSVData]).

    Conventions of the embedding.

    - A JavaScript number is an exact rational ([Q]); NaN is an absent
      number ([None]) where a builtin can produce it.
    - A JavaScript string is a [string] of bytes; case mapping and trimming
      act on the ASCII range.
    - Builtins of the language ([JSON.parse], [parseFloat], [parseInt],
      [Date], number printing) are the fields of a runtime class; every
      general theorem holds for every runtime, and the closed examples run
      on the reference runtime defined below.
    - A JavaScript exception is the [Throw] outcome. *)

From Stdlib Require Import List String Ascii ZArith QArith Qround Bool Lia Arith.
From Stdlib Require Import Sorting.Sorted Sorting.Permutation.
From Stdlib Require Import Numbers.DecimalString.
From Stdlib Require Import Lqa Qabs.
Import ListNotations.
Local Close Scope Q_scope.
Local Open Scope string_scope.
Local Open Scope list_scope.

Set Implicit Arguments.
Set Warnings "-register-all".

(** ** Outcomes of code that may throw *)

Inductive outcome (A : Type) : Type :=
| Ret (a : A)
| Throw.
Arguments Ret {A} a.
Arguments Throw {A}.

Definition bind {A B : Type} (m : outcome A) (k : A -> outcome B) : outcome B :=
  match m with
  | Ret a => k a
  | Throw => Throw
  end.

Notation "x <- m ;; k" := (bind m (fun x => k))
  (at level 61, m at next level, right associativity).

(** [Array.prototype.forEach] with a callback that updates the variables it
    closes over (the accumulator [s]) and may throw. *)
Fixpoint forEach {A S : Type} (f : S -> A -> outcome S) (l : list A) (s : S)
  : outcome S :=
  match l with
  | [] => Ret s
  | x :: rest => s' <- f s x ;; forEach f rest s'
  end.

(** ** JavaScript values as [JSON.parse] builds them *)

Inductive jsval : Type :=
| JUndefined
| JNull
| JBool (b : bool)
| JNum (q : Q)
| JStr (s : string)
| JArr (items : list jsval)
| JObj (fields : list (string * jsval)).

(** [!!v] *)
Definition truthy (v : jsval) : bool :=
  match v with
  | JUndefined | JNull => false
  | JBool b => b
  | JNum q => negb (Qeq_bool q 0)
  | JStr s => negb (s =? "")%string
  | JArr _ | JObj _ => true
  end.

(** The value bound to [k] in a parsed object: the last binding wins. *)
Definition assoc_last (k : string) (fields : list (string * jsval)) : jsval :=
  fold_left (fun acc kv => if (fst kv =? k)%string then snd kv else acc)
            fields JUndefined.

(** [v.k] for the property names the sources read ([name], [areaName],
    [timePeriods], ...): none of them is [length], an index or a member of a
    prototype, so only a parsed object can hold one. Reading a property of
    [null] or [undefined] is a TypeError. *)
Definition prop (k : string) (v : jsval) : outcome jsval :=
  match v with
  | JUndefined | JNull => Throw
  | JObj fields => Ret (assoc_last k fields)
  | JBool _ | JNum _ | JStr _ | JArr _ => Ret JUndefined
  end.

(** [v[0]] *)
Definition index0 (v : jsval) : outcome jsval :=
  match v with
  | JUndefined | JNull => Throw
  | JArr [] => Ret JUndefined
  | JArr (x :: _) => Ret x
  | JStr EmptyString => Ret JUndefined
  | JStr (String c _) => Ret (JStr (String c EmptyString))
  | JObj fields => Ret (assoc_last "0" fields)
  | JBool _ | JNum _ => Ret JUndefined
  end.

(** [a || b] *)
Definition js_or (a b : jsval) : jsval := if truthy a then a else b.

(** SameValueZero, the equality of [Set] and of [includes]. Two parsed
    objects (or arrays) are two references: they are never the same value. *)
Definition same_value_zero (x y : jsval) : bool :=
  match x, y with
  | JUndefined, JUndefined => true
  | JNull, JNull => true
  | JBool a, JBool b => Bool.eqb a b
  | JNum a, JNum b => Qeq_bool a b
  | JStr a, JStr b => (a =? b)%string
  | _, _ => false
  end.

(** A [Set]: its elements in insertion order. *)
Definition set_has (s : list jsval) (x : jsval) : bool :=
  existsb (same_value_zero x) s.

Definition set_add (s : list jsval) (x : jsval) : list jsval :=
  if set_has s x then s else s ++ [x].

(** ** Stable sorting

    [Array.prototype.sort] is stable; for a comparator that orders the
    elements by a key, the sorted array is the stable sorted permutation,
    which this insertion sort computes. [before a b] says that [a] may stay
    in front of [b]. *)

Section StableSort.
Variable A : Type.
Variable before : A -> A -> bool.

Fixpoint insert_sorted (x : A) (l : list A) : list A :=
  match l with
  | [] => [x]
  | y :: rest => if before x y then x :: y :: rest
                 else y :: insert_sorted x rest
  end.

Fixpoint stable_sort (l : list A) : list A :=
  match l with
  | [] => []
  | x :: rest => insert_sorted x (stable_sort rest)
  end.
End StableSort.

(** ** Strings *)

Definition is_space (c : ascii) : bool :=
  let n := nat_of_ascii c in
  (n =? 32)%nat || ((9 <=? n)%nat && (n <=? 13)%nat).

Fixpoint trim_start (s : string) : string :=
  match s with
  | EmptyString => EmptyString
  | String c rest => if is_space c then trim_start rest else s
  end.

Fixpoint rev_string (s acc : string) : string :=
  match s with
  | EmptyString => acc
  | String c rest => rev_string rest (String c acc)
  end.

(** [s.trim()] *)
Definition trim (s : string) : string :=
  rev_string (trim_start (rev_string (trim_start s) EmptyString)) EmptyString.

Definition lower_ascii (c : ascii) : ascii :=
  let n := nat_of_ascii c in
  if ((65 <=? n)%nat && (n <=? 90)%nat)%bool then ascii_of_nat (n + 32) else c.

Definition upper_ascii (c : ascii) : ascii :=
  let n := nat_of_ascii c in
  if ((97 <=? n)%nat && (n <=? 122)%nat)%bool then ascii_of_nat (n - 32) else c.

Fixpoint map_string (f : ascii -> ascii) (s : string) : string :=
  match s with
  | EmptyString => EmptyString
  | String c rest => String (f c) (map_string f rest)
  end.

(** [s.toLowerCase()], [s.toUpperCase()] *)
Definition toLowerCase (s : string) : string := map_string lower_ascii s.
Definition toUpperCase (s : string) : string := map_string upper_ascii s.

(** [s.includes(kw)] *)
Fixpoint includes (kw s : string) : bool :=
  if prefix kw s then true
  else match s with
       | EmptyString => false
       | String _ rest => includes kw rest
       end.

(** [s.split(',')] on a string: always at least one piece. *)
Fixpoint split_on (sep : ascii) (s : string) : list string :=
  match s with
  | EmptyString => [EmptyString]
  | String c rest =>
      if Ascii.eqb c sep then EmptyString :: split_on sep rest
      else match split_on sep rest with
           | [] => [String c EmptyString]
           | piece :: pieces => String c piece :: pieces
           end
  end.

Definition split_comma (s : string) : list string := split_on ","%char s.

(** Decimal text of an integer, as template literals print a year. *)
Definition Z_to_string (z : Z) : string := NilEmpty.string_of_int (Z.to_int z).

(** JSON text is written below with apostrophes in the place of the double
    quotes; [json_text] puts the double quotes back. *)
Definition json_text (s : string) : string :=
  map_string (fun c => if Ascii.eqb c "'"%char then "034"%char else c) s.

(** ** The runtime: builtins of the language

    [JSON_parse] is [JSON.parse] ([None] when it throws a SyntaxError),
    [parseFloat] and [parseInt] return [None] for NaN, [Date_getFullYear] is
    [new Date(v).getFullYear()] ([None] for an invalid date),
    [Number_toString] prints a number and [String_toNumber] is the numeric
    reading of a string in a comparison. The two laws are the two facts
    about [JSON.parse] that [parseJSON] relies on. *)

Class JSRuntime : Type := {
  JSON_parse : string -> option jsval;
  parseFloat : string -> option Q;
  parseInt : string -> option Z;
  Date_getFullYear : option string -> option Z;
  Number_toString : Q -> string;
  String_toNumber : string -> option Q;
  JSON_parse_empty : JSON_parse EmptyString = None;
  JSON_parse_null : JSON_parse "null" = Some JNull
}.

Section Backend.
Context {RT : JSRuntime}.

(** [String(v)], as sorting, template literals and property keys apply it. *)
Fixpoint ToString (v : jsval) : string :=
  match v with
  | JUndefined => "undefined"
  | JNull => "null"
  | JBool true => "true"
  | JBool false => "false"
  | JNum q => Number_toString q
  | JStr s => s
  | JArr items =>
      (fix join (l : list jsval) : string :=
         match l with
         | [] => EmptyString
         | x :: rest =>
             let piece := match x with
                          | JUndefined | JNull => EmptyString
                          | _ => ToString x
                          end in
             match rest with
             | [] => piece
             | _ :: _ => (piece ++ "," ++ join rest)%string
             end
         end) items
  | JObj _ => "[object Object]"
  end.

(** [xs.sort()]: ascending by the string form of the elements. *)
Definition sort_default (l : list jsval) : list jsval :=
  stable_sort (fun a b => String.leb (ToString a) (ToString b)) l.

(** *** server.js, lines 23-31 (and server-sqlite.js, lines 34-42)
<<
const parseJSON = (value) => {
if (!value || value === 'null' || value === '') return [];
try {
  const parsed = JSON.parse(value);
  return Array.isArray(parsed) ? parsed : [parsed];
} catch (e) {
  return [];
}
};
>>
    [value] is a column of a row: a string, or [undefined] ([None]). *)
Definition parseJSON (value : option string) : list jsval :=
  match value with
  | None => []
  | Some s =>
      if ((s =? EmptyString) || (s =? "null") || (s =? EmptyString))%string
      then []
      else match JSON_parse s with
           | Some (JArr items) => items
           | Some parsed => [parsed]
           | None => []
           end
  end.

(** A row as csv-parser hands it over: one string per column ([None] for a
    column the file does not have). *)
Record row : Type := {
  areas_json : option string;
  production_units_json : option string;
  generation_units_json : option string;
  transmission_units_json : option string;
  message_type : option string;
  publication_date : option string;
  unavailability_type : option string;
  remarks : option string
}.

(** [if (v) areas.add(v)] *)
Definition add_if_truthy (areas : list jsval) (v : jsval) : list jsval :=
  if truthy v then set_add areas v else areas.

Definition add_prop (k : string) (areas : list jsval) (item : jsval)
  : outcome (list jsval) :=
  v <- prop k item ;; Ret (add_if_truthy areas v).

(** The four collection loops of [extractAreaNames], before the sort. *)
Definition collectAreaNames (r : row) : outcome (list jsval) :=
  a1 <- forEach (add_prop "name") (parseJSON (areas_json r)) [] ;;
  a2 <- forEach (add_prop "areaName") (parseJSON (production_units_json r)) a1 ;;
  a3 <- forEach (add_prop "areaName") (parseJSON (generation_units_json r)) a2 ;;
  forEach (fun areas item =>
             areas' <- add_prop "inAreaName" areas item ;;
             add_prop "outAreaName" areas' item)
          (parseJSON (transmission_units_json r)) a3.

(** *** server.js, lines 34-59
<<
const extractAreaNames = (row) => {
const areas = new Set();
parseJSON(row.areas_json).forEach(item => {
  if (item.name) areas.add(item.name); });
parseJSON(row.production_units_json).forEach(item => {
  if (item.areaName) areas.add(item.areaName); });
parseJSON(row.generation_units_json).forEach(item => {
  if (item.areaName) areas.add(item.areaName); });
parseJSON(row.transmission_units_json).forEach(item => {
  if (item.inAreaName) areas.add(item.inAreaName);
  if (item.outAreaName) areas.add(item.outAreaName); });
return Array.from(areas).sort();
};
>> *)
Definition extractAreaNames (r : row) : outcome (list jsval) :=
  areas <- collectAreaNames r ;; Ret (sort_default areas).

(** *** server.js, lines 62-69
<<
const extractUnitNames = (jsonArray) => {
const names = new Set();
parseJSON(jsonArray).forEach(item => {
  const name = item.name || item.productionUnitName || item.generationUnitName;
  if (name) names.add(name);
});
return Array.from(names).sort();
};
>> *)
Definition unit_name (item : jsval) : outcome jsval :=
  n <- prop "name" item ;;
  if truthy n then Ret n
  else p <- prop "productionUnitName" item ;;
       if truthy p then Ret p else prop "generationUnitName" item.

Definition extractUnitNames (jsonArray : option string) : outcome (list jsval) :=
  names <- forEach (fun names item =>
                      n <- unit_name item ;; Ret (add_if_truthy names n))
                   (parseJSON jsonArray) [] ;;
  Ret (sort_default names).

(** The running totals of [extractCapacityInfo]: a number until a string
    (or an array or object, which [+] turns into a string) is added, a
    string from then on. *)
Inductive total : Type :=
| TNum (q : Q)
| TStr (s : string).

Definition total_text (t : total) : string :=
  match t with
  | TNum q => Number_toString q
  | TStr s => s
  end.

(** The operand [x || 0] of a [+=], after [+] made it a primitive. *)
Definition addend (x : jsval) : total :=
  if truthy x then
    match x with
    | JNum q => TNum q
    | JBool _ => TNum 1
    | JStr s => TStr s
    | JArr _ | JObj _ => TStr (ToString x)
    | JUndefined | JNull => TNum 0
    end
  else TNum 0.

(** [acc += x || 0] *)
Definition add_total (acc : total) (x : jsval) : total :=
  match acc, addend x with
  | TNum a, TNum b => TNum (a + b)
  | a, b => TStr (total_text a ++ total_text b)
  end.

(** [t > 0 ? t : null] *)
Definition positive_or_null (t : total) : jsval :=
  match t with
  | TNum q => if Qlt_le_dec 0 q then JNum q else JNull
  | TStr s => match String_toNumber s with
              | Some n => if Qlt_le_dec 0 n then JStr s else JNull
              | None => JNull
              end
  end.

Record totals : Type := {
  totalInstalled : total;
  totalUnavailable : total;
  totalAvailable : total
}.

(** The body of the two [forEach] loops of [extractCapacityInfo]. *)
Definition capacity_step (t : totals) (unit : jsval) : outcome totals :=
  installed <- prop "installedCapacity" unit ;;
  let t1 := add_total (totalInstalled t) installed in
  periods <- prop "timePeriods" unit ;;
  if truthy periods then
    first <- index0 periods ;;
    if truthy first then
      unavailable <- prop "unavailableCapacity" first ;;
      available <- prop "availableCapacity" first ;;
      Ret {| totalInstalled := t1;
             totalUnavailable := add_total (totalUnavailable t) unavailable;
             totalAvailable := add_total (totalAvailable t) available |}
    else Ret {| totalInstalled := t1;
                totalUnavailable := totalUnavailable t;
                totalAvailable := totalAvailable t |}
  else Ret {| totalInstalled := t1;
              totalUnavailable := totalUnavailable t;
              totalAvailable := totalAvailable t |}.

Record capacityInfo : Type := {
  installedMW : jsval;
  unavailableMW : jsval;
  availableMW : jsval
}.

(** *** server.js, lines 72-111
<<
const extractCapacityInfo = (row) => {
let totalInstalled = 0; let totalUnavailable = 0; let totalAvailable = 0;
...
parseJSON(row.production_units_json).forEach(unit => {
  totalInstalled += unit.installedCapacity || 0;
  if (unit.fuelType) fuelTypes.add(...);
  if (unit.timePeriods && unit.timePeriods[0]) {
    totalUnavailable += unit.timePeriods[0].unavailableCapacity || 0;
    totalAvailable += unit.timePeriods[0].availableCapacity || 0;
  }
});
parseJSON(row.generation_units_json).forEach(unit => { ... the same ... });
return {
  installedMW: totalInstalled > 0 ? totalInstalled : null,
  unavailableMW: totalUnavailable > 0 ? totalUnavailable : null,
  availableMW: totalAvailable > 0 ? totalAvailable : null,
  fuelType: ...
};
};
>>
    The [fuelTypes] set is a separate accumulator: it reads [unit.fuelType]
    after the first property of [unit] has already been read, cannot throw,
    and never touches the three totals; it is left out. *)
Definition extractCapacityInfo (r : row) : outcome capacityInfo :=
  let zero := {| totalInstalled := TNum 0;
                 totalUnavailable := TNum 0;
                 totalAvailable := TNum 0 |} in
  t1 <- forEach capacity_step (parseJSON (production_units_json r)) zero ;;
  t2 <- forEach capacity_step (parseJSON (generation_units_json r)) t1 ;;
  Ret {| installedMW := positive_or_null (totalInstalled t2);
         unavailableMW := positive_or_null (totalUnavailable t2);
         availableMW := positive_or_null (totalAvailable t2) |}.

(** ** Planned / unplanned classification *)

Inductive status : Type := Planned | Unplanned | Unknown.

Definition status_text (st : status) : string :=
  match st with
  | Planned => "Planned"
  | Unplanned => "Unplanned"
  | Unknown => "Unknown"
  end.

Definition status_eqb (a b : status) : bool :=
  match a, b with
  | Planned, Planned | Unplanned, Unplanned | Unknown, Unknown => true
  | _, _ => false
  end.

Definition plannedKeywords : list string :=
  ["planned"; "maintenance"; "scheduled"].
Definition unplannedKeywords : list string :=
  ["unplanned"; "unexpected"; "fault"; "failure"; "emergency"].

(** [row.unavailability_type ? parseFloat(row.unavailability_type) : null]:
    the numeric code, [None] when the column is empty or absent (null) and
    when it is not a number (NaN); neither is [=== 1] or [=== 2]. *)
Definition unavailabilityType (r : row) : option Q :=
  match unavailability_type r with
  | None => None
  | Some s => if (s =? EmptyString)%string then None else parseFloat s
  end.

(** [code === n] *)
Definition code_is (n : Z) (code : option Q) : bool :=
  match code with
  | Some q => Qeq_bool q (inject_Z n)
  | None => false
  end.

(** [(row.remarks || '').toLowerCase()] *)
Definition lowered_remarks (r : row) : string :=
  toLowerCase (match remarks r with Some s => s | None => EmptyString end).

(** [keywords.some(word => remarks.includes(word))] *)
Definition some_keyword (keywords : list string) (text : string) : bool :=
  existsb (fun word => includes word text) keywords.

(** *** server.js, lines 614-634 (and server-sqlite.js, lines 561-575)
<<
let plannedStatus = 'Unknown';
if (unavailabilityType === 1) {
plannedStatus = 'Planned';
} else if (unavailabilityType === 2) {
plannedStatus = 'Unplanned';
} else {
const remarks = (row.remarks || '').toLowerCase();
...
if (plannedKeywords.some(word => remarks.includes(word))) {
  plannedStatus = 'Planned';
} else if (unplannedKeywords.some(word => remarks.includes(word))) {
  plannedStatus = 'Unplanned';
}
}
>> *)
Definition plannedStatus (r : row) : status :=
  if code_is 1 (unavailabilityType r) then Planned
  else if code_is 2 (unavailabilityType r) then Unplanned
  else if some_keyword plannedKeywords (lowered_remarks r) then Planned
  else if some_keyword unplannedKeywords (lowered_remarks r) then Unplanned
  else Unknown.

(** *** server.js, lines 392-418: the three counters of a unit's
    breakdown. *)
Record breakdown : Type := {
  nPlanned : nat;
  nUnplanned : nat;
  nUnknown : nat
}.

Definition count_as (st : status) (b : breakdown) : breakdown :=
  match st with
  | Planned => {| nPlanned := S (nPlanned b); nUnplanned := nUnplanned b;
                  nUnknown := nUnknown b |}
  | Unplanned => {| nPlanned := nPlanned b; nUnplanned := S (nUnplanned b);
                    nUnknown := nUnknown b |}
  | Unknown => {| nPlanned := nPlanned b; nUnplanned := nUnplanned b;
                  nUnknown := S (nUnknown b) |}
  end.

Definition breakdown_step (b : breakdown) (r : row) : breakdown :=
  if code_is 1 (unavailabilityType r) then count_as Planned b
  else if code_is 2 (unavailabilityType r) then count_as Unplanned b
  else
    let isPlanned := some_keyword plannedKeywords (lowered_remarks r) in
    let isUnplanned := some_keyword unplannedKeywords (lowered_remarks r) in
    if isPlanned then count_as Planned b
    else if isUnplanned then count_as Unplanned b
    else count_as Unknown b.

Definition plannedUnplannedBreakdown (unitData : list row) : breakdown :=
  fold_left breakdown_step unitData
            {| nPlanned := 0; nUnplanned := 0; nUnknown := 0 |}.

(** The rules of the specification, in its words: an ordered list of
    guarded labels, the first guard that holds decides. *)
Fixpoint first_match (rules : list (bool * status)) (default : status)
  : status :=
  match rules with
  | [] => default
  | (guard, label) :: rest => if guard then label else first_match rest default
  end.

Definition classifyStatus_rules (code : option Q) (remarks_lc : string)
  : status :=
  first_match
    [ (code_is 1 code, Planned);
      (code_is 2 code, Unplanned);
      (some_keyword plannedKeywords remarks_lc, Planned);
      (some_keyword unplannedKeywords remarks_lc, Unplanned) ]
    Unknown.

(** ** The outage summary, [/api/outages/summary] of server.js *)

(** A JavaScript object used as a map from strings: its own properties in
    insertion order. Members inherited from [Object.prototype] are not
    modelled: keys are assumed not to name one. *)
Definition jsobject (V : Type) : Type := list (string * V).

Fixpoint obj_get {V : Type} (o : jsobject V) (k : string) : option V :=
  match o with
  | [] => None
  | (k', v) :: rest => if (k' =? k)%string then Some v else obj_get rest k
  end.

(** [o[k] = f(o[k])] when [k] is present, [o[k] = f(fresh)] when it is
    not: a present key keeps its place, a new one goes last. *)
Fixpoint obj_upsert {V : Type} (k : string) (fresh : V) (f : V -> V)
         (o : jsobject V) : jsobject V :=
  match o with
  | [] => [(k, f fresh)]
  | (k', v) :: rest =>
      if (k' =? k)%string then (k', f v) :: rest
      else (k', v) :: obj_upsert k fresh f rest
  end.

(** The value of a string of decimal digits. *)
Fixpoint digits_value (s : string) (acc : N) : option N :=
  match s with
  | EmptyString => Some acc
  | String c rest =>
      let n := nat_of_ascii c in
      if ((48 <=? n)%nat && (n <=? 57)%nat)%bool
      then digits_value rest (10 * acc + N.of_nat (n - 48))%N
      else None
  end.

(** An array index: the canonical decimal text of an integer below
    [2^32 - 1]. Objects enumerate such keys first, in numeric order. *)
Definition array_index (k : string) : option N :=
  match k with
  | EmptyString => None
  | String c rest =>
      if (Ascii.eqb c "0"%char && negb (rest =? EmptyString)%string)%bool
      then None
      else match digits_value k 0%N with
           | Some n => if (n <? 4294967295)%N then Some n else None
           | None => None
           end
  end.

Definition is_array_index (k : string) : bool :=
  match array_index k with Some _ => true | None => false end.

Definition index_of_key (k : string) : N :=
  match array_index k with Some n => n | None => 0%N end.

(** [Object.entries(o)]: array-index keys in ascending numeric order, then
    the other keys in insertion order. *)
Definition Object_entries {V : Type} (o : jsobject V) : list (string * V) :=
  stable_sort (fun a b => (index_of_key (fst a) <=? index_of_key (fst b))%N)
              (filter (fun kv => is_array_index (fst kv)) o)
  ++ filter (fun kv => negb (is_array_index (fst kv))) o.

(** [Object.values(o)] *)
Definition Object_values {V : Type} (o : jsobject V) : list V :=
  map snd (Object_entries o).

(** [xs.slice(0, end)] with [end] an integer or NaN ([None]). *)
Definition slice0 {A : Type} (xs : list A) (stop : option Z) : list A :=
  match stop with
  | None => []
  | Some n =>
      if (n <? 0)%Z
      then firstn (Z.to_nat (Z.of_nat (List.length xs) + n)) xs
      else firstn (Z.to_nat n) xs
  end.

(** The query string of a request: each parameter is a string or absent. *)
Record summaryQuery : Type := {
  q_year : option string;
  q_areas : option string;
  q_messageType : option string;
  q_topN : option string
}.

(** [if (p)] on a query parameter *)
Definition given (p : option string) : bool :=
  match p with
  | Some s => negb (s =? EmptyString)%string
  | None => false
  end.

(** A template literal prints an absent column as [undefined]. *)
Definition column_text (c : option string) : string :=
  match c with Some s => s | None => "undefined" end.

Definition year_text (y : option Z) : string :=
  match y with Some z => Z_to_string z | None => "NaN" end.

(** [new Date(row.publication_date).getFullYear()] *)
Definition eventYear (r : row) : option Z :=
  Date_getFullYear (publication_date r).

(** Lines 580-583: message types 1, 2 and 3 are outages. *)
Definition is_outage (r : row) : bool :=
  match message_type r with
  | None => false
  | Some s => match parseInt s with
              | Some n => ((n =? 1) || (n =? 2) || (n =? 3))%Z
              | None => false
              end
  end.

(** Lines 586-591: [eventYear === parseInt(year)]; NaN equals nothing. *)
Definition in_year (year : string) (r : row) : bool :=
  match eventYear r, parseInt year with
  | Some a, Some b => (a =? b)%Z
  | _, _ => false
  end.

(** Lines 599-605: [rowAreas.some(area => areaList.includes(area))]. *)
Definition in_areas (areaList : list string) (r : row) : outcome bool :=
  rowAreas <- extractAreaNames r ;;
  Ret (existsb (fun area => existsb (fun a => same_value_zero (JStr a) area)
                                    areaList)
               rowAreas).

(** [xs.filter(p)] with a predicate that may throw. *)
Fixpoint filter_outcome {A : Type} (p : A -> outcome bool) (l : list A)
  : outcome (list A) :=
  match l with
  | [] => Ret []
  | x :: rest =>
      keep <- p x ;;
      kept <- filter_outcome p rest ;;
      Ret (if keep then x :: kept else kept)
  end.

(** Lines 576-605. The message-type filter compares the column, a string,
    with a number by [===]: no row passes it. *)
Definition filterRows (q : summaryQuery) (data : list row)
  : outcome (list row) :=
  let f1 := filter is_outage data in
  let f2 := match q_year q with
            | Some y => if (negb (y =? EmptyString) && negb (y =? "all"))%string
                        then filter (in_year y) f1 else f1
            | None => f1
            end in
  let f3 := if given (q_messageType q) then filter (fun _ => false) f2 else f2 in
  match q_areas q with
  | Some a => if negb (a =? EmptyString)%string
              then filter_outcome (in_areas (split_comma a)) f3
              else Ret f3
  | None => Ret f3
  end.

Record summaryItem : Type := {
  s_area : jsval;
  s_year : option Z;
  s_messageType : option string;
  s_plannedStatus : status;
  s_count : nat
}.

(** Line 637, the template literal
    [`${area}|${eventYear}|${messageType}|${plannedStatus}`]. *)
Definition summaryKey (area : jsval) (year : option Z)
           (messageType : option string) (st : status) : string :=
  (ToString area ++ "|" ++ year_text year ++ "|" ++ column_text messageType
     ++ "|" ++ status_text st)%string.

Definition count_up (item : summaryItem) : summaryItem :=
  {| s_area := s_area item; s_year := s_year item;
     s_messageType := s_messageType item;
     s_plannedStatus := s_plannedStatus item;
     s_count := S (s_count item) |}.

(** Lines 636-648, the body of [rowAreas.forEach]. *)
Definition summary_add (year : option Z) (messageType : option string)
           (st : status) (summary : jsobject summaryItem) (area : jsval)
  : jsobject summaryItem :=
  obj_upsert (summaryKey area year messageType st)
             {| s_area := area; s_year := year; s_messageType := messageType;
                s_plannedStatus := st; s_count := 0 |}
             count_up summary.

(** Lines 610-649, the body of [filtered.forEach]. *)
Definition summary_step (summary : jsobject summaryItem) (r : row)
  : outcome (jsobject summaryItem) :=
  rowAreas <- extractAreaNames r ;;
  Ret (fold_left (summary_add (eventYear r) (message_type r) (plannedStatus r))
                 rowAreas summary).

Definition buildSummary (filtered : list row) : outcome (jsobject summaryItem) :=
  forEach summary_step filtered [].

(** Lines 654-660. *)
Definition areaTotals (summaryArray : list summaryItem) : jsobject nat :=
  fold_left (fun totals item =>
               obj_upsert (ToString (s_area item)) 0
                          (fun t => t + s_count item) totals)
            summaryArray [].

(** Line 573: [topN = 10] when the parameter is absent. *)
Definition topN_value (q : summaryQuery) : option Z :=
  match q_topN q with
  | Some s => parseInt s
  | None => Some 10%Z
  end.

(** Lines 662-665. *)
Definition sortedAreaTotals (summaryArray : list summaryItem)
  : list (string * nat) :=
  stable_sort (fun a b => (snd b <=? snd a)%nat)
              (Object_entries (areaTotals summaryArray)).

Definition topAreas (summaryArray : list summaryItem) (topN : option Z)
  : list string :=
  map fst (slice0 (sortedAreaTotals summaryArray) topN).

Record summaryResponse : Type := {
  summary : list summaryItem;
  topAreasOf : list string;
  totalRecords : nat
}.

(** Lines 571-692, from the loaded [data] to the response;  a throw is
    caught by the handler and answered with status 500. The response
    fields [uniqueYears], [uniqueAreas] and [messageTypeLabels] are
    computed from [filtered] alone and are left out. *)
Definition outageSummary (q : summaryQuery) (data : list row)
  : outcome summaryResponse :=
  filtered <- filterRows q data ;;
  grouped <- buildSummary filtered ;;
  let summaryArray := Object_values grouped in
  Ret {| summary := summaryArray;
         topAreasOf := topAreas summaryArray (topN_value q);
         totalRecords := List.length filtered |}.

(** ** Area events of the SQLite back end,
    [/api/outages/area-events] of server-sqlite.js *)

(** A row of the query of lines 436-471: the columns the handler reads.
    A column is [null] ([None]) or holds a value. *)
Record dbRow : Type := {
  db_area_names : option string;
  db_unavailable_mw : option Q;
  db_unavailability_type : option string;
  db_publication_date : option string;
  db_remarks : option string
}.

Record areaEvent : Type := {
  ev_area : string;
  ev_mw : Q;
  ev_status : status;
  ev_publicationDate : option string;
  ev_remarks : option string;
  ev_totalMessageMW : Q;
  ev_affectedAreas : nat
}.

(** Line 478:
    [row.area_names ? row.area_names.split(',').map(a => a.trim()).filter(a => a) : []] *)
Definition areaListOf (r : dbRow) : list string :=
  match db_area_names r with
  | None => []
  | Some s =>
      if (s =? EmptyString)%string then []
      else filter (fun a => negb (a =? EmptyString)%string)
                  (map trim (split_comma s))
  end.

(** Line 479: [areaList.length || 1] *)
Definition numAreasOf (r : dbRow) : nat :=
  match List.length (areaListOf r) with
  | O => 1
  | n => n
  end.

(** [row.unavailable_mw || 0] *)
Definition messageMW (r : dbRow) : Q :=
  match db_unavailable_mw r with
  | Some q => if Qeq_bool q 0 then 0%Q else q
  | None => 0%Q
  end.

(** Line 480: [(row.unavailable_mw || 0) / numAreas] *)
Definition mwPerArea (r : dbRow) : Q :=
  (messageMW r / inject_Z (Z.of_nat (numAreasOf r)))%Q.

(** Lines 484-486 *)
Definition eventStatusOf (r : dbRow) : status :=
  match db_unavailability_type r with
  | Some s => if (s =? "1")%string then Planned
              else if (s =? "2")%string then Unplanned
              else Unknown
  | None => Unknown
  end.

(** Lines 477-498, the events one row is split into. *)
Definition eventsOfRow (r : dbRow) : list areaEvent :=
  map (fun area =>
         {| ev_area := trim area;
            ev_mw := mwPerArea r;
            ev_status := eventStatusOf r;
            ev_publicationDate := db_publication_date r;
            ev_remarks := db_remarks r;
            ev_totalMessageMW := messageMW r;
            ev_affectedAreas := numAreasOf r |})
      (areaListOf r).

Definition eventsOfRows (rows : list dbRow) : list areaEvent :=
  flat_map eventsOfRow rows.

Record areaStat : Type := {
  st_area : string;
  st_totalMW : Q;
  st_count : nat
}.

(** Lines 501-508 (server.js, lines 544-551, is the same loop). *)
Definition areaStats_add (stats : jsobject areaStat) (area : string) (mw : Q)
  : jsobject areaStat :=
  obj_upsert area
             {| st_area := area; st_totalMW := 0; st_count := 0 |}
             (fun st => {| st_area := st_area st;
                           st_totalMW := (st_totalMW st + mw)%Q;
                           st_count := S (st_count st) |})
             stats.

Definition areaStatsOf (events : list areaEvent) (stats : jsobject areaStat)
  : jsobject areaStat :=
  fold_left (fun st ev => areaStats_add st (ev_area ev) (ev_mw ev)) events stats.

(** [Object.values(areaStats).sort((a, b) => b.totalMW - a.totalMW)] *)
Definition sortByTotalMW (stats : jsobject areaStat) : list areaStat :=
  stable_sort (fun a b => Qle_bool (st_totalMW b) (st_totalMW a))
              (Object_values stats).


(** ** Area events of the CSV back end,
    [/api/outages/area-events] of server.js *)

(** A row of umm_area_outage_events.csv. *)
Record eventRow : Type := {
  er_area : option string;
  er_mw : option string;
  er_status : option string;
  er_publication_date : option string;
  er_remarks : option string
}.

Record csvEvent : Type := {
  ce_area : option string;
  ce_mw : Q;
  ce_status : option string
}.

(** [parseFloat(text) || 0]; [parseFloat(undefined)] is NaN. *)
Definition parseFloat_or_0 (text : option string) : Q :=
  match text with
  | None => 0%Q
  | Some s => match parseFloat s with
              | Some q => if Qeq_bool q 0 then 0%Q else q
              | None => 0%Q
              end
  end.

(** Lines 518-526 *)
Definition readEvent (data : eventRow) : csvEvent :=
  {| ce_area := er_area data;
     ce_mw := parseFloat_or_0 (er_mw data);
     ce_status := er_status data |}.

Record eventsQuery : Type := {
  q_mwThreshold : option string;
  q_status : option string;
  q_eventAreas : option string
}.

(** Line 512: [mwThreshold = 400]; line 532: [parseFloat(mwThreshold)]. *)
Definition thresholdOf (q : eventsQuery) : option Q :=
  match q_mwThreshold q with
  | None => Some (400 # 1)%Q
  | Some s => parseFloat s
  end.

(** [event.mw >= threshold]; nothing is [>=] NaN. *)
Definition reaches (threshold : option Q) (mw : Q) : bool :=
  match threshold with
  | Some t => Qle_bool t mw
  | None => false
  end.

Definition option_string_eqb (a b : option string) : bool :=
  match a, b with
  | Some x, Some y => (x =? y)%string
  | None, None => true
  | _, _ => false
  end.

(** Lines 532-541 *)
Definition filterEvents (q : eventsQuery) (results : list csvEvent)
  : list csvEvent :=
  let f1 := filter (fun e => reaches (thresholdOf q) (ce_mw e)) results in
  let statusWanted := match q_status q with Some s => s | None => "Both" end in
  let f2 := if (statusWanted =? "Both")%string then f1
            else filter (fun e => option_string_eqb (ce_status e)
                                                    (Some statusWanted)) f1 in
  if given (q_eventAreas q)
  then filter (fun e => match ce_area e with
                        | Some a => existsb (String.eqb a)
                                      (split_comma (column_text (q_eventAreas q)))
                        | None => false
                        end) f2
  else f2.

(** Lines 544-553; the key of an absent area is the text [undefined]. *)
Definition csvAreaStats (events : list csvEvent) : jsobject areaStat :=
  fold_left (fun st e => areaStats_add st (column_text (ce_area e)) (ce_mw e))
            events [].

Definition csvAreaEventsSummary (q : eventsQuery) (rows : list eventRow)
  : list areaStat :=
  sortByTotalMW (csvAreaStats (filterEvents q (map readEvent rows))).

(** ** Large outages of the prototype server, [buildUmmSummary]
    (the code after main_prototype/QUICKSTART.md) *)

(** A hydrated record: [area] is a string ([extractArea] returns its best
    candidate or the text UNKNOWN) and [capacityAffectedMw] a number
    ([extractCapacityMw] returns [Number(total.toFixed(1))]). *)
Record ummRecord : Type := {
  rec_area : string;
  capacityAffectedMw : Q
}.

Record largeOutage : Type := {
  lo_area : string;
  lo_events : nat;
  maxCapacityMw : Q
}.

(** [item.area || 'UNKNOWN'] *)
Definition areaOf (item : ummRecord) : string :=
  if (rec_area item =? EmptyString)%string then "UNKNOWN" else rec_area item.

(** [Number(item.capacityAffectedMw || 0)] *)
Definition capOf (item : ummRecord) : Q :=
  if Qeq_bool (capacityAffectedMw item) 0 then 0%Q else capacityAffectedMw item.

(** A [Map] with string keys: its entries in insertion order; [set] on a
    present key keeps the key in its place. *)
Fixpoint map_set {V : Type} (k : string) (v : V) (m : list (string * V))
  : list (string * V) :=
  match m with
  | [] => [(k, v)]
  | (k', v') :: rest =>
      if (k' =? k)%string then (k', v) :: rest
      else (k', v') :: map_set k v rest
  end.

(**
<<
if (cap >= 50) {
const current = largeEvents.get(area) || { area, events: 0, maxCapacityMw: 0 };
current.events += 1;
if (cap > current.maxCapacityMw) current.maxCapacityMw = cap;
largeEvents.set(area, current);
}
>> *)
Definition largeEvents_step (largeEvents : list (string * largeOutage))
           (item : ummRecord) : list (string * largeOutage) :=
  let area := areaOf item in
  let cap := capOf item in
  if Qle_bool (50 # 1)%Q cap then
    let current := match obj_get largeEvents area with
                   | Some c => c
                   | None => {| lo_area := area; lo_events := 0;
                                maxCapacityMw := 0 |}
                   end in
    map_set area
            {| lo_area := lo_area current;
               lo_events := S (lo_events current);
               maxCapacityMw := if Qlt_le_dec (maxCapacityMw current) cap
                                then cap else maxCapacityMw current |}
            largeEvents
  else largeEvents.

(** The [largeOutages] field of the result of [buildUmmSummary]:
<<
const largeOutages = Array.from(largeEvents.values()).sort(
(a, b) => b.maxCapacityMw - a.maxCapacityMw);
>>
    The other fields of the result are built by accumulators of their own. *)
Definition largeOutages (records : list ummRecord) : list largeOutage :=
  stable_sort (fun a b => Qle_bool (maxCapacityMw b) (maxCapacityMw a))
              (map snd (fold_left largeEvents_step records [])).

(** ** Loading and caching, [loadData] of server.js *)

(** What the chain [fs.createReadStream(CSV_PATH).pipe(csv())] does after
    the listeners are attached. [pipe] returns its destination, so the
    [data], [end] and [error] listeners of [loadData] are listeners of the
    csv transform. *)
Inductive csvStream : Type :=
| Ends (rows : list row)
  (** a [data] event per row, then [end] *)
| Fails (rows : list row)
  (** a [data] event per row, then [error] on the csv transform: the
      content cannot be parsed *)
| SourceFails.
  (** [error] on the file stream itself: the file cannot be opened or
      read. No listener of [loadData] is attached to that stream. *)

(** How a promise ends. [Unhandled]: an exception is raised outside the
    promise (a listener threw, or an [error] event had no listener); the
    promise stays pending and the exception is the process's. *)
Inductive settlement (A : Type) : Type :=
| Resolved (a : A)
| Rejected
| Unhandled.
Arguments Resolved {A} a.
Arguments Rejected {A}.
Arguments Unhandled {A}.

(** An element of [data]: the columns of the row and the derived fields.
    The [duration] field (a text computed from two dates) is left out. *)
Record loadedRow : Type := {
  raw : row;
  area_names : list jsval;
  production_unit_names : list jsval;
  generation_unit_names : list jsval;
  capacity : capacityInfo
}.

(** Lines 142-157, the [data] listener. *)
Definition on_data (r : row) : outcome loadedRow :=
  areas <- extractAreaNames r ;;
  productionUnits <- extractUnitNames (production_units_json r) ;;
  generationUnits <- extractUnitNames (generation_units_json r) ;;
  cap <- extractCapacityInfo r ;;
  Ret {| raw := r; area_names := areas;
         production_unit_names := productionUnits;
         generation_unit_names := generationUnits;
         capacity := cap |}.

Fixpoint map_outcome {A B : Type} (f : A -> outcome B) (l : list A)
  : outcome (list B) :=
  match l with
  | [] => Ret []
  | x :: rest => y <- f x ;; ys <- map_outcome f rest ;; Ret (y :: ys)
  end.

(** Lines 123-125, the module-level variables. *)
Record cache : Type := {
  cachedData : option (list loadedRow);
  cacheTime : option Z
}.

Definition CACHE_DURATION : Z := 10 * 60 * 1000.

(** Line 130:
    [cachedData && cacheTime && Date.now() - cacheTime < CACHE_DURATION] *)
Definition cache_hit (now : Z) (c : cache) : option (list loadedRow) :=
  match cachedData c, cacheTime c with
  | Some data, Some t =>
      if (negb (t =? 0) && (now - t <? CACHE_DURATION))%Z%bool
      then Some data else None
  | _, _ => None
  end.

(** Lines 127-180. [now] is the clock when [loadData] is called and
    [at_end] the clock when the stream ends. The result is how the
    returned promise ends, and the module-level variables afterwards. *)
Definition loadData (now at_end : Z) (file : csvStream) (c : cache)
  : settlement (list loadedRow) * cache :=
  match cache_hit now c with
  | Some data => (Resolved data, c)
  | None =>
      match file with
      | Ends rows =>
          match map_outcome on_data rows with
          | Ret data => (Resolved data,
                         {| cachedData := Some data; cacheTime := Some at_end |})
          | Throw => (Unhandled, c)
          end
      | Fails rows =>
          match map_outcome on_data rows with
          | Ret _ => (Rejected, c)
          | Throw => (Unhandled, c)
          end
      | SourceFails => (Unhandled, c)
      end
  end.

(** What a request is answered with. [NoResponse]: the handler never
    answers. *)
Inductive response (A : Type) : Type :=
| Ok200 (body : A)
| Status500
| Status503
| NoResponse.
Arguments Ok200 {A} body.
Arguments Status500 {A}.
Arguments Status503 {A}.
Arguments NoResponse {A}.

(** Lines 571-692: [await loadData()] inside [try], the [catch] answers
    500. *)
Definition summaryRoute (q : summaryQuery) (now at_end : Z)
           (file : csvStream) (c : cache)
  : response summaryResponse * cache :=
  match loadData now at_end file c with
  | (Resolved data, c') =>
      match outageSummary q (map raw data) with
      | Ret body => (Ok200 body, c')
      | Throw => (Status500, c')
      end
  | (Rejected, c') => (Status500, c')
  | (Unhandled, c') => (NoResponse, c')
  end.

(** ** Loading at start-up, [loadCSVData] of the prototype back end
    (unnamed/part_002) *)

Record ummMessage : Type := {
  message_id : nat;
  m_area_names : string;
  unavailable_mw : Q;
  installed_mw : Q;
  event_status : string;
  m_publication_date : string;
  message_text : string;
  m_message_type : Z;
  message_type_name : string
}.

(** [text || fallback] on a column *)
Definition column_or (text : option string) (fallback : string) : string :=
  match text with
  | Some s => if (s =? EmptyString)%string then fallback else s
  | None => fallback
  end.

(** Lines 65-72: [statusMap[status] || 3] *)
Definition getMessageType (st : option string) : Z :=
  match st with
  | Some s => if (s =? "Planned")%string then 1
              else if (s =? "Unplanned")%string then 2
              else 3
  | None => 3
  end%Z.

(** Lines 74-76 *)
Definition getMessageTypeName (st : option string) : string :=
  column_or st "Unknown".

(** Lines 35-53, the [data] listener; the fields it sets to constants are
    left out. *)
Definition push_message (messages : list ummMessage) (r : eventRow)
  : list ummMessage :=
  messages ++
  [ {| message_id := List.length messages + 1;
       m_area_names := column_or (er_area r) EmptyString;
       unavailable_mw := parseFloat_or_0 (er_mw r);
       installed_mw := parseFloat_or_0 (er_mw r);
       event_status := column_or (er_status r) "Unknown";
       m_publication_date := column_or (er_publication_date r) EmptyString;
       message_text := column_or (er_remarks r) EmptyString;
       m_message_type := getMessageType (er_status r);
       message_type_name := getMessageTypeName (er_status r) |} ].

(** The data file of the prototype back end: absent
    ([fs.existsSync] is false), or read through the same chain of streams,
    here over rows of the events file. *)
Inductive eventStream : Type :=
| EvEnds (rows : list eventRow)
| EvFails (rows : list eventRow)
| EvSourceFails.

Inductive eventFile : Type :=
| Missing
| Present (s : eventStream).

(** Lines 22-63
<<
if (!fs.existsSync(csvPath)) {
console.error(`CSV file not found: ${csvPath}`);
resolve([]);
return;
}
fs.createReadStream(csvPath).pipe(csv())
.on('data', (row) => { messages.push({ ... }); })
.on('end', () => { resolve(messages); })
.on('error', (error) => { reject(error); });
>> *)
Definition loadCSVData (file : eventFile) : settlement (list ummMessage) :=
  match file with
  | Missing => Resolved []
  | Present (EvEnds rows) => Resolved (fold_left push_message rows [])
  | Present (EvFails _) => Rejected
  | Present EvSourceFails => Unhandled
  end.

(** Lines 18-19, the module-level variables. *)
Record appState : Type := {
  ummMessages : list ummMessage;
  dataLoaded : bool
}.

(** Lines 79-88, run once before the server listens; [None] when the
    process does not get there. *)
Definition initData (file : eventFile) : option appState :=
  match loadCSVData file with
  | Resolved messages => Some {| ummMessages := messages; dataLoaded := true |}
  | Rejected => Some {| ummMessages := []; dataLoaded := false |}
  | Unhandled => None
  end.


End Backend.

Arguments Resolved {A} a.
Arguments Rejected {A}.
Arguments Unhandled {A}.
Arguments Ok200 {A} body.
Arguments Status500 {A}.
Arguments Status503 {A}.
Arguments NoResponse {A}.


(** ** The reference runtime

    A runtime on which the closed examples are evaluated: a parser of JSON
    text and the number readers, for ASCII text and numbers without
    infinities. [JSON_text_parse] accepts the JSON grammar except unicode
    escapes above the ASCII range, which it refuses. *)

Definition is_digit (c : ascii) : bool :=
  let n := nat_of_ascii c in ((48 <=? n)%nat && (n <=? 57)%nat)%bool.

Definition digit_of (c : ascii) : Z := Z.of_nat (nat_of_ascii c - 48).

Definition is_json_space (c : ascii) : bool :=
  let n := nat_of_ascii c in
  ((n =? 32) || (n =? 9) || (n =? 10) || (n =? 13))%nat%bool.

Fixpoint skip_spaces (s : string) : string :=
  match s with
  | EmptyString => EmptyString
  | String c rest => if is_json_space c then skip_spaces rest else s
  end.

(** The digits at the head of [s]: their value on top of [acc], how many
    they are, and what follows them. *)
Fixpoint take_digits (s : string) (acc : Z) (n : nat) : Z * nat * string :=
  match s with
  | EmptyString => (acc, n, s)
  | String c rest =>
      if is_digit c then take_digits rest (10 * acc + digit_of c)%Z (S n)
      else (acc, n, s)
  end.

(** [m * 10^e] *)
Definition scale10 (m e : Z) : Q :=
  if (0 <=? e)%Z then inject_Z (m * 10 ^ e)
  else (m # Pos.pow 10 (Z.to_pos (- e)))%Q.

(** An exponent part [e], [e+] or [e-] followed by digits, when there is
    one: its value and what follows. *)
Definition take_exponent (s : string) : Z * string :=
  match s with
  | String c rest =>
      if (Ascii.eqb c "e" || Ascii.eqb c "E")%bool then
        let '(negative, body) :=
          match rest with
          | String "-" r => (true, r)
          | String "+" r => (false, r)
          | _ => (false, rest)
          end in
        let '(e, n, after) := take_digits body 0%Z 0 in
        match n with
        | O => (0%Z, s)
        | S _ => ((if negative then - e else e)%Z, after)
        end
      else (0%Z, s)
  | EmptyString => (0%Z, s)
  end.

(** A decimal literal at the head of [s]. With [strict] it is a JSON number
    (digits before the point, digits after a point, no leading zero);
    without, the literal [parseFloat] reads (the digits on either side of
    the point may be missing, not both). *)
Definition take_decimal (strict : bool) (s : string) : option (Q * string) :=
  let '(negative, body) :=
    match s with
    | String "-" r => (true, r)
    | String "+" r => if strict then (false, s) else (false, r)
    | _ => (false, s)
    end in
  let '(whole, nw, after_whole) := take_digits body 0%Z 0 in
  let leading_zero :=
    match body with
    | String "0" _ => (1 <? nw)%nat
    | _ => false
    end in
  let '(mantissa, nf, after_frac, dangling_point) :=
    match after_whole with
    | String "." r =>
        let '(m, n, after) := take_digits r whole 0 in
        match n with
        | O => if strict then (whole, 0, after_whole, true)
               else (whole, 0, r, false)
        | S _ => (m, n, after, false)
        end
    | _ => (whole, 0, after_whole, false)
    end in
  if ((nw + nf =? 0)%nat
      || (strict && ((nw =? 0)%nat || leading_zero || dangling_point)))%bool
  then None
  else
    let '(e, rest) := take_exponent after_frac in
    let m := if negative then (- mantissa)%Z else mantissa in
    Some (scale10 m (e - Z.of_nat nf), rest).

Definition hex_digit (c : ascii) : option Z :=
  let n := nat_of_ascii c in
  if is_digit c then Some (Z.of_nat (n - 48))
  else if ((97 <=? n)%nat && (n <=? 102)%nat)%bool then Some (Z.of_nat (n - 87))
  else if ((65 <=? n)%nat && (n <=? 70)%nat)%bool then Some (Z.of_nat (n - 55))
  else None.

(** The text of a JSON string after its opening quote: the string and what
    follows the closing quote. *)
Fixpoint take_string (s : string) : option (string * string) :=
  match s with
  | EmptyString => None
  | String c rest =>
      if Ascii.eqb c "034" then Some (EmptyString, rest)
      else if Ascii.eqb c "\" then
        match rest with
        | String e rest' =>
            let plain (ch : ascii) :=
              match take_string rest' with
              | Some (body, after) => Some (String ch body, after)
              | None => None
              end in
            if Ascii.eqb e "034" then plain "034"%char
            else if Ascii.eqb e "\" then plain "\"%char
            else if Ascii.eqb e "/" then plain "/"%char
            else if Ascii.eqb e "b" then plain "008"%char
            else if Ascii.eqb e "f" then plain "012"%char
            else if Ascii.eqb e "n" then plain "010"%char
            else if Ascii.eqb e "r" then plain "013"%char
            else if Ascii.eqb e "t" then plain "009"%char
            else if Ascii.eqb e "u" then
              match rest' with
              | String h1 (String h2 (String h3 (String h4 rest''))) =>
                  match hex_digit h1, hex_digit h2, hex_digit h3, hex_digit h4 with
                  | Some a, Some b, Some c', Some d =>
                      let code := (((a * 16 + b) * 16 + c') * 16 + d)%Z in
                      if (code <? 128)%Z then
                        match take_string rest'' with
                        | Some (body, after) =>
                            Some (String (ascii_of_nat (Z.to_nat code)) body, after)
                        | None => None
                        end
                      else None
                  | _, _, _, _ => None
                  end
              | _ => None
              end
            else None
        | EmptyString => None
        end
      else if (nat_of_ascii c <? 32)%nat then None
      else match take_string rest with
           | Some (body, after) => Some (String c body, after)
           | None => None
           end
  end.

(** The elements of an array after its opening bracket or a comma. *)
Fixpoint take_items (value : string -> option (jsval * string)) (fuel : nat)
         (s : string) : option (list jsval * string) :=
  match fuel with
  | O => None
  | S fuel' =>
      match value s with
      | None => None
      | Some (v, after) =>
          match skip_spaces after with
          | String "," rest =>
              match take_items value fuel' rest with
              | Some (vs, after') => Some (v :: vs, after')
              | None => None
              end
          | String "]" rest => Some ([v], rest)
          | _ => None
          end
      end
  end.

(** The members of an object after its opening brace or a comma. *)
Fixpoint take_members (value : string -> option (jsval * string)) (fuel : nat)
         (s : string) : option (list (string * jsval) * string) :=
  match fuel with
  | O => None
  | S fuel' =>
      match skip_spaces s with
      | String q after_quote =>
          if Ascii.eqb q "034" then
            match take_string after_quote with
            | None => None
            | Some (key, after_key) =>
                match skip_spaces after_key with
                | String ":" after_colon =>
                    match value after_colon with
                    | None => None
                    | Some (v, after) =>
                        match skip_spaces after with
                        | String "," rest =>
                            match take_members value fuel' rest with
                            | Some (ms, after') => Some ((key, v) :: ms, after')
                            | None => None
                            end
                        | String "}" rest => Some ([(key, v)], rest)
                        | _ => None
                        end
                    end
                | _ => None
                end
            end
          else None
      | EmptyString => None
      end
  end.

Definition take_literal (word : string) (v : jsval) (s : string)
  : option (jsval * string) :=
  if prefix word s
  then Some (v, substring (String.length word)
                          (String.length s - String.length word) s)
  else None.

(** A JSON value at the head of [s] (after spaces), nested at most [fuel]
    deep. *)
Fixpoint take_value (fuel : nat) (s : string) : option (jsval * string) :=
  match fuel with
  | O => None
  | S fuel' =>
      let s := skip_spaces s in
      match s with
      | EmptyString => None
      | String c rest =>
          if Ascii.eqb c "n" then take_literal "null" JNull s
          else if Ascii.eqb c "t" then take_literal "true" (JBool true) s
          else if Ascii.eqb c "f" then take_literal "false" (JBool false) s
          else if Ascii.eqb c "034" then
            match take_string rest with
            | Some (text, after) => Some (JStr text, after)
            | None => None
            end
          else if Ascii.eqb c "[" then
            match skip_spaces rest with
            | String "]" after => Some (JArr [], after)
            | inner =>
                match take_items (take_value fuel') (String.length inner) inner with
                | Some (vs, after) => Some (JArr vs, after)
                | None => None
                end
            end
          else if Ascii.eqb c "{" then
            match skip_spaces rest with
            | String "}" after => Some (JObj [], after)
            | inner =>
                match take_members (take_value fuel') (String.length inner) inner with
                | Some (ms, after) => Some (JObj ms, after)
                | None => None
                end
            end
          else
            match take_decimal true s with
            | Some (q, after) => Some (JNum q, after)
            | None => None
            end
      end
  end.

(** [JSON.parse(s)] on the reference runtime. *)
Definition JSON_text_parse (s : string) : option jsval :=
  match take_value (S (String.length s)) s with
  | Some (v, after) =>
      match skip_spaces after with
      | EmptyString => Some v
      | String _ _ => None
      end
  | None => None
  end.

(** [parseFloat(s)]: the decimal literal at the head of the trimmed text. *)
Definition ref_parseFloat (s : string) : option Q :=
  match take_decimal false (trim_start s) with
  | Some (q, _) => Some q
  | None => None
  end.

(** The hexadecimal digits at the head of [s]. *)
Fixpoint take_hex (s : string) (acc : Z) (n : nat) : Z * nat :=
  match s with
  | EmptyString => (acc, n)
  | String c rest =>
      match hex_digit c with
      | Some d => take_hex rest (16 * acc + d)%Z (S n)
      | None => (acc, n)
      end
  end.

(** [parseInt(s)]: the integer at the head of the trimmed text, decimal or,
    after the prefix 0x, hexadecimal. *)
Definition ref_parseInt (s : string) : option Z :=
  let t := trim_start s in
  let '(negative, body) :=
    match t with
    | String "-" r => (true, r)
    | String "+" r => (false, r)
    | _ => (false, t)
    end in
  let '(v, n) :=
    match body with
    | String "0" (String x r) =>
        if (Ascii.eqb x "x" || Ascii.eqb x "X")%bool then take_hex r 0%Z 0
        else let '(v, n, _) := take_digits body 0%Z 0 in (v, n)
    | _ => let '(v, n, _) := take_digits body 0%Z 0 in (v, n)
    end in
  match n with
  | O => None
  | S _ => Some (if negative then - v else v)%Z
  end.

(** The year of a date text that starts with four digits and a dash, as
    ISO dates do; any other text is an invalid date. *)
Definition ref_getFullYear (text : option string) : option Z :=
  match text with
  | Some (String a (String b (String c (String d (String "-" _))))) =>
      if (is_digit a && is_digit b && is_digit c && is_digit d)%bool
      then Some (((digit_of a * 10 + digit_of b) * 10 + digit_of c) * 10
                 + digit_of d)%Z
      else None
  | _ => None
  end.

(** The digits of [n / d] after the point, at most [k] of them. *)
Fixpoint fraction_digits (k : nat) (n d : Z) : string :=
  match k with
  | O => EmptyString
  | S k' =>
      if (n =? 0)%Z then EmptyString
      else String (ascii_of_nat (48 + Z.to_nat (10 * n / d)))
                  (fraction_digits k' ((10 * n) mod d) d)
  end.

(** [String(q)], exact for integers and for decimals of at most twenty
    places. *)
Definition ref_Number_toString (q : Q) : string :=
  let r := Qred q in
  let n := Qnum r in
  let d := Z.pos (Qden r) in
  let whole := Z.quot n d in
  let part := Z.abs (Z.rem n d) in
  if (part =? 0)%Z then Z_to_string whole
  else ((if (n <? 0)%Z then "-" else EmptyString)
          ++ Z_to_string (Z.abs whole) ++ "." ++ fraction_digits 20 part d)%string.

(** The number a whole text denotes; the empty text denotes 0. *)
Definition ref_String_toNumber (s : string) : option Q :=
  match trim s with
  | EmptyString => Some 0%Q
  | t => match take_decimal false t with
         | Some (q, EmptyString) => Some q
         | _ => None
         end
  end.

Definition RefRuntime : JSRuntime :=
  {| JSON_parse := JSON_text_parse;
     parseFloat := ref_parseFloat;
     parseInt := ref_parseInt;
     Date_getFullYear := ref_getFullYear;
     Number_toString := ref_Number_toString;
     String_toNumber := ref_String_toNumber;
     JSON_parse_empty := eq_refl;
     JSON_parse_null := eq_refl |}.

(** ** Capacity extraction of the prototype server, [extractCapacityMw]
    (the code after main_prototype/QUICKSTART.md) *)

Definition is_nullish (v : jsval) : bool :=
  match v with
  | JUndefined | JNull => true
  | _ => false
  end.

(** [item?.k] for the property names the sources read: the value of the
    property, [undefined] when the item is null or has no such property. *)
Definition field_of (k : string) (item : jsval) : jsval :=
  match item with
  | JObj fields => assoc_last k fields
  | _ => JUndefined
  end.

(** [Number(x.toFixed(1))]: [x] rounded to one decimal, a half going away
    from zero. *)
Definition toFixed1 (x : Q) : Q :=
  if Qlt_le_dec x 0
  then (- (Qfloor (- x * 10 + (1 # 2)) # 10))%Q
  else (Qfloor (x * 10 + (1 # 2)) # 10)%Q.

Section Prototype.
Context {RT : JSRuntime}.

(**
<<
function safeJsonParseArray(value) {
  if (!value || typeof value !== "string") return [];
  const trimmed = value.trim();
  if (!trimmed) return [];
  try {
    const parsed = JSON.parse(trimmed);
    if (Array.isArray(parsed)) return parsed;
    if (parsed && typeof parsed === "object") return [parsed];
  } catch (err) {
    return [];
  }
  return [];
}
>> *)
Definition safeJsonParseArray (value : option string) : list jsval :=
  match value with
  | None => []
  | Some s =>
      if (s =? EmptyString)%string then []
      else
        let trimmed := trim s in
        if (trimmed =? EmptyString)%string then []
        else match JSON_parse trimmed with
             | Some (JArr items) => items
             | Some (JObj fields) => [JObj fields]
             | Some _ => []
             | None => []
             end
  end.

(** [Number(v)], [None] for NaN. *)
Definition Number_of (v : jsval) : option Q :=
  match v with
  | JNum q => Some q
  | JBool b => Some (if b then 1 else 0)%Q
  | JNull => Some 0%Q
  | JUndefined => None
  | JStr s => String_toNumber s
  | JArr _ | JObj _ => String_toNumber (ToString v)
  end.

(** [Number(v) || 0] *)
Definition number_or_zero (v : jsval) : Q :=
  match Number_of v with
  | Some q => if Qeq_bool q 0 then 0%Q else q
  | None => 0%Q
  end.

(**
<<
if (period?.unavailableCapacity != null) {
  total += Number(period.unavailableCapacity) || 0;
}
>> *)
Definition period_step (total : Q) (period : jsval) : Q :=
  let value := field_of "unavailableCapacity" period in
  if is_nullish value then total else (total + number_or_zero value)%Q.

(**
<<
const periods = Array.isArray(unit?.timePeriods) ? unit.timePeriods : [];
for (const period of periods) { ... }
>> *)
Definition unit_step (total : Q) (unit : jsval) : Q :=
  match field_of "timePeriods" unit with
  | JArr periods => fold_left period_step periods total
  | _ => total
  end.

(**
<<
function extractCapacityMw(record) {
  let total = 0;
  for (const unit of safeJsonParseArray(record.production_units_json)) { ... }
  return Number(total.toFixed(1));
}
>>
    The result is the field [capacityAffectedMw] of a hydrated record. *)
Definition extractCapacityMw (record : row) : Q :=
  toFixed1 (fold_left unit_step
                      (safeJsonParseArray (production_units_json record)) 0%Q).

(** ** Area of a record and loading in the prototype server *)

(**
<<
const appendArea = (value) => {
  if (!value) return;
  const trimmed = String(value).trim();
  if (trimmed) areas.push(trimmed.toUpperCase());
};
>> *)
Definition appendArea (areas : list string) (value : jsval) : list string :=
  if truthy value then
    let trimmed := trim (ToString value) in
    if (trimmed =? EmptyString)%string then areas
    else areas ++ [toUpperCase trimmed]
  else areas.

Definition is_upper (c : ascii) : bool :=
  let n := nat_of_ascii c in ((65 <=? n)%nat && (n <=? 90)%nat)%bool.

(** [/^[A-Z]{2}\d$/.test(value) || /^NO\d$/i.test(value)] *)
Definition zone_code (value : string) : bool :=
  match value with
  | String a (String b (String d EmptyString)) =>
      ((is_upper a && is_upper b && is_digit d)
       || ((Ascii.eqb a "N" || Ascii.eqb a "n")
           && (Ascii.eqb b "O" || Ascii.eqb b "o") && is_digit d))%bool
  | _ => false
  end.

(**
<<
function extractArea(record) {
  const areas = [];
  ...
  for (const item of safeJsonParseArray(record.areas_json)) appendArea(item?.name);
  for (const item of safeJsonParseArray(record.production_units_json))
    appendArea(item?.areaName);
  for (const item of safeJsonParseArray(record.generation_units_json))
    appendArea(item?.areaName);
  const code = areas.find((value) => ...);
  if (code) return code;
  return areas[0] || "UNKNOWN";
}
>> *)
Definition collectedAreas (record : row) : list string :=
  let a1 := fold_left (fun areas item => appendArea areas (field_of "name" item))
                      (safeJsonParseArray (areas_json record)) [] in
  let a2 := fold_left (fun areas item => appendArea areas (field_of "areaName" item))
                      (safeJsonParseArray (production_units_json record)) a1 in
  fold_left (fun areas item => appendArea areas (field_of "areaName" item))
            (safeJsonParseArray (generation_units_json record)) a2.

Definition extractArea (record : row) : string :=
  let areas := collectedAreas record in
  match find zone_code areas with
  | Some code => code
  | None => match areas with
            | first :: _ => first
            | [] => "UNKNOWN"
            end
  end.

(** [hydrateUmmRecord]: the two fields of the record that the summary of
    large outages reads; the other fields are left out. *)
Definition hydrateUmmRecord (raw : row) : ummRecord :=
  {| rec_area := extractArea raw;
     capacityAffectedMw := extractCapacityMw raw |}.




End Prototype.

(** ** Notions the properties are stated with *)

Section Wording.
Context {RT : JSRuntime}.

(** A parsed value that is one object, number, string or boolean. *)
Definition single_value (v : jsval) : Prop :=
  match v with
  | JObj _ | JNum _ | JStr _ | JBool _ => True
  | JUndefined | JNull | JArr _ => False
  end.

(** A column that holds text [JSON.parse] accepts. *)
Definition decodes (field : option string) : bool :=
  match field with
  | Some s => match JSON_parse s with Some _ => true | None => false end
  | None => false
  end.

(** A column whose text [JSON.parse] rejects. *)
Definition malformed (field : option string) : Prop :=
  exists s, field = Some s /\ JSON_parse s = None.

Definition empty_or_malformed (field : option string) : Prop :=
  field = None \/ field = Some EmptyString \/ malformed field.

Definition keep_if_decodes (field : option string) : option string :=
  if decodes field then field else None.

(** The row with every malformed sub-document column removed. *)
Definition without_malformed (r : row) : row :=
  {| areas_json := keep_if_decodes (areas_json r);
     production_units_json := keep_if_decodes (production_units_json r);
     generation_units_json := keep_if_decodes (generation_units_json r);
     transmission_units_json := keep_if_decodes (transmission_units_json r);
     message_type := message_type r;
     publication_date := publication_date r;
     unavailability_type := unavailability_type r;
     remarks := remarks r |}.

Definition all_empty_or_malformed (r : row) : Prop :=
  empty_or_malformed (areas_json r)
  /\ empty_or_malformed (production_units_json r)
  /\ empty_or_malformed (generation_units_json r)
  /\ empty_or_malformed (transmission_units_json r).

(** What [on_data] stores for a row without any sub-document. *)
Definition blank_loaded (r : row) : loadedRow :=
  {| raw := r;
     area_names := [];
     production_unit_names := [];
     generation_unit_names := [];
     capacity := {| installedMW := JNull; unavailableMW := JNull;
                    availableMW := JNull |} |}.

End Wording.

(** ** Rows of the examples *)

Definition empty_row : row :=
  {| areas_json := None; production_units_json := None;
     generation_units_json := None; transmission_units_json := None;
     message_type := None; publication_date := None;
     unavailability_type := None; remarks := None |}.

Definition with_areas (r : row) (text : string) : row :=
  {| areas_json := Some (json_text text);
     production_units_json := production_units_json r;
     generation_units_json := generation_units_json r;
     transmission_units_json := transmission_units_json r;
     message_type := message_type r;
     publication_date := publication_date r;
     unavailability_type := unavailability_type r;
     remarks := remarks r |}.

Definition with_production (r : row) (text : string) : row :=
  {| areas_json := areas_json r;
     production_units_json := Some (json_text text);
     generation_units_json := generation_units_json r;
     transmission_units_json := transmission_units_json r;
     message_type := message_type r;
     publication_date := publication_date r;
     unavailability_type := unavailability_type r;
     remarks := remarks r |}.


Definition with_transmission (r : row) (text : string) : row :=
  {| areas_json := areas_json r;
     production_units_json := production_units_json r;
     generation_units_json := generation_units_json r;
     transmission_units_json := Some (json_text text);
     message_type := message_type r;
     publication_date := publication_date r;
     unavailability_type := unavailability_type r;
     remarks := remarks r |}.

Definition with_message (r : row) (type date code text : option string) : row :=
  {| areas_json := areas_json r;
     production_units_json := production_units_json r;
     generation_units_json := generation_units_json r;
     transmission_units_json := transmission_units_json r;
     message_type := type;
     publication_date := date;
     unavailability_type := code;
     remarks := text |}.

(** An area named by the areas sub-list and a different one by a
    production unit. *)
Definition areas_then_production_row : row :=
  with_production (with_areas empty_row "[{'name':'NO2'}]")
                  "[{'areaName':'NO1'}]".

(** An area name in lower case between spaces. *)
Definition untrimmed_row : row :=
  with_areas empty_row "[{'name':' no2 '}]".

(** A sub-document that is valid JSON and holds a null element. *)
Definition null_item_row : row := with_areas empty_row "[null]".



(** Scenario A of the specification. *)
Definition scenario_A_row : row :=
  with_message
    (with_production empty_row
       "[{'areaName':'NO2','timePeriods':[{'unavailableCapacity':120}]}]")
    (Some "1") None None None.

(** Scenario C of the specification, as a row of the messages table of the
    SQLite back end: one message over NO1 and NO2 with 100 MW. *)
Definition scenario_C_dbRow : dbRow :=
  {| db_area_names := Some "NO1,NO2";
     db_unavailable_mw := Some (100 # 1)%Q;
     db_unavailability_type := Some "1";
     db_publication_date := Some "2020-01-05";
     db_remarks := None |}.

(** The same message as a row of the CSV back end. *)
Definition scenario_C_row : row :=
  with_message (with_areas empty_row "[{'name':'NO1'},{'name':'NO2'}]")
               (Some "1") (Some "2020-01-05") (Some "1") None.

Definition no_filter : summaryQuery :=
  {| q_year := None; q_areas := None; q_messageType := None; q_topN := None |}.


(** The module-level variables of server.js before the first load. *)
Definition empty_cache : cache := {| cachedData := None; cacheTime := None |}.


(** ** Area and capacity extraction, in the words of the properties *)

Section ExtractionWording.
Context {RT : JSRuntime}.

(** The candidate area names of a row, in the order of collection. *)
Definition areaCandidates (r : row) : list jsval :=
  map (field_of "name") (parseJSON (areas_json r))
  ++ map (field_of "areaName") (parseJSON (production_units_json r))
  ++ map (field_of "areaName") (parseJSON (generation_units_json r))
  ++ flat_map (fun item => [field_of "inAreaName" item;
                            field_of "outAreaName" item])
              (parseJSON (transmission_units_json r)).

(** The truthy candidates, each once, in the order of first occurrence. *)
Definition dedup_truthy (candidates : list jsval) : list jsval :=
  fold_left add_if_truthy candidates [].

(** Every item of the four sub-documents is a value with properties (not
    null). *)
Definition items_defined (r : row) : Prop :=
  Forall (fun v => is_nullish v = false)
         (parseJSON (areas_json r) ++ parseJSON (production_units_json r)
          ++ parseJSON (generation_units_json r)
          ++ parseJSON (transmission_units_json r)).

(** The area set as the specification words it: each string candidate
    trimmed and upper-cased, the empty ones dropped, duplicates removed, in
    the order of collection. *)
Fixpoint dedup_strings (seen l : list string) : list string :=
  match l with
  | [] => []
  | s :: rest =>
      if existsb (String.eqb s) seen then dedup_strings seen rest
      else s :: dedup_strings (s :: seen) rest
  end.

Definition string_candidates (candidates : list jsval) : list string :=
  flat_map (fun v => match v with JStr s => [s] | _ => [] end) candidates.

Definition claimed_areas (candidates : list jsval) : list string :=
  dedup_strings []
    (filter (fun s => negb (s =? EmptyString)%string)
            (map (fun s => toUpperCase (trim s)) (string_candidates candidates))).










End ExtractionWording.

(** ** Grouping, in the words of the properties *)

Section GroupingWording.
Context {RT : JSRuntime}.

(** The grouping tuple (area, year, outage type, status) of a summary row. *)
Definition groupingTuple (item : summaryItem)
  : jsval * option Z * option string * status :=
  (s_area item, s_year item, s_messageType item, s_plannedStatus item).

Definition keyOfItem (item : summaryItem) : string :=
  summaryKey (s_area item) (s_year item) (s_messageType item)
             (s_plannedStatus item).








(** The invariant of the summary object: its keys are pairwise different
    and each row is stored under the key of its own tuple. *)
Definition summary_ok (summary : jsobject summaryItem) : Prop :=
  NoDup (map fst summary)
  /\ forall k item, In (k, item) summary -> k = keyOfItem item.


End GroupingWording.

(** ** Large events, in the words of the properties *)

Section LargeEventWording.
Context {RT : JSRuntime}.






End LargeEventWording.



Definition threshold_50 : eventsQuery :=
  {| q_mwThreshold := Some "50"; q_status := None; q_eventAreas := None |}.


(** ** The other functions of the back ends *)

(** The property names every object literal inherits from
    [Object.prototype]: a lookup [o[k]] with one of them finds the inherited
    member, not an absent key. The properties below that key an object
    literal by a text of the data ask that the text is none of them. *)
Definition inherited_name (k : string) : bool :=
  existsb (String.eqb k)
          [ "constructor"; "__proto__"; "hasOwnProperty"; "isPrototypeOf";
            "propertyIsEnumerable"; "toLocaleString"; "toString"; "valueOf";
            "__defineGetter__"; "__defineSetter__"; "__lookupGetter__";
            "__lookupSetter__" ].

Section MoreWording.
Context {RT : JSRuntime}.

(** [item.name || item.productionUnitName || item.generationUnitName] on an
    item that is not null. *)
Definition unitNameOf (item : jsval) : jsval :=
  js_or (field_of "name" item)
        (js_or (field_of "productionUnitName" item)
               (field_of "generationUnitName" item)).

(** The number of areas [extractAreaNames] finds on a row. *)
Definition areaCount (r : row) : nat :=
  match extractAreaNames r with
  | Ret areas => List.length areas
  | Throw => 0
  end.

(** A row on which the listener of [loadData] returns. *)
Definition loads (r : row) : Prop := exists d, on_data r = Ret d.

End MoreWording.

(** A production sub-document that is valid JSON and holds a null
    element. *)
Definition null_unit_row : row := with_production empty_row "[null]".

(** Two units, the second named twice over: by [name] and by
    [productionUnitName]. *)
Definition two_units_text : string :=
  json_text "[{'productionUnitName':'Tonstad'},{'name':'Aurland','productionUnitName':'Other'},{'name':'Aurland'}]".

(** A message of type 1 without a code whose remarks speak of an unplanned
    stop. *)
Definition unplanned_remark_row : row :=
  with_message empty_row (Some "1") (Some "2021-03-04") None
               (Some "Unplanned stop of the unit").


(** ** The answers of the area events routes *)

(** The sum of a list of numbers. *)
Definition sum_Q (l : list Q) : Q := fold_right Qplus 0%Q l.

Section AreaEventAnswers.
Context {RT : JSRuntime}.

(** *** server-sqlite.js, lines 473-520: from the rows of the query to the
    answer.
<<
const uniqueAreas = [...new Set(events.map(e => e.area))].sort();
res.json({ events, summary, uniqueAreas, totalEvents: events.length });
>> *)
Record dbAreaEvents : Type := {
  dbe_events : list areaEvent;
  dbe_summary : list areaStat;
  dbe_uniqueAreas : list string;
  dbe_totalEvents : nat
}.

Definition dbAreaEventsOf (rows : list dbRow) : dbAreaEvents :=
  let events := eventsOfRows rows in
  {| dbe_events := events;
     dbe_summary := sortByTotalMW (areaStatsOf events []);
     dbe_uniqueAreas := stable_sort String.leb
                                    (dedup_strings [] (map ev_area events));
     dbe_totalEvents := List.length events |}.

(** The capacity of a message that reaches the events: that of the message
    when it lists an area, nothing when it lists none. *)
Definition carriedMW (r : dbRow) : Q :=
  match areaListOf r with
  | [] => 0%Q
  | _ :: _ => messageMW r
  end.

End AreaEventAnswers.

(** Two messages of the SQLite back end: 100 MW over NO1 and NO2, and
    60 MW with NO1 listed twice. *)
Definition repeated_area_rows : list dbRow :=
  [ scenario_C_dbRow;
    {| db_area_names := Some "NO1, NO1";
       db_unavailable_mw := Some (60 # 1)%Q;
       db_unavailability_type := Some "2";
       db_publication_date := Some "2020-01-04";
       db_remarks := None |} ].

(** Three events of the CSV back end, of 30, 80 and 500 MW. *)
Definition three_event_rows : list eventRow :=
  [ {| er_area := Some "SE3"; er_mw := Some "30"; er_status := Some "Planned";
       er_publication_date := None; er_remarks := None |};
    {| er_area := Some "SE3"; er_mw := Some "80"; er_status := Some "Unplanned";
       er_publication_date := None; er_remarks := None |};
    {| er_area := Some "NO2"; er_mw := Some "500"; er_status := Some "Planned";
       er_publication_date := None; er_remarks := None |} ].

(** ** The summary of the prototype server, [buildUmmSummary]
    (the code after main_prototype/QUICKSTART.md) *)

Section PrototypeSummary.
Context {RT : JSRuntime}.

(** [Number(value)] on a column: NaN for an absent column. *)
Definition Number_of_column (value : option string) : option Q :=
  match value with
  | Some s => String_toNumber s
  | None => None
  end.

(**
<<
const EVENT_STATUS_LABELS = { 1: "Active", 3: "Cancelled / postponed" };
function mapEventStatus(value) {
  const numeric = Number(value);
  return EVENT_STATUS_LABELS[numeric] || "Other";
}
>>
    The key of the lookup is the text of a number, which names no
    inherited member. *)
Definition mapEventStatus (value : option string) : string :=
  match Number_of_column value with
  | Some n => if Qeq_bool n 1 then "Active"
              else if Qeq_bool n 3 then "Cancelled / postponed"
              else "Other"
  | None => "Other"
  end.

(**
<<
const MESSAGE_TYPE_LABELS = {
  1: "Production unavailability", 2: "Consumption unavailability",
  3: "Transmission outage", 4: "Market notice",
  5: "Other market information" };
function mapMessageType(value) {
  const numeric = Number(value);
  return MESSAGE_TYPE_LABELS[numeric] || "Other";
}
>> *)
Definition mapMessageType (value : option string) : string :=
  match Number_of_column value with
  | Some n => if Qeq_bool n 1 then "Production unavailability"
              else if Qeq_bool n 2 then "Consumption unavailability"
              else if Qeq_bool n 3 then "Transmission outage"
              else if Qeq_bool n 4 then "Market notice"
              else if Qeq_bool n 5 then "Other market information"
              else "Other"
  | None => "Other"
  end.

(** A record as [buildUmmSummary] reads it: the area and the capacity
    ([item_core]), the [status] and the [outageType]. *)
Record ummItem : Type := {
  item_core : ummRecord;
  item_status : string;
  outageType : string
}.

(** [hydrateUmmRecord], with the fields [status] and [outageType];
    [event_status] is the column of that name, which [row] does not
    carry. *)
Definition hydrateItem (raw : row) (event_status : option string) : ummItem :=
  {| item_core := hydrateUmmRecord raw;
     item_status := mapEventStatus event_status;
     outageType := mapMessageType (message_type raw) |}.

(** [item.status || "Unknown"], [item.outageType || "Other"] *)
Definition statusOf (item : ummItem) : string :=
  if (item_status item =? EmptyString)%string then "Unknown"
  else item_status item.

Definition typeOf (item : ummItem) : string :=
  if (outageType item =? EmptyString)%string then "Other"
  else outageType item.

(** [m.set(k, (m.get(k) || 0) + 1)] *)
Definition count_in (m : list (string * nat)) (k : string)
  : list (string * nat) :=
  map_set k (match obj_get m k with Some n => n | None => 0 end + 1) m.

(** [m.set(k, (m.get(k) || 0) + x)] *)
Definition add_in (m : list (string * Q)) (k : string) (x : Q)
  : list (string * Q) :=
  map_set k ((match obj_get m k with
              | Some q => if Qeq_bool q 0 then 0 else q
              | None => 0
              end) + x)%Q m.

(** The five maps and the two counters of the loop. *)
Record summaryState : Type := {
  totalsByArea : list (string * nat);
  capacityByArea : list (string * Q);
  statusCounts : list (string * nat);
  typeCounts : list (string * nat);
  largeEvents : list (string * largeOutage);
  capacitySum : Q;
  activeCount : nat
}.

(**
<<
for (const item of records) {
  const area = item.area || "UNKNOWN";
  const cap = Number(item.capacityAffectedMw || 0);
  const status = item.status || "Unknown";
  const type = item.outageType || "Other";
  totalsByArea.set(area, (totalsByArea.get(area) || 0) + 1);
  capacityByArea.set(area, (capacityByArea.get(area) || 0) + cap);
  statusCounts.set(status, (statusCounts.get(status) || 0) + 1);
  typeCounts.set(type, (typeCounts.get(type) || 0) + 1);
  capacitySum += cap;
  if (status === "Active") activeCount += 1;
  if (cap >= 50) { ... }
}
>> *)
Definition summary_loop (s : summaryState) (item : ummItem) : summaryState :=
  let area := areaOf (item_core item) in
  let cap := capOf (item_core item) in
  let status := statusOf item in
  let type := typeOf item in
  {| totalsByArea := count_in (totalsByArea s) area;
     capacityByArea := add_in (capacityByArea s) area cap;
     statusCounts := count_in (statusCounts s) status;
     typeCounts := count_in (typeCounts s) type;
     largeEvents := largeEvents_step (largeEvents s) (item_core item);
     capacitySum := (capacitySum s + cap)%Q;
     activeCount := if (status =? "Active")%string then S (activeCount s)
                    else activeCount s |}.

Definition summary_start : summaryState :=
  {| totalsByArea := []; capacityByArea := []; statusCounts := [];
     typeCounts := []; largeEvents := []; capacitySum := 0%Q;
     activeCount := 0 |}.

Record areaTotal : Type := {
  at_area : string;
  issues : nat;
  capacityMw : Q
}.

(** The result: the fields of [overview], then [areaTotals] and
    [largeOutages]. *)
Record ummSummary : Type := {
  totalMessages : nat;
  activeMessages : nat;
  totalCapacityAffectedMw : Q;
  statusBreakdown : list (string * nat);
  outageTypeBreakdown : list (string * nat);
  areaTotalsOf : list areaTotal;
  largeOutagesOf : list largeOutage
}.

(** [capacityByArea.get(area) || 0] *)
Definition capacity_at (m : list (string * Q)) (area : string) : Q :=
  match obj_get m area with
  | Some q => if Qeq_bool q 0 then 0%Q else q
  | None => 0%Q
  end.

(**
<<
const areaTotals = Array.from(totalsByArea.entries())
  .map(([area, issues]) => ({ area, issues,
    capacityMw: Number((capacityByArea.get(area) || 0).toFixed(1)) }))
  .sort((a, b) => b.issues - a.issues);
const statusBreakdown = Array.from(statusCounts.entries())
  .map(([status, count]) => ({ status, count }))
  .sort((a, b) => b.count - a.count);
const outageTypeBreakdown = ... typeCounts ... ;
const largeOutages = Array.from(largeEvents.values()).sort(
  (a, b) => b.maxCapacityMw - a.maxCapacityMw);
return { overview: { totalMessages: records.length,
    activeMessages: activeCount,
    totalCapacityAffectedMw: Number(capacitySum.toFixed(1)),
    statusBreakdown, outageTypeBreakdown },
  areaTotals, largeOutages };
>> *)
Definition buildUmmSummary (records : list ummItem) : ummSummary :=
  let s := fold_left summary_loop records summary_start in
  {| totalMessages := List.length records;
     activeMessages := activeCount s;
     totalCapacityAffectedMw := toFixed1 (capacitySum s);
     statusBreakdown := stable_sort (fun a b => (snd b <=? snd a)%nat)
                                    (statusCounts s);
     outageTypeBreakdown := stable_sort (fun a b => (snd b <=? snd a)%nat)
                                        (typeCounts s);
     areaTotalsOf :=
       stable_sort (fun a b => (issues b <=? issues a)%nat)
                   (map (fun e => {| at_area := fst e;
                                     issues := snd e;
                                     capacityMw :=
                                       toFixed1 (capacity_at (capacityByArea s)
                                                             (fst e)) |})
                        (totalsByArea s));
     largeOutagesOf :=
       stable_sort (fun a b => Qle_bool (maxCapacityMw b) (maxCapacityMw a))
                   (map snd (largeEvents s)) |}.



Definition tally_at (m : list (string * nat)) (k : string) : nat :=
  match obj_get m k with
  | Some n => n
  | None => 0
  end.

End PrototypeSummary.

(** Four hydrated records: two active ones in NO2 (120 and 30.25 MW), a
    cancelled one in SE3 (80 MW) and one without area or status. *)
Definition four_items : list ummItem :=
  [ {| item_core := {| rec_area := "NO2"; capacityAffectedMw := (120 # 1)%Q |};
       item_status := "Active"; outageType := "Production unavailability" |};
    {| item_core := {| rec_area := "SE3"; capacityAffectedMw := (80 # 1)%Q |};
       item_status := "Cancelled / postponed";
       outageType := "Transmission outage" |};
    {| item_core := {| rec_area := "NO2"; capacityAffectedMw := (121 # 4)%Q |};
       item_status := "Active"; outageType := "Production unavailability" |};
    {| item_core := {| rec_area := EmptyString; capacityAffectedMw := 0%Q |};
       item_status := EmptyString; outageType := EmptyString |} ].

(** ** The analysis of a unit, [/api/units/:unitName] of server.js
    (lines 291-473) *)

Section UnitRoute.
Context {RT : JSRuntime}.

(** The query string of the request. *)
Record unitQuery : Type := {
  uq_year : option string;
  uq_messageType : option string;
  uq_plannedStatus : option string
}.

(** [names.includes(unitName)] on an array of names. *)
Definition names_include (names : list jsval) (unitName : string) : bool :=
  existsb (same_value_zero (JStr unitName)) names.

(** Lines 297-300 *)
Definition unitDataOf (unitName : string) (data : list loadedRow)
  : list loadedRow :=
  filter (fun d => (names_include (production_unit_names d) unitName
                    || names_include (generation_unit_names d) unitName)%bool)
         data.

(** Lines 308-317: [messageTypeLabels[type] || 'Other'], for a [type] that
    names no inherited member. *)
Definition messageTypeLabel (type : option string) : string :=
  match type with
  | Some t =>
      if (t =? "1")%string then "Production unavailability"
      else if (t =? "2")%string then "Consumption unavailability"
      else if (t =? "3")%string then "Transmission outage"
      else if (t =? "4")%string then "Market notice"
      else "Other"
  | None => "Other"
  end.

(** Lines 315-319 *)
Definition messageTypeBreakdownOf (unitData : list loadedRow) : jsobject nat :=
  fold_left (fun acc d =>
               obj_upsert (messageTypeLabel (message_type (raw d))) 0
                          (fun n => n + 1) acc)
            unitData [].

(** Lines 322-336, the fields [areas] and [capacity] of [unitInfo]; the
    fields [owner] and [publishers] read the publisher column alone and
    are left out.
<<
[...prodUnits, ...genUnits].forEach(unit => {
  const name = unit.name || unit.productionUnitName || unit.generationUnitName;
  if (name === unitName) {
    if (unit.areaName) unitInfo.areas.add(unit.areaName);
    if (!unitInfo.capacity && unit.installedCapacity) {
      unitInfo.capacity = unit.installedCapacity;
    }
  }
});
>> *)
Definition unitInfo_step (unitName : string) (info : list jsval * jsval)
           (unit : jsval) : outcome (list jsval * jsval) :=
  name <- unit_name unit ;;
  if same_value_zero (JStr unitName) name then
    areaName <- prop "areaName" unit ;;
    installed <- prop "installedCapacity" unit ;;
    Ret (add_if_truthy (fst info) areaName,
         if (negb (truthy (snd info)) && truthy installed)%bool
         then installed else snd info)
  else Ret info.

Definition unitInfo_row (unitName : string) (info : list jsval * jsval)
           (d : loadedRow) : outcome (list jsval * jsval) :=
  forEach (unitInfo_step unitName)
          (parseJSON (production_units_json (raw d))
           ++ parseJSON (generation_units_json (raw d)))
          info.

Definition unitInfoOf (unitName : string) (unitData : list loadedRow)
  : outcome (list jsval * jsval) :=
  forEach (unitInfo_row unitName) (firstn 10 unitData) ([], JNull).

(** Lines 363-379: [dataForYearlyCalc] and [yearlyBreakdown]. The
    message-type filter of line 366 compares the column, a text, with the
    number [parseInt(messageType)] by [===]. *)
Definition dataForYearlyCalc (q : unitQuery) (unitData : list loadedRow)
  : list loadedRow :=
  if given (uq_messageType q) then filter (fun _ => false) unitData
  else unitData.

Definition yearlyBreakdownOf (rows : list loadedRow) : jsobject (jsobject nat) :=
  fold_left (fun acc d =>
               obj_upsert (year_text (eventYear (raw d))) []
                          (obj_upsert (column_text (message_type (raw d))) 0
                                      (fun n => n + 1))
                          acc)
            rows [].

Record yearRow : Type := {
  yr_year : option Z;
  yr_counts : jsobject nat;
  yr_total : nat
}.

(** Lines 382-386 and 466:
<<
const yearlyData = Object.keys(yearlyBreakdown).sort().map(yr => ({
  year: parseInt(yr), counts: yearlyBreakdown[yr],
  total: Object.values(yearlyBreakdown[yr]).reduce((a, b) => a + b, 0) }));
>> *)
Definition availableYearsOf (yb : jsobject (jsobject nat)) : list string :=
  stable_sort String.leb (map fst (Object_entries yb)).

Definition yearlyDataOf (yb : jsobject (jsobject nat)) : list yearRow :=
  map (fun yr =>
         let counts := match obj_get yb yr with
                       | Some c => c
                       | None => []
                       end in
         {| yr_year := parseInt yr;
            yr_counts := counts;
            yr_total := list_sum (Object_values counts) |})
      (availableYearsOf yb).

(** Lines 431-449, the predicate of the status filter. *)
Definition passes_plannedStatus (wanted : string) (r : row) : bool :=
  let code := unavailabilityType r in
  let text := lowered_remarks r in
  if (wanted =? "Planned")%string then
    if code_is 1 code then true else some_keyword plannedKeywords text
  else if (wanted =? "Unplanned")%string then
    if code_is 2 code then true else some_keyword unplannedKeywords text
  else if (wanted =? "Unknown")%string then
    if (code_is 1 code || code_is 2 code)%bool then false
    else (negb (some_keyword plannedKeywords text)
          && negb (some_keyword unplannedKeywords text))%bool
  else true.

(** Lines 421-450: the year filter, the message-type filter (here the
    column is compared with the parameter itself, text with text) and the
    status filter. *)
Definition filteredEventsOf (q : unitQuery) (unitData : list loadedRow)
  : list loadedRow :=
  let f1 := match uq_year q with
            | Some y => if negb (y =? EmptyString)%string
                        then filter (fun d => in_year y (raw d)) unitData
                        else unitData
            | None => unitData
            end in
  let f2 := match uq_messageType q with
            | Some t => if negb (t =? EmptyString)%string
                        then filter (fun d => option_string_eqb
                                                (message_type (raw d)) (Some t))
                                    f1
                        else f1
            | None => f1
            end in
  match uq_plannedStatus q with
  | Some w => if negb (w =? EmptyString)%string
              then filter (fun d => passes_plannedStatus w (raw d)) f2
              else f2
  | None => f2
  end.

(** The answer, without the fields [owner], [publishers],
    [uniquePublishers] (the publisher column) and [affectedAreas],
    [areaBreakdown] (a tally of [area_names] of its own). *)
Record unitAnalysis : Type := {
  ua_areas : list jsval;
  ua_capacity : jsval;
  ua_totalEvents : nat;
  ua_filteredEvents : nat;
  ua_messageTypeBreakdown : jsobject nat;
  ua_plannedUnplannedBreakdown : breakdown;
  ua_yearlyData : list yearRow;
  ua_availableYears : list string;
  ua_events : list loadedRow
}.

(** What the request is answered with: 404, 200 with the analysis, or 500
    from the [catch]. *)
Inductive unitAnswer : Type :=
| UnitNotFound
| UnitFound (body : unitAnalysis)
| UnitFailed.

Definition unitAnalysisOf (unitName : string) (q : unitQuery)
           (data : list loadedRow) : unitAnswer :=
  let unitData := unitDataOf unitName data in
  match unitData with
  | [] => UnitNotFound
  | _ :: _ =>
      match unitInfoOf unitName unitData with
      | Throw => UnitFailed
      | Ret info =>
          let yb := yearlyBreakdownOf (dataForYearlyCalc q unitData) in
          let filtered := filteredEventsOf q unitData in
          UnitFound
            {| ua_areas := fst info;
               ua_capacity := snd info;
               ua_totalEvents := List.length unitData;
               ua_filteredEvents := List.length filtered;
               ua_messageTypeBreakdown := messageTypeBreakdownOf unitData;
               ua_plannedUnplannedBreakdown :=
                 plannedUnplannedBreakdown (map raw unitData);
               ua_yearlyData := yearlyDataOf yb;
               ua_availableYears := availableYearsOf yb;
               ua_events := firstn 100 filtered |}
      end
  end.

(** A row as [loadData] holds it: the listener returned it for its
    columns. *)
Definition loaded (d : loadedRow) : Prop := on_data (raw d) = Ret d.

End UnitRoute.

(** Messages of a unit: one of type 1 with code 2 and remarks that speak
    of maintenance, one of type 3 without code or remarks. *)
Definition aurland_rows : list row :=
  [ with_message
      (with_production empty_row "[{'name':'Aurland','areaName':'NO5','installedCapacity':840}]")
      (Some "1") (Some "2021-03-04") (Some "2")
      (Some "Failure during maintenance");
    with_message
      (with_production empty_row "[{'name':'Aurland'}]")
      (Some "3") (Some "2022-01-01") None None ].

Definition no_unit_filter : unitQuery :=
  {| uq_year := None; uq_messageType := None; uq_plannedStatus := None |}.

Definition planned_unit_filter : unitQuery :=
  {| uq_year := None; uq_messageType := None;
     uq_plannedStatus := Some "Planned" |}.

(** The rows of [aurland_rows] as [loadData] holds them. *)
Definition aurland_data : list loadedRow :=
  match map_outcome (on_data (RT := RefRuntime)) aurland_rows with
  | Ret data => data
  | Throw => []
  end.

(** ** Statistics and filter values, [/api/stats] and [/api/filters] of
    server.js (lines 243-288), and the yearly chart, [/api/charts/yearly]
    (lines 476-501) *)

Section DatasetRoutes.
Context {RT : JSRuntime}.

(** [[...new Set(xs)]] *)
Definition unique (xs : list jsval) : list jsval := fold_left set_add xs [].

(** The answer of [/api/stats], without the field [publishers] (the
    publisher column).
<<
const stats = {
  totalMessages: data.length,
  areas: [...new Set(data.flatMap(row => row.area_names))].length,
  productionUnits:
    [...new Set(data.flatMap(row => row.production_unit_names))].length,
  messageTypes: {} };
data.forEach(row => {
  const type = row.message_type;
  stats.messageTypes[type] = (stats.messageTypes[type] || 0) + 1;
});
>> *)
Record datasetStats : Type := {
  ds_totalMessages : nat;
  ds_areas : nat;
  ds_productionUnits : nat;
  ds_messageTypes : jsobject nat
}.

Definition statsOf (data : list loadedRow) : datasetStats :=
  {| ds_totalMessages := List.length data;
     ds_areas := List.length (unique (flat_map area_names data));
     ds_productionUnits :=
       List.length (unique (flat_map production_unit_names data));
     ds_messageTypes :=
       fold_left (fun acc d =>
                    obj_upsert (column_text (message_type (raw d))) 0
                               (fun n => n + 1) acc)
                 data [] |}.

(** The answer of [/api/filters], without the field [publishers].
<<
const filters = {
  areas: [...new Set(data.flatMap(row => row.area_names))].sort(),
  messageTypes:
    [...new Set(data.map(row => row.message_type).filter(Boolean))],
  units: [...new Set([
    ...data.flatMap(row => row.production_unit_names),
    ...data.flatMap(row => row.generation_unit_names) ])].sort() };
>> *)
Record datasetFilters : Type := {
  df_areas : list jsval;
  df_messageTypes : list string;
  df_units : list jsval
}.

Definition filtersOf (data : list loadedRow) : datasetFilters :=
  {| df_areas := sort_default (unique (flat_map area_names data));
     df_messageTypes :=
       dedup_strings []
         (flat_map (fun d => match message_type (raw d) with
                             | Some t => if (t =? EmptyString)%string then []
                                         else [t]
                             | None => []
                             end) data);
     df_units := sort_default
                   (unique (flat_map production_unit_names data
                            ++ flat_map generation_unit_names data)) |}.

(** [/api/charts/yearly]: the query and the rows of the chart.
<<
let filtered = data;
if (area) filtered = filtered.filter(row => row.area_names.includes(area));
if (messageType)
  filtered = filtered.filter(row => row.message_type === messageType);
const yearlyData = {};
filtered.forEach(row => {
  const year = new Date(row.publication_date).getFullYear();
  yearlyData[year] = (yearlyData[year] || 0) + 1;
});
const chartData = Object.keys(yearlyData).sort().map(year => ({
  year: parseInt(year), count: yearlyData[year] }));
>> *)
Record chartQuery : Type := {
  cq_area : option string;
  cq_messageType : option string
}.

Definition chartFiltered (q : chartQuery) (data : list loadedRow)
  : list loadedRow :=
  let f1 := match cq_area q with
            | Some a => if negb (a =? EmptyString)%string
                        then filter (fun d => names_include (area_names d) a)
                                    data
                        else data
            | None => data
            end in
  match cq_messageType q with
  | Some t => if negb (t =? EmptyString)%string
              then filter (fun d => option_string_eqb (message_type (raw d))
                                                      (Some t)) f1
              else f1
  | None => f1
  end.

Definition yearlyCounts (rows : list loadedRow) : jsobject nat :=
  fold_left (fun acc d =>
               obj_upsert (year_text (eventYear (raw d))) 0 (fun n => n + 1) acc)
            rows [].

Record chartRow : Type := {
  ch_key : string;
  ch_year : option Z;
  ch_count : nat
}.

(** A row of the chart, with the key of [yearlyData] it was made from. *)
Definition chartYearly (q : chartQuery) (data : list loadedRow)
  : list chartRow :=
  let yearlyData := yearlyCounts (chartFiltered q data) in
  map (fun year => {| ch_key := year;
                      ch_year := parseInt year;
                      ch_count := match obj_get yearlyData year with
                                  | Some n => n
                                  | None => 0
                                  end |})
      (stable_sort String.leb (map fst (Object_entries yearlyData))).

End DatasetRoutes.

Definition type_1_chart : chartQuery :=
  {| cq_area := None; cq_messageType := Some "1" |}.

(** ** The outage summary of the SQLite back end,
    [/api/outages/summary] of server-sqlite.js (lines 528-638) *)

Section DbSummary.
Context {RT : JSRuntime}.

(** A row of the messages table as the query returns it: the columns the
    handler reads. [message_type] is an integer column, the others are
    texts; a column may be null ([None]). *)
Record dbMessage : Type := {
  dm_area_names : option string;
  dm_publication_date : option string;
  dm_message_type : option Z;
  dm_unavailability_type : option string;
  dm_remarks : option string
}.

(** Line 558: [row.area_names ? row.area_names.split(',') : []] *)
Definition dbRowAreas (r : dbMessage) : list string :=
  match dm_area_names r with
  | None => []
  | Some s => if (s =? EmptyString)%string then [] else split_comma s
  end.

(** Lines 561-575, the same rules as in server.js, on the columns of the
    table. *)
Definition dbUnavailabilityType (r : dbMessage) : option Q :=
  match dm_unavailability_type r with
  | None => None
  | Some s => if (s =? EmptyString)%string then None else parseFloat s
  end.

Definition dbRemarks (r : dbMessage) : string :=
  toLowerCase (match dm_remarks r with Some s => s | None => EmptyString end).

Definition dbStatus (r : dbMessage) : status :=
  if code_is 1 (dbUnavailabilityType r) then Planned
  else if code_is 2 (dbUnavailabilityType r) then Unplanned
  else if some_keyword plannedKeywords (dbRemarks r) then Planned
  else if some_keyword unplannedKeywords (dbRemarks r) then Unplanned
  else Unknown.

Record dbSummaryItem : Type := {
  di_area : string;
  di_year : option Z;
  di_messageType : option Z;
  di_plannedStatus : status;
  di_count : nat
}.

(** The text of an integer column in a template literal. *)
Definition type_text (t : option Z) : string :=
  match t with
  | Some z => Z_to_string z
  | None => "null"
  end.

(** Line 578: [`${area}|${eventYear}|${msgType}|${status}`] *)
Definition dbSummaryKey (area : string) (year : option Z) (type : option Z)
           (st : status) : string :=
  (area ++ "|" ++ year_text year ++ "|" ++ type_text type ++ "|"
     ++ status_text st)%string.

Definition di_count_up (item : dbSummaryItem) : dbSummaryItem :=
  {| di_area := di_area item; di_year := di_year item;
     di_messageType := di_messageType item;
     di_plannedStatus := di_plannedStatus item;
     di_count := S (di_count item) |}.

(** Lines 557-590 *)
Definition dbSummary_row (acc : jsobject dbSummaryItem) (r : dbMessage)
  : jsobject dbSummaryItem :=
  let year := Date_getFullYear (dm_publication_date r) in
  let type := dm_message_type r in
  let st := dbStatus r in
  fold_left (fun acc' area =>
               obj_upsert (dbSummaryKey area year type st)
                          {| di_area := area; di_year := year;
                             di_messageType := type; di_plannedStatus := st;
                             di_count := 0 |}
                          di_count_up acc')
            (dbRowAreas r) acc.

Definition dbSummaryOf (rows : list dbMessage) : jsobject dbSummaryItem :=
  fold_left dbSummary_row rows [].

(** The parameters the handler reads after the query: [plannedStatus] and
    [topN]. *)
Record dbSummaryQuery : Type := {
  dq_plannedStatus : option string;
  dq_topN : option string
}.

(** Lines 592-596:
<<
let summaryArray = Object.values(summary);
if (plannedStatus) {
  summaryArray = summaryArray.filter(item => item.plannedStatus === plannedStatus);
}
>> *)
Definition dbSummaryArray (q : dbSummaryQuery) (rows : list dbMessage)
  : list dbSummaryItem :=
  let all := Object_values (dbSummaryOf rows) in
  match dq_plannedStatus q with
  | Some p => if negb (p =? EmptyString)%string
              then filter (fun item =>
                             (status_text (di_plannedStatus item) =? p)%string)
                          all
              else all
  | None => all
  end.

(** Lines 598-607 *)
Definition dbAreaTotals (summaryArray : list dbSummaryItem) : jsobject nat :=
  fold_left (fun totals item =>
               obj_upsert (di_area item) 0 (fun t => t + di_count item) totals)
            summaryArray [].

Definition dbTopAreas (q : dbSummaryQuery) (summaryArray : list dbSummaryItem)
  : list string :=
  map fst (slice0 (stable_sort (fun a b => (snd b <=? snd a)%nat)
                               (Object_entries (dbAreaTotals summaryArray)))
                  (match dq_topN q with
                   | Some s => parseInt s
                   | None => Some 10%Z
                   end)).

(** The answer, without [uniqueYears], [uniqueAreas] and
    [messageTypeLabels], which are computed from the rows alone. *)
Record dbSummaryAnswer : Type := {
  da_summary : list dbSummaryItem;
  da_topAreas : list string;
  da_totalRecords : nat
}.

Definition dbOutageSummary (q : dbSummaryQuery) (rows : list dbMessage)
  : dbSummaryAnswer :=
  let summaryArray := dbSummaryArray q rows in
  {| da_summary := summaryArray;
     da_topAreas := dbTopAreas q summaryArray;
     da_totalRecords := List.length rows |}.

Definition dbKeyOf (item : dbSummaryItem) : string :=
  dbSummaryKey (di_area item) (di_year item) (di_messageType item)
               (di_plannedStatus item).

(** The invariant of the summary object: each row is stored under the key
    of its own tuple. *)
Definition db_keyed (acc : jsobject dbSummaryItem) : Prop :=
  forall k item, In (k, item) acc -> k = dbKeyOf item.

End DbSummary.

(** Three messages of the table: a planned one over NO1 and NO2, an
    unplanned one in NO1, and a planned one in NO2. *)
Definition three_db_messages : list dbMessage :=
  [ {| dm_area_names := Some "NO1,NO2"; dm_publication_date := Some "2020-01-05";
       dm_message_type := Some 1%Z; dm_unavailability_type := Some "1";
       dm_remarks := None |};
    {| dm_area_names := Some "NO1"; dm_publication_date := Some "2020-02-01";
       dm_message_type := Some 1%Z; dm_unavailability_type := Some "2";
       dm_remarks := None |};
    {| dm_area_names := Some "NO2"; dm_publication_date := Some "2020-03-01";
       dm_message_type := Some 1%Z; dm_unavailability_type := None;
       dm_remarks := Some "Planned work" |} ].

Definition planned_only : dbSummaryQuery :=
  {| dq_plannedStatus := Some "Planned"; dq_topN := None |}.

(** ** The routes of the prototype back end (unnamed/part_002) *)

Section PrototypeBackend.
Context {RT : JSRuntime}.

(** *** [/api/umm/stats], lines 258-283
<<
const totalMessages = ummMessages.length;
const activeOutages = ummMessages.filter(m =>
  m.event_status === 'Active' || m.event_status === 'Unplanned').length;
const totalCapacity =
  ummMessages.reduce((sum, m) => sum + (m.installed_mw || 0), 0);
const unavailableCapacity = ummMessages
  .filter(m => m.event_status === 'Active' || m.event_status === 'Unplanned')
  .reduce((sum, m) => sum + (m.unavailable_mw || 0), 0);
>> *)
Record ummStats : Type := {
  us_totalMessages : nat;
  us_activeOutages : nat;
  us_totalCapacity : Q;
  us_unavailableCapacity : Q
}.

Definition is_active (m : ummMessage) : bool :=
  ((event_status m =? "Active") || (event_status m =? "Unplanned"))%string.

(** [x || 0] on a number *)
Definition mw_or_0 (x : Q) : Q := if Qeq_bool x 0 then 0%Q else x.

Definition ummStatsOf (messages : list ummMessage) : ummStats :=
  {| us_totalMessages := List.length messages;
     us_activeOutages := List.length (filter is_active messages);
     us_totalCapacity :=
       fold_left (fun sum m => (sum + mw_or_0 (installed_mw m))%Q) messages 0%Q;
     us_unavailableCapacity :=
       fold_left (fun sum m => (sum + mw_or_0 (unavailable_mw m))%Q)
                 (filter is_active messages) 0%Q |}.

Definition ummStatsRoute (st : appState) : response ummStats :=
  if dataLoaded st then Ok200 (ummStatsOf (ummMessages st)) else Status503.

(** *** [/api/umm/yearly-stats], lines 323-350
<<
ummMessages.forEach(m => {
  if (m.publication_date) {
    const year = new Date(m.publication_date).getFullYear();
    if (!yearlyStats[year]) {
      yearlyStats[year] = { year: year.toString(), count: 0, outages: 0 };
    }
    yearlyStats[year].count++;
    if (m.message_type === 1 || m.message_type === 2 || m.message_type === 3) {
      yearlyStats[year].outages++;
    }
  }
});
const results = Object.values(yearlyStats)
  .sort((a, b) => a.year.localeCompare(b.year));
>> *)
Record yearStat : Type := {
  ys_year : string;
  ys_count : nat;
  ys_outages : nat
}.

Definition is_outage_type (t : Z) : bool :=
  ((t =? 1) || (t =? 2) || (t =? 3))%Z.

Definition yearlyStats_step (acc : jsobject yearStat) (m : ummMessage)
  : jsobject yearStat :=
  if (m_publication_date m =? EmptyString)%string then acc
  else
    let year := year_text (Date_getFullYear (Some (m_publication_date m))) in
    obj_upsert year
               {| ys_year := year; ys_count := 0; ys_outages := 0 |}
               (fun s => {| ys_year := ys_year s;
                            ys_count := S (ys_count s);
                            ys_outages := if is_outage_type (m_message_type m)
                                          then S (ys_outages s)
                                          else ys_outages s |})
               acc.

Definition yearlyStatsOf (messages : list ummMessage) : jsobject yearStat :=
  fold_left yearlyStats_step messages [].

(** The order of [localeCompare] depends on the locale of the process: the
    sort is a parameter, [localeSort]. *)
Definition yearlyStatsRoute (localeSort : list yearStat -> list yearStat)
           (st : appState) : response (list yearStat) :=
  if dataLoaded st
  then Ok200 (localeSort (Object_values (yearlyStatsOf (ummMessages st))))
  else Status503.

(** A status of the events file that names no inherited member of an
    object: [statusMap[status]] is then an own entry or undefined. *)
Definition plain_status (r : eventRow) : Prop :=
  inherited_name (column_text (er_status r)) = false.

End PrototypeBackend.

(** The years of the statistics in the order of their bytes. *)
Definition byteSort (l : list yearStat) : list yearStat :=
  stable_sort (fun a b => String.leb (ys_year a) (ys_year b)) l.

(** Three events of two years; the second has no date. *)
Definition dated_event_rows : list eventRow :=
  [ {| er_area := Some "SE3"; er_mw := Some "30"; er_status := Some "Planned";
       er_publication_date := Some "2021-05-01"; er_remarks := None |};
    {| er_area := Some "SE3"; er_mw := Some "80"; er_status := Some "Unplanned";
       er_publication_date := None; er_remarks := None |};
    {| er_area := Some "NO2"; er_mw := Some "500"; er_status := None;
       er_publication_date := Some "2020-11-30"; er_remarks := None |} ].

(** ** Durations: [calculateDuration] of server.js (lines 113-120) and
    [formatDuration] of server-sqlite.js (lines 45-49) *)

Section Durations.
Context {RT : JSRuntime}.

(** [new Date(text).getTime()], in milliseconds; [None] for an invalid
    date. The reading of a date text is a parameter. *)
Variable Date_time : string -> option Z.






End Durations.


(** ** The list of messages, [/api/messages] of server.js (lines 185-240) *)

(** [xs.slice(start, end)] with both bounds given, each an integer or NaN
    ([None]): NaN counts as 0, a negative bound counts from the end, and
    the bounds are clamped to the array. *)
Definition slice {A : Type} (xs : list A) (start stop : option Z) : list A :=
  let len := Z.of_nat (List.length xs) in
  let clamp := fun v : option Z =>
                 match v with
                 | None => 0%Z
                 | Some n => if (n <? 0)%Z then Z.max (len + n) 0
                             else Z.min n len
                 end in
  firstn (Z.to_nat (clamp stop - clamp start)) (skipn (Z.to_nat (clamp start)) xs).

Section MessagesRoute.
Context {RT : JSRuntime}.

(** [new Date(text).getTime()] ([None] for an invalid date) and the
    publisher column of a row, which the record [row] does not carry: two
    parameters. *)
Variable Date_time : string -> option Z.
Variable publisher_name : row -> option string.

Record messagesQuery : Type := {
  mq_startDate : option string;
  mq_endDate : option string;
  mq_messageType : option string;
  mq_area : option string;
  mq_publisher : option string;
  mq_search : option string;
  mq_limit : option string;
  mq_offset : option string
}.

(** [new Date(column)]: an absent column is an invalid date. *)
Definition time_of (text : option string) : option Z :=
  match text with
  | Some s => Date_time s
  | None => None
  end.

(** [a >= b] on two dates; no comparison holds for an invalid date. *)
Definition not_before (a b : option Z) : bool :=
  match a, b with
  | Some x, Some y => (y <=? x)%Z
  | _, _ => false
  end.

(** [if (p) filtered = filtered.filter(row => f(p, row))] *)
Definition filter_if (p : option string) (f : string -> loadedRow -> bool)
           (rows : list loadedRow) : list loadedRow :=
  match p with
  | Some s => if negb (s =? EmptyString)%string then filter (f s) rows else rows
  | None => rows
  end.

(** Lines 199-221 *)
Definition messagesFiltered (q : messagesQuery) (data : list loadedRow)
  : list loadedRow :=
  let f1 := filter_if (mq_startDate q)
              (fun s d => not_before (time_of (publication_date (raw d)))
                                     (Date_time s)) data in
  let f2 := filter_if (mq_endDate q)
              (fun s d => not_before (Date_time s)
                                     (time_of (publication_date (raw d)))) f1 in
  let f3 := filter_if (mq_messageType q)
              (fun s d => option_string_eqb (message_type (raw d)) (Some s)) f2 in
  let f4 := filter_if (mq_area q)
              (fun s d => names_include (area_names d) s) f3 in
  let f5 := filter_if (mq_publisher q)
              (fun s d => option_string_eqb (publisher_name (raw d)) (Some s))
              f4 in
  filter_if (mq_search q)
            (fun s d => match remarks (raw d) with
                        | Some text => includes (toLowerCase s) (toLowerCase text)
                        | None => false
                        end) f5.

(** Whether a filter ran: [filter] makes a new array, and without one
    [filtered] is the array [data] itself. *)
Definition any_filter (q : messagesQuery) : bool :=
  (given (mq_startDate q) || given (mq_endDate q) || given (mq_messageType q)
   || given (mq_area q) || given (mq_publisher q) || given (mq_search q))%bool.

(** Line 224:
    [filtered.sort((a, b) => new Date(b.publication_date) - new Date(a.publication_date))],
    newest first. A comparison with an invalid date gives NaN, which the
    sort takes for 0; the order of the result is then that of this
    insertion sort only when every date is valid. *)
Definition newer_or_same (a b : loadedRow) : bool :=
  match time_of (publication_date (raw a)), time_of (publication_date (raw b)) with
  | Some x, Some y => (y <=? x)%Z
  | _, _ => true
  end.

Definition newest_first (rows : list loadedRow) : list loadedRow :=
  stable_sort newer_or_same rows.

(** Lines 195-196 and 228: [limit = 999999], [offset = 0],
    [parseInt(offset)], [parseInt(offset) + parseInt(limit)]. *)
Definition offsetOf (q : messagesQuery) : option Z :=
  match mq_offset q with
  | Some s => parseInt s
  | None => Some 0%Z
  end.

Definition limitOf (q : messagesQuery) : option Z :=
  match mq_limit q with
  | Some s => parseInt s
  | None => Some 999999%Z
  end.

Definition page_end (q : messagesQuery) : option Z :=
  match offsetOf q, limitOf q with
  | Some o, Some l => Some (o + l)%Z
  | _, _ => None
  end.

Record messagesBody : Type := {
  mb_data : list loadedRow;
  mb_total : nat;
  mb_limit : option Z;
  mb_offset : option Z
}.

(** Lines 199-235: the body of the answer and the array [data] after the
    call. *)
Definition messagesOf (q : messagesQuery) (data : list loadedRow)
  : messagesBody * list loadedRow :=
  let sorted := newest_first (messagesFiltered q data) in
  ({| mb_data := slice sorted (offsetOf q) (page_end q);
      mb_total := List.length sorted;
      mb_limit := limitOf q;
      mb_offset := offsetOf q |},
   if any_filter q then data else sorted).

(** Lines 185-240. The array that [loadData] resolves with is the array
    the cache holds. *)
Definition messagesRoute (q : messagesQuery) (now at_end : Z)
           (file : csvStream) (c : cache) : response messagesBody * cache :=
  match loadData now at_end file c with
  | (Resolved data, c') =>
      (Ok200 (fst (messagesOf q data)),
       {| cachedData := match cachedData c' with
                        | Some _ => Some (snd (messagesOf q data))
                        | None => None
                        end;
          cacheTime := cacheTime c' |})
  | (Rejected, c') => (Status500, c')
  | (Unhandled, c') => (NoResponse, c')
  end.

(** A row with a valid publication date. *)
Definition dated (d : loadedRow) : Prop :=
  time_of (publication_date (raw d)) <> None.

(** The time of a row, 0 for an invalid date. *)
Definition time_or_0 (d : loadedRow) : Z :=
  match time_of (publication_date (raw d)) with
  | Some t => t
  | None => 0%Z
  end.

End MessagesRoute.

(** Dates of the form of a count of days, for the examples: the text of
    an integer [n] is the instant [n] days after the epoch. *)
Definition days_of_text (s : string) : option Z :=
  match ref_parseInt s with
  | Some n => Some (n * 86400000)%Z
  | None => None
  end.

Definition no_publisher (r : row) : option string := None.

Definition no_messages_filter : messagesQuery :=
  {| mq_startDate := None; mq_endDate := None; mq_messageType := None;
     mq_area := None; mq_publisher := None; mq_search := None;
     mq_limit := None; mq_offset := None |}.

(** Three rows published on day 5, day 9 and day 7. *)
Definition three_dated_rows : list row :=
  [ with_message empty_row (Some "1") (Some "5") None None;
    with_message empty_row (Some "1") (Some "9") None None;
    with_message empty_row (Some "3") (Some "7") None None ].

Definition three_dated_data : list loadedRow :=
  match map_outcome (on_data (RT := RefRuntime)) three_dated_rows with
  | Ret data => data
  | Throw => []
  end.

(** ** Names columns of the SQLite back end, [processRow] of
    server-sqlite.js (lines 52-64) *)





(** A text without white space at either end. *)
Definition starts_clean (s : string) : Prop :=
  match s with
  | EmptyString => True
  | String c _ => is_space c = false
  end.

Definition trimmed (s : string) : Prop := trim s = s.


(** * Properties *)

Unset Implicit Arguments.

(** ** Lists, outcomes and sorting *)

Lemma forEach_app {A S : Type} (f : S -> A -> outcome S) (l1 l2 : list A) (s : S) :
  forEach f (l1 ++ l2) s = (s' <- forEach f l1 s ;; forEach f l2 s').
Proof.
  revert s; induction l1 as [|x l1 IH]; intros s; simpl.
  - reflexivity.
  - destruct (f s x) as [s'|]; simpl; [apply IH | reflexivity].
Qed.

(** A loop whose body never throws is a left fold. *)
Lemma forEach_pure {A S : Type} (f : S -> A -> outcome S) (g : S -> A -> S)
      (l : list A) :
  (forall s x, In x l -> f s x = Ret (g s x)) ->
  forall s, forEach f l s = Ret (fold_left g l s).
Proof.
  induction l as [|x l IH]; intros H s; simpl.
  - reflexivity.
  - rewrite H by (left; reflexivity). simpl.
    apply IH. intros s' y Hy. apply H. right; exact Hy.
Qed.

Lemma map_outcome_app {RT : JSRuntime} {A B : Type} (f : A -> outcome B)
      (l1 l2 : list A) (d1 d2 : list B) :
  map_outcome f l1 = Ret d1 -> map_outcome f l2 = Ret d2 ->
  map_outcome f (l1 ++ l2) = Ret (d1 ++ d2).
Proof.
  revert d1; induction l1 as [|x l1 IH]; intros d1 H1 H2; simpl in *.
  - injection H1 as <-. exact H2.
  - destruct (f x) as [y|]; simpl in *; [|discriminate].
    destruct (map_outcome f l1) as [ys|]; simpl in *; [|discriminate].
    injection H1 as <-. rewrite (IH ys eq_refl H2). reflexivity.
Qed.


Lemma map_outcome_all {RT : JSRuntime} {A B : Type} (f : A -> outcome B)
      (l : list A) :
  Forall (fun x => exists y, f x = Ret y) l ->
  exists d, map_outcome f l = Ret d.
Proof.
  induction 1 as [|x l [y Hy] _ [d Hd]]; simpl.
  - eexists; reflexivity.
  - rewrite Hy, Hd. simpl. eexists; reflexivity.
Qed.

Section StableSortFacts.
Variable A : Type.
Variable before : A -> A -> bool.

Lemma insert_sorted_perm (x : A) (l : list A) :
  Permutation (insert_sorted before x l) (x :: l).
Proof.
  induction l as [|y l IH]; simpl.
  - apply Permutation_refl.
  - destruct (before x y).
    + apply Permutation_refl.
    + eapply Permutation_trans; [apply perm_skip, IH | apply perm_swap].
Qed.

Lemma stable_sort_perm (l : list A) : Permutation (stable_sort before l) l.
Proof.
  induction l as [|x l IH]; simpl.
  - apply perm_nil.
  - eapply Permutation_trans; [apply insert_sorted_perm | apply perm_skip, IH].
Qed.

Lemma stable_sort_length (l : list A) :
  List.length (stable_sort before l) = List.length l.
Proof. apply Permutation_length, stable_sort_perm. Qed.

Lemma stable_sort_In (l : list A) (x : A) :
  In x (stable_sort before l) <-> In x l.
Proof.
  split; apply Permutation_in;
    [apply stable_sort_perm | apply Permutation_sym, stable_sort_perm].
Qed.

Hypothesis before_total : forall x y, before x y = false -> before y x = true.
Hypothesis before_trans :
  forall x y z, before x y = true -> before y z = true -> before x z = true.

Lemma insert_sorted_sorted (x : A) (l : list A) :
  StronglySorted (fun a b => before a b = true) l ->
  StronglySorted (fun a b => before a b = true) (insert_sorted before x l).
Proof.
  induction 1 as [|y l Hs IH Hy]; simpl.
  - constructor; constructor.
  - destruct (before x y) eqn:E.
    + constructor; [constructor; assumption|].
      constructor; [exact E|].
      rewrite Forall_forall in *. intros z Hz. eapply before_trans; eauto.
    + constructor; [exact IH|].
      rewrite Forall_forall in *. intros z Hz.
      apply (Permutation_in _ (insert_sorted_perm x l)) in Hz.
      destruct Hz as [<-|Hz]; [apply before_total; exact E | apply Hy; exact Hz].
Qed.

Lemma stable_sort_sorted (l : list A) :
  StronglySorted (fun a b => before a b = true) (stable_sort before l).
Proof.
  induction l as [|x l IH]; simpl.
  - constructor.
  - apply insert_sorted_sorted, IH.
Qed.

End StableSortFacts.



(** ** Objects used as maps *)

Section ObjectFacts.
Context {RT : JSRuntime}.
Variable V : Type.

Lemma obj_upsert_keys (k : string) (fresh : V) (f : V -> V) (o : jsobject V) :
  map fst (obj_upsert k fresh f o) =
  if in_dec string_dec k (map fst o) then map fst o else map fst o ++ [k].
Proof.
  induction o as [|[k' v] o IH]; simpl.
  - reflexivity.
  - destruct (String.eqb_spec k' k) as [Ek|Hne]; simpl.
    + destruct (string_dec k' k) as [E0|N]; [reflexivity | contradiction].
    + rewrite IH. destruct (string_dec k' k) as [E|N]; [contradiction|].
      destruct (in_dec string_dec k (map fst o)); reflexivity.
Qed.

Lemma obj_upsert_NoDup (k : string) (fresh : V) (f : V -> V) (o : jsobject V) :
  NoDup (map fst o) -> NoDup (map fst (obj_upsert k fresh f o)).
Proof.
  intros H. rewrite obj_upsert_keys.
  destruct (in_dec string_dec k (map fst o)) as [_|Hn]; [exact H|].
  apply NoDup_rev in H. rewrite <- (rev_involutive (map fst o ++ [k])).
  apply NoDup_rev. rewrite rev_app_distr. simpl. constructor; [|exact H].
  rewrite <- in_rev. exact Hn.
Qed.

Lemma obj_get_upsert_same (k : string) (fresh : V) (f : V -> V) (o : jsobject V) :
  obj_get (obj_upsert k fresh f o) k =
  Some (f (match obj_get o k with Some v => v | None => fresh end)).
Proof.
  induction o as [|[k' v] o IH]; simpl.
  - rewrite String.eqb_refl. reflexivity.
  - destruct (String.eqb_spec k' k) as [Ek|Hne]; simpl.
    + rewrite Ek, String.eqb_refl. reflexivity.
    + destruct (String.eqb_spec k' k) as [E|_]; [contradiction | exact IH].
Qed.

Lemma obj_get_upsert_other (k k2 : string) (fresh : V) (f : V -> V)
      (o : jsobject V) :
  k2 <> k -> obj_get (obj_upsert k fresh f o) k2 = obj_get o k2.
Proof.
  intros Hne. induction o as [|[k' v] o IH]; simpl.
  - destruct (String.eqb_spec k k2) as [E|_]; [congruence | reflexivity].
  - destruct (String.eqb_spec k' k) as [Ek|Hk]; simpl.
    + destruct (String.eqb_spec k' k2) as [E|_]; [congruence | reflexivity].
    + destruct (String.eqb_spec k' k2); [reflexivity | exact IH].
Qed.

Lemma obj_upsert_In (k : string) (fresh : V) (f : V -> V) (o : jsobject V)
      (P : string -> V -> Prop) :
  (forall k' v, In (k', v) o -> P k' v) ->
  (forall v, P k v -> P k (f v)) ->
  P k (f fresh) ->
  forall k' v, In (k', v) (obj_upsert k fresh f o) -> P k' v.
Proof.
  intros Ho Hf Hfresh. induction o as [|[k0 v0] o IH]; simpl; intros k' v Hin.
  - destruct Hin as [E|[]]. injection E as E1 E2. rewrite <- E1, <- E2.
    exact Hfresh.
  - destruct (String.eqb_spec k0 k) as [Ek|Hne]; simpl in Hin.
    + destruct Hin as [E|Hin].
      * injection E as E1 E2. rewrite <- E1, <- E2, Ek. apply Hf.
        rewrite <- Ek. apply Ho. left; reflexivity.
      * apply Ho. right; exact Hin.
    + destruct Hin as [E|Hin].
      * injection E as E1 E2. rewrite <- E1, <- E2. apply Ho. left; reflexivity.
      * apply IH; [|exact Hin]. intros k1 v1 H1. apply Ho. right; exact H1.
Qed.

(** An object none of whose keys is an array index enumerates its
    properties in insertion order. *)
Lemma Object_entries_plain (o : jsobject V) :
  Forall (fun kv => is_array_index (fst kv) = false) o ->
  Object_entries o = o.
Proof.
  intros H. unfold Object_entries.
  assert (E : filter (fun kv : string * V => is_array_index (fst kv)) o = []
              /\ filter (fun kv : string * V => negb (is_array_index (fst kv))) o = o).
  { induction H as [|kv o Hkv _ [IH1 IH2]]; simpl; [split; reflexivity|].
    rewrite Hkv. simpl. split; [exact IH1 | f_equal; exact IH2]. }
  destruct E as [E1 E2]. rewrite E1, E2. reflexivity.
Qed.

Lemma Object_entries_perm (o : jsobject V) : Permutation (Object_entries o) o.
Proof.
  unfold Object_entries.
  eapply Permutation_trans;
    [apply Permutation_app_tail, stable_sort_perm|].
  induction o as [|kv o IH]; simpl; [apply perm_nil|].
  destruct (is_array_index (fst kv)); simpl.
  - apply perm_skip, IH.
  - eapply Permutation_trans; [apply Permutation_sym, Permutation_middle|].
    apply perm_skip, IH.
Qed.

End ObjectFacts.

(** ** parseJSON *)

Section NormalizerFacts.
Context {RT : JSRuntime}.

Lemma parseJSON_rejected (s : string) :
  JSON_parse s = None -> parseJSON (Some s) = [].
Proof.
  intros H. unfold parseJSON. rewrite H.
  destruct ((s =? EmptyString) || (s =? "null") || (s =? EmptyString))%string;
    reflexivity.
Qed.

Lemma parseJSON_accepted (s : string) (v : jsval) :
  JSON_parse s = Some v -> s <> "null" ->
  parseJSON (Some s) = match v with JArr items => items | _ => [v] end.
Proof.
  intros H Hn. unfold parseJSON.
  destruct (String.eqb_spec s EmptyString) as [E|_].
  - rewrite E, JSON_parse_empty in H. discriminate.
  - destruct (String.eqb_spec s "null") as [E|_]; [contradiction|].
    simpl. rewrite H. destruct v; reflexivity.
Qed.

(** C10. [parseJSON] is a total function into lists (it is a function of
    the embedding, with no outcome to fail with). An absent column, the
    empty string, the text null and every text [JSON.parse] rejects give
    the empty list; a text that parses to an array gives that array
    unchanged; a text that parses to one object, number, string or boolean
    gives the one-element list of that value. *)
Theorem parseJSON_cases (value : option string) :
  (value = None \/ value = Some EmptyString \/ value = Some "null" ->
   parseJSON value = [])
  /\ (forall s, value = Some s -> JSON_parse s = None -> parseJSON value = [])
  /\ (forall s items, value = Some s -> JSON_parse s = Some (JArr items) ->
      parseJSON value = items)
  /\ (forall s v, value = Some s -> JSON_parse s = Some v -> single_value v ->
      parseJSON value = [v]).
Proof.
  split; [|split; [|split]].
  - intros [->|[->| ->]]; reflexivity.
  - intros s -> H. apply parseJSON_rejected, H.
  - intros s items -> H.
    rewrite (parseJSON_accepted s _ H); [reflexivity|].
    intros ->. rewrite JSON_parse_null in H. discriminate.
  - intros s v -> H Hv.
    rewrite (parseJSON_accepted s v H).
    + destruct v; simpl in Hv; try contradiction; reflexivity.
    + intros ->. rewrite JSON_parse_null in H. injection H as <-. exact Hv.
Qed.

(** ** Malformed sub-documents *)

Lemma parseJSON_keep_if_decodes (field : option string) :
  parseJSON (keep_if_decodes field) = parseJSON field.
Proof.
  unfold keep_if_decodes, decodes. destruct field as [s|]; [|reflexivity].
  destruct (JSON_parse s) eqn:E; [reflexivity|].
  rewrite (parseJSON_rejected s E). reflexivity.
Qed.

Lemma parseJSON_empty_or_malformed (field : option string) :
  empty_or_malformed field -> parseJSON field = [].
Proof.
  intros [->|[->|[s [-> H]]]]; try reflexivity.
  apply parseJSON_rejected, H.
Qed.

Lemma on_data_blank (r : row) :
  all_empty_or_malformed r -> on_data r = Ret (blank_loaded r).
Proof.
  intros (Ha & Hp & Hg & Ht).
  apply parseJSON_empty_or_malformed in Ha, Hp, Hg, Ht.
  unfold on_data, extractAreaNames, collectAreaNames, extractUnitNames,
    extractCapacityInfo.
  rewrite Ha, Hp, Hg, Ht. reflexivity.
Qed.

(** C8. A sub-document column that fails to decode yields the empty list
    and nothing else: [parseJSON] returns [[]] for it; every extraction of
    the normaliser gives for the row what it gives for the row without its
    malformed columns (so the other columns are still read); a row whose
    sub-document columns are all empty or malformed is normalised, without
    a throw, to a record with no areas, no units and no capacity; and such
    a row anywhere in the file leaves the rows before and after it in the
    loaded dataset, which [loadData] resolves with. *)
Theorem malformed_subdocument_absorbed :
  (forall s, JSON_parse s = None -> parseJSON (Some s) = [])
  /\ (forall r,
        extractAreaNames r = extractAreaNames (without_malformed r)
        /\ extractUnitNames (production_units_json r)
           = extractUnitNames (production_units_json (without_malformed r))
        /\ extractUnitNames (generation_units_json r)
           = extractUnitNames (generation_units_json (without_malformed r))
        /\ extractCapacityInfo r = extractCapacityInfo (without_malformed r))
  /\ (forall r, all_empty_or_malformed r -> on_data r = Ret (blank_loaded r))
  /\ (forall before bad after d1 d2 now at_end c,
        all_empty_or_malformed bad ->
        map_outcome on_data before = Ret d1 ->
        map_outcome on_data after = Ret d2 ->
        cache_hit now c = None ->
        fst (loadData now at_end (Ends (before ++ bad :: after)) c)
        = Resolved (d1 ++ blank_loaded bad :: d2)).
Proof.
  split; [exact parseJSON_rejected|]. split; [|split].
  - intros r.
    unfold extractAreaNames, collectAreaNames, extractUnitNames,
      extractCapacityInfo, without_malformed; simpl.
    rewrite !parseJSON_keep_if_decodes. repeat split; reflexivity.
  - exact on_data_blank.
  - intros before bad after d1 d2 now at_end c Hbad H1 H2 Hc.
    unfold loadData. rewrite Hc.
    assert (E : map_outcome on_data (before ++ bad :: after)
                = Ret (d1 ++ blank_loaded bad :: d2)).
    { apply map_outcome_app; [exact H1|]. simpl.
      rewrite (on_data_blank bad Hbad), H2. reflexivity. }
    rewrite E. reflexivity.
Qed.

(** ** Classification *)

Lemma code_is_1_2 (code : option Q) :
  code_is 2 code = true -> code_is 1 code = false.
Proof.
  destruct code as [q|]; simpl; [|reflexivity].
  intros H2. destruct (Qeq_bool q (inject_Z 1)) eqn:H1; [|reflexivity].
  apply Qeq_bool_eq in H1, H2. rewrite H1 in H2.
  discriminate H2.
Qed.

Lemma breakdown_step_status (b : breakdown) (r : row) :
  breakdown_step b r = count_as (plannedStatus r) b.
Proof.
  unfold breakdown_step, plannedStatus.
  destruct (code_is 1 (unavailabilityType r)); [reflexivity|].
  destruct (code_is 2 (unavailabilityType r)); [reflexivity|].
  destruct (some_keyword plannedKeywords (lowered_remarks r)); [reflexivity|].
  destruct (some_keyword unplannedKeywords (lowered_remarks r)); reflexivity.
Qed.

Lemma breakdown_total (rows : list row) (b : breakdown) :
  nPlanned (fold_left breakdown_step rows b)
  + nUnplanned (fold_left breakdown_step rows b)
  + nUnknown (fold_left breakdown_step rows b)
  = nPlanned b + nUnplanned b + nUnknown b + List.length rows.
Proof.
  revert b; induction rows as [|r rows IH]; intros b; simpl.
  - lia.
  - rewrite IH, breakdown_step_status.
    destruct (plannedStatus r); simpl; lia.
Qed.

(** C2. The status of a message is decided by the rules of the
    specification taken in order, the first that applies: code 1 gives
    Planned and code 2 gives Unplanned whatever the remarks say; otherwise a
    planned keyword in the lower-cased remarks gives Planned, otherwise an
    unplanned keyword gives Unplanned, otherwise the status is Unknown.
    Remarks that hold a keyword of both lists, such as the text emergency
    maintenance, are Planned. Each message gets exactly one label, so the
    three counters of a breakdown add up to the number of messages. *)
Theorem classifyStatus_first_match (r : row) :
  plannedStatus r
  = classifyStatus_rules (unavailabilityType r) (lowered_remarks r)
  /\ (code_is 1 (unavailabilityType r) = true -> plannedStatus r = Planned)
  /\ (code_is 2 (unavailabilityType r) = true -> plannedStatus r = Unplanned)
  /\ (code_is 1 (unavailabilityType r) = false ->
      code_is 2 (unavailabilityType r) = false ->
      (some_keyword plannedKeywords (lowered_remarks r) = true ->
       plannedStatus r = Planned)
      /\ (some_keyword plannedKeywords (lowered_remarks r) = false ->
          some_keyword unplannedKeywords (lowered_remarks r) = true ->
          plannedStatus r = Unplanned)
      /\ (some_keyword plannedKeywords (lowered_remarks r) = false ->
          some_keyword unplannedKeywords (lowered_remarks r) = false ->
          plannedStatus r = Unknown)
      /\ (remarks r = Some "Emergency maintenance" ->
          some_keyword plannedKeywords (lowered_remarks r) = true
          /\ some_keyword unplannedKeywords (lowered_remarks r) = true
          /\ plannedStatus r = Planned))
  /\ (exists! label, plannedStatus r = label)
  /\ (forall b, breakdown_step b r = count_as (plannedStatus r) b)
  /\ (forall unitData,
        nPlanned (plannedUnplannedBreakdown unitData)
        + nUnplanned (plannedUnplannedBreakdown unitData)
        + nUnknown (plannedUnplannedBreakdown unitData)
        = List.length unitData).
Proof.
  split; [reflexivity|].
  split; [intros H; unfold plannedStatus; rewrite H; reflexivity|].
  split; [intros H; unfold plannedStatus;
          rewrite (code_is_1_2 _ H), H; reflexivity|].
  split.
  { intros H1 H2. unfold plannedStatus, lowered_remarks. rewrite H1, H2.
    split; [intros Hp; rewrite Hp; reflexivity|].
    split; [intros Hp Hu; rewrite Hp, Hu; reflexivity|].
    split; [intros Hp Hu; rewrite Hp, Hu; reflexivity|].
    intros Hr. rewrite Hr. repeat split; reflexivity. }
  split; [exists (plannedStatus r); split;
          [reflexivity | intros l <-; reflexivity]|].
  split; [intros b; apply breakdown_step_status|].
  intros unitData. unfold plannedUnplannedBreakdown.
  rewrite breakdown_total. simpl. lia.
Qed.

End NormalizerFacts.

(** The witnesses are evaluated on the reference runtime. *)

Lemma parseJSON_cases_witness :
  parseJSON (RT := RefRuntime) (Some "null") = []
  /\ parseJSON (RT := RefRuntime) (Some "not json") = []
  /\ parseJSON (RT := RefRuntime) (Some "[1,2]") = [JNum 1; JNum 2]
  /\ parseJSON (RT := RefRuntime) (Some (json_text "{'areaName':'NO2'}"))
     = [JObj [("areaName", JStr "NO2")]].
Proof.
  split; [|split; [|split]].
  - apply (proj1 (@parseJSON_cases RefRuntime (Some "null"))).
    right; right; reflexivity.
  - apply (proj1 (proj2 (@parseJSON_cases RefRuntime (Some "not json")))
             "not json"); reflexivity.
  - apply (proj1 (proj2 (proj2 (@parseJSON_cases RefRuntime (Some "[1,2]"))))
             "[1,2]"); reflexivity.
  - apply (proj2 (proj2 (proj2
             (@parseJSON_cases RefRuntime (Some (json_text "{'areaName':'NO2'}")))))
             (json_text "{'areaName':'NO2'}")); [reflexivity | reflexivity | exact I].
Defined.

Lemma malformed_subdocument_absorbed_witness :
  on_data (RT := RefRuntime) (with_production empty_row "[{'areaName':")
  = Ret (blank_loaded (with_production empty_row "[{'areaName':")).
Proof.
  apply (proj1 (proj2 (proj2 (@malformed_subdocument_absorbed RefRuntime)))).
  repeat split; try (left; reflexivity).
  right; right. eexists; split; reflexivity.
Defined.

Lemma classifyStatus_first_match_witness :
  plannedStatus (RT := RefRuntime)
    (with_message empty_row (Some "1") None (Some "2")
                  (Some "planned maintenance"))
  = Unplanned.
Proof.
  apply (proj1 (proj2 (proj2 (@classifyStatus_first_match RefRuntime
           (with_message empty_row (Some "1") None (Some "2")
                         (Some "planned maintenance")))))).
  reflexivity.
Defined.

(** ** Area extraction *)

Lemma string_compare_trans_le (a b c : string) :
  String.compare a b <> Gt -> String.compare b c <> Gt ->
  String.compare a c <> Gt.
Proof.
  revert b c; induction a as [|x a IH]; intros [|y b] [|z c]; simpl;
    try congruence.
  unfold Ascii.compare.
  destruct (N.compare_spec (N_of_ascii x) (N_of_ascii y)) as [E1|L1|G1];
  destruct (N.compare_spec (N_of_ascii y) (N_of_ascii z)) as [E2|L2|G2];
  destruct (N.compare_spec (N_of_ascii x) (N_of_ascii z)) as [E3|L3|G3];
    try congruence; try lia; intros H1 H2; try (apply (IH b c); assumption).
Qed.

Lemma string_leb_trans (a b c : string) :
  String.leb a b = true -> String.leb b c = true -> String.leb a c = true.
Proof.
  unfold String.leb. intros H1 H2.
  pose proof (string_compare_trans_le a b c) as T.
  destruct (String.compare a b), (String.compare b c), (String.compare a c);
    try reflexivity; try discriminate; exfalso; apply T; congruence.
Qed.

Lemma string_leb_false (a b : string) :
  String.leb a b = false -> String.leb b a = true.
Proof.
  intros H. destruct (String.leb_total a b) as [E|E]; [congruence | exact E].
Qed.

Lemma fold_left_map {A B S : Type} (f : S -> B -> S) (g : A -> B)
      (l : list A) (s : S) :
  fold_left (fun acc x => f acc (g x)) l s = fold_left f (map g l) s.
Proof.
  revert s; induction l as [|x l IH]; intros s; simpl; [reflexivity | apply IH].
Qed.

Lemma fold_left_flat_map {A B S : Type} (f : S -> B -> S) (g : A -> list B)
      (l : list A) (s : S) :
  fold_left (fun acc x => fold_left f (g x) acc) l s
  = fold_left f (flat_map g l) s.
Proof.
  revert s; induction l as [|x l IH]; intros s; simpl; [reflexivity|].
  rewrite fold_left_app. apply IH.
Qed.

Section AreaFacts.
Context {RT : JSRuntime}.

Lemma prop_defined (k : string) (item : jsval) :
  is_nullish item = false -> prop k item = Ret (field_of k item).
Proof. destruct item; simpl; intros H; try discriminate; reflexivity. Qed.

Lemma add_prop_defined (k : string) (areas : list jsval) (item : jsval) :
  is_nullish item = false ->
  add_prop k areas item = Ret (add_if_truthy areas (field_of k item)).
Proof. intros H. unfold add_prop. rewrite (prop_defined k item H). reflexivity. Qed.

Lemma forEach_add_prop (k : string) (items : list jsval) (areas : list jsval) :
  Forall (fun v => is_nullish v = false) items ->
  forEach (add_prop k) items areas
  = Ret (fold_left add_if_truthy (map (field_of k) items) areas).
Proof.
  intros H. rewrite <- fold_left_map. apply forEach_pure.
  intros s x Hx. apply add_prop_defined.
  rewrite Forall_forall in H. apply H, Hx.
Qed.

Lemma collectAreaNames_defined (r : row) :
  items_defined r ->
  collectAreaNames r = Ret (dedup_truthy (areaCandidates r)).
Proof.
  unfold items_defined. rewrite !Forall_app. intros (Ha & Hp & Hg & Ht).
  unfold collectAreaNames, dedup_truthy, areaCandidates.
  rewrite (forEach_add_prop "name" _ [] Ha). simpl.
  rewrite (forEach_add_prop "areaName" _ _ Hp). simpl.
  rewrite (forEach_add_prop "areaName" _ _ Hg). simpl.
  rewrite !fold_left_app.
  rewrite <- (fold_left_flat_map add_if_truthy
                (fun item => [field_of "inAreaName" item;
                              field_of "outAreaName" item])).
  apply forEach_pure. intros s x Hx.
  rewrite Forall_forall in Ht. specialize (Ht x Hx).
  rewrite (add_prop_defined "inAreaName" s x Ht). simpl.
  apply add_prop_defined, Ht.
Qed.

Lemma set_add_In (s : list jsval) (x y : jsval) :
  In y (set_add s x) <-> In y s \/ (y = x /\ set_has s x = false).
Proof.
  unfold set_add. destruct (set_has s x) eqn:E.
  - split; [intros H; left; exact H | intros [H|[_ H]]; [exact H | discriminate]].
  - rewrite in_app_iff. simpl. split.
    + intros [H|[H|[]]]; [left; exact H | right; split; [symmetry; exact H | reflexivity]].
    + intros [H|[H _]]; [left; exact H | right; left; symmetry; exact H].
Qed.

Lemma add_if_truthy_keeps (s : list jsval) (v y : jsval) :
  In y s -> In y (add_if_truthy s v).
Proof.
  intros H. unfold add_if_truthy. destruct (truthy v); [|exact H].
  apply set_add_In. left; exact H.
Qed.

Lemma fold_add_keeps (cands s : list jsval) (y : jsval) :
  In y s -> In y (fold_left add_if_truthy cands s).
Proof.
  revert s; induction cands as [|c cands IH]; intros s H; simpl; [exact H|].
  apply IH, add_if_truthy_keeps, H.
Qed.

Lemma fold_add_origin (cands s : list jsval) (y : jsval) :
  In y (fold_left add_if_truthy cands s) ->
  In y s \/ (In y cands /\ truthy y = true).
Proof.
  revert s; induction cands as [|c cands IH]; intros s H; simpl in *.
  - left; exact H.
  - destruct (IH _ H) as [H1|[H1 H2]].
    + unfold add_if_truthy in H1. destruct (truthy c) eqn:Tc.
      * apply set_add_In in H1. destruct H1 as [H1|[-> _]].
        -- left; exact H1.
        -- right; split; [left; reflexivity | exact Tc].
      * left; exact H1.
    + right; split; [right; exact H1 | exact H2].
Qed.

Lemma same_string (a : string) (y : jsval) :
  same_value_zero (JStr a) y = true -> y = JStr a.
Proof.
  destruct y; simpl; try discriminate.
  intros H. apply String.eqb_eq in H. rewrite H. reflexivity.
Qed.

Lemma set_has_string (s : list jsval) (a : string) :
  set_has s (JStr a) = true -> In (JStr a) s.
Proof.
  unfold set_has. rewrite existsb_exists. intros [y [Hy E]].
  apply same_string in E. rewrite <- E. exact Hy.
Qed.

Lemma fold_add_string (cands s : list jsval) (a : string) :
  In (JStr a) cands -> a <> EmptyString ->
  In (JStr a) (fold_left add_if_truthy cands s).
Proof.
  intros Hin Ha. revert s; induction cands as [|c cands IH]; intros s;
    simpl in *; [contradiction|].
  destruct Hin as [->|Hin]; [|apply IH, Hin].
  apply fold_add_keeps. unfold add_if_truthy. simpl.
  destruct (String.eqb_spec a EmptyString) as [E|_]; [contradiction|]. simpl.
  apply set_add_In. destruct (set_has s (JStr a)) eqn:E.
  - left. apply set_has_string, E.
  - right. split; reflexivity.
Qed.

Lemma set_has_filter (s : list jsval) (x : jsval) :
  set_has s x = false -> filter (same_value_zero x) s = [].
Proof.
  unfold set_has. induction s as [|y s IH]; simpl; [reflexivity|].
  destruct (same_value_zero x y); simpl; [discriminate | exact IH].
Qed.

Lemma fold_add_once (cands s : list jsval) (a : string) :
  List.length (filter (same_value_zero (JStr a)) s) <= 1 ->
  List.length (filter (same_value_zero (JStr a))
                      (fold_left add_if_truthy cands s)) <= 1.
Proof.
  revert s; induction cands as [|c cands IH]; intros s H; simpl; [exact H|].
  apply IH. unfold add_if_truthy. destruct (truthy c); [|exact H].
  unfold set_add. destruct (set_has s c) eqn:E; [exact H|].
  rewrite filter_app, length_app.
  replace (filter (same_value_zero (JStr a)) [c])
    with (if same_value_zero (JStr a) c then [c] else []) by reflexivity.
  destruct (same_value_zero (JStr a) c) eqn:Ec; [|simpl; lia].
  apply same_string in Ec. rewrite Ec in E.
  rewrite (set_has_filter _ _ E). simpl. lia.
Qed.

Lemma sort_default_sorted (l : list jsval) :
  StronglySorted (fun a b => String.leb (ToString a) (ToString b) = true)
                 (sort_default l).
Proof.
  unfold sort_default.
  apply (stable_sort_sorted jsval
           (fun a b : jsval => String.leb (ToString a) (ToString b))).
  - intros x y. apply string_leb_false.
  - intros x y z. apply string_leb_trans.
Qed.

Lemma filter_length_perm {A : Type} (p : A -> bool) (l1 l2 : list A) :
  Permutation l1 l2 ->
  List.length (filter p l1) = List.length (filter p l2).
Proof.
  induction 1 as [| x l1 l2 _ IH | x y l | l1 l2 l3 _ IH1 _ IH2]; simpl.
  - reflexivity.
  - destruct (p x); simpl; congruence.
  - destruct (p x), (p y); reflexivity.
  - congruence.
Qed.

(** C4, as the code has it. For a record whose sub-document items are not
    null, [extractAreaNames] returns an array (never null): the candidates
    are collected in the fixed order areas, production units, generation
    units, transmission units (in and out); a candidate is kept as it is
    written, only the falsy ones (absent, null, empty) are dropped; a string
    occurs at most once; and the array is sorted in ascending string order,
    not left in the order of collection. A record whose sub-document
    columns are all empty or malformed gives the empty array. *)
Theorem extractAreaNames_sorted_set (r : row) :
  (items_defined r ->
   collectAreaNames r = Ret (dedup_truthy (areaCandidates r))
   /\ exists areas,
       extractAreaNames r = Ret areas
       /\ areas = sort_default (dedup_truthy (areaCandidates r))
       /\ StronglySorted
            (fun a b => String.leb (ToString a) (ToString b) = true) areas
       /\ Permutation areas (dedup_truthy (areaCandidates r))
       /\ (forall x, In x areas -> In x (areaCandidates r) /\ truthy x = true)
       /\ (forall s, In (JStr s) (areaCandidates r) -> s <> EmptyString ->
                     In (JStr s) areas)
       /\ (forall s, List.length (filter (same_value_zero (JStr s)) areas) <= 1))
  /\ (all_empty_or_malformed r -> extractAreaNames r = Ret []).
Proof.
  split.
  - intros Hd. pose proof (collectAreaNames_defined r Hd) as Hc.
    split; [exact Hc|].
    exists (sort_default (dedup_truthy (areaCandidates r))).
    unfold extractAreaNames. rewrite Hc. simpl.
    split; [reflexivity|]. split; [reflexivity|].
    split; [apply sort_default_sorted|].
    assert (P : Permutation (sort_default (dedup_truthy (areaCandidates r)))
                            (dedup_truthy (areaCandidates r)))
      by apply stable_sort_perm.
    split; [exact P|]. split; [|split].
    + intros x Hx. apply (Permutation_in _ P) in Hx.
      destruct (fold_add_origin _ _ _ Hx) as [[]|H]. exact H.
    + intros s Hs Hne. apply (Permutation_in _ (Permutation_sym P)).
      apply fold_add_string; assumption.
    + intros s. rewrite (filter_length_perm _ _ _ P).
      apply fold_add_once. simpl. lia.
  - intros (Ha & Hp & Hg & Ht).
    apply parseJSON_empty_or_malformed in Ha, Hp, Hg, Ht.
    unfold extractAreaNames, collectAreaNames.
    rewrite Ha, Hp, Hg, Ht. reflexivity.
Qed.

(** ** Capacity extraction *)













End AreaFacts.

(** C4, the claim as stated fails. The areas come back sorted, not in the
    order of collection; a name is not trimmed or upper-cased; and a null
    element in a sub-document makes the extraction throw. *)
Lemma extractAreaNames_not_as_claimed :
  (extractAreaNames (RT := RefRuntime) areas_then_production_row
   = Ret [JStr "NO1"; JStr "NO2"]
   /\ claimed_areas (areaCandidates (RT := RefRuntime) areas_then_production_row)
      = ["NO2"; "NO1"])
  /\ (extractAreaNames (RT := RefRuntime) untrimmed_row = Ret [JStr " no2 "]
      /\ claimed_areas (areaCandidates (RT := RefRuntime) untrimmed_row)
         = ["NO2"])
  /\ extractAreaNames (RT := RefRuntime) null_item_row = Throw.
Proof. repeat split; vm_compute; reflexivity. Qed.

Lemma extractAreaNames_sorted_set_witness :
  extractAreaNames (RT := RefRuntime) areas_then_production_row
  = Ret [JStr "NO1"; JStr "NO2"]
  /\ extractAreaNames (RT := RefRuntime) (with_areas empty_row "{ not json")
     = Ret [].
Proof.
  split.
  - destruct (proj1 (@extractAreaNames_sorted_set RefRuntime
                       areas_then_production_row)) as [_ [areas [E [Hs _]]]].
    + repeat constructor.
    + rewrite E, Hs. reflexivity.
  - apply (proj2 (@extractAreaNames_sorted_set RefRuntime
                    (with_areas empty_row "{ not json"))).
    repeat split; try (left; reflexivity).
    right; right. eexists; split; reflexivity.
Defined.



(** ** The summary object *)

Section SummaryFacts.
Context {RT : JSRuntime}.

Lemma digits_value_bar (x y : string) (acc : N) :
  digits_value (x ++ String "|" y) acc = None.
Proof.
  revert acc; induction x as [|c x IH]; intros acc.
  - reflexivity.
  - cbn [append digits_value]. cbv zeta.
    match goal with |- (if ?b then _ else _) = _ => destruct b end;
      [apply IH | reflexivity].
Qed.

Lemma key_with_bar_not_index (x y : string) :
  is_array_index (x ++ String "|" y) = false.
Proof.
  unfold is_array_index, array_index.
  destruct (x ++ String "|" y)%string as [|c rest] eqn:E; [reflexivity|].
  destruct (Ascii.eqb c "0" && negb (rest =? EmptyString)%string)%bool;
    [reflexivity|].
  rewrite <- E, digits_value_bar. reflexivity.
Qed.

Lemma summaryKey_not_index (area : jsval) (year : option Z)
      (messageType : option string) (st : status) :
  is_array_index (summaryKey area year messageType st) = false.
Proof. unfold summaryKey. apply key_with_bar_not_index. Qed.

Lemma summary_add_ok (year : option Z) (messageType : option string)
      (st : status) (summary : jsobject summaryItem) (area : jsval) :
  summary_ok summary -> summary_ok (summary_add year messageType st summary area).
Proof.
  intros [Hn Hk]. unfold summary_add. split.
  - apply obj_upsert_NoDup, Hn.
  - apply (obj_upsert_In summaryItem _ _ _ summary
             (fun k item => k = keyOfItem item)).
    + exact Hk.
    + intros v Hv. exact Hv.
    + reflexivity.
Qed.

Lemma fold_summary_add_ok (year : option Z) (messageType : option string)
      (st : status) (areas : list jsval) (summary : jsobject summaryItem) :
  summary_ok summary ->
  summary_ok (fold_left (summary_add year messageType st) areas summary).
Proof.
  revert summary; induction areas as [|a areas IH]; intros summary H; simpl.
  - exact H.
  - apply IH, summary_add_ok, H.
Qed.

Lemma forEach_summary_step_ok (rows : list row) (summary grouped : jsobject summaryItem) :
  summary_ok summary ->
  forEach summary_step rows summary = Ret grouped ->
  summary_ok grouped.
Proof.
  revert summary; induction rows as [|r rows IH]; intros summary H E; simpl in E.
  - injection E as <-. exact H.
  - unfold summary_step in E at 1.
    destruct (extractAreaNames r) as [areas|]; simpl in E; [|discriminate].
    apply (IH _ (fold_summary_add_ok _ _ _ areas summary H) E).
Qed.

Lemma summary_ok_values (grouped : jsobject summaryItem) :
  summary_ok grouped -> Object_values grouped = map snd grouped.
Proof.
  intros [_ Hk]. unfold Object_values. rewrite Object_entries_plain; [reflexivity|].
  apply Forall_forall. intros [k item] Hin. simpl.
  rewrite (Hk k item Hin). apply summaryKey_not_index.
Qed.

Lemma summary_ok_tuples (grouped : jsobject summaryItem) :
  summary_ok grouped -> NoDup (map groupingTuple (map snd grouped)).
Proof.
  intros [Hn Hk].
  assert (E : map fst grouped
              = map (fun t : jsval * option Z * option string * status =>
                       let '(a, y, m, s) := t in summaryKey a y m s)
                    (map groupingTuple (map snd grouped))).
  { rewrite !map_map. apply map_ext_in. intros [k item] Hin. simpl.
    apply (Hk k item Hin). }
  rewrite E in Hn. apply NoDup_map_inv in Hn. exact Hn.
Qed.

Lemma filter_outcome_all {A : Type} (p : A -> outcome bool) (l : list A) :
  Forall (fun x => exists b, p x = Ret b) l ->
  exists kept, filter_outcome p l = Ret kept /\ incl kept l.
Proof.
  induction 1 as [|x l [b Hb] _ [kept [E I]]]; simpl.
  - exists []. split; [reflexivity | apply incl_refl].
  - rewrite Hb, E. simpl. destruct b; eexists; split; try reflexivity.
    + apply incl_cons; [left; reflexivity | apply incl_tl, I].
    + apply incl_tl, I.
Qed.

Lemma filterRows_all (q : summaryQuery) (data : list row) :
  Forall (fun r => exists areas, extractAreaNames r = Ret areas) data ->
  exists filtered, filterRows q data = Ret filtered /\ incl filtered data.
Proof.
  intros H. unfold filterRows.
  set (f1 := filter is_outage data).
  set (f2 := match q_year q with
             | Some y => if (negb (y =? EmptyString) && negb (y =? "all"))%string
                         then filter (in_year y) f1 else f1
             | None => f1
             end).
  set (f3 := if given (q_messageType q) then filter (fun _ => false) f2 else f2).
  assert (I1 : incl f1 data) by apply incl_filter.
  assert (I2 : incl f2 data).
  { unfold f2. destruct (q_year q) as [y|]; [|exact I1].
    destruct (negb (y =? EmptyString) && negb (y =? "all"))%string; [|exact I1].
    eapply incl_tran; [apply incl_filter | exact I1]. }
  assert (I3 : incl f3 data).
  { unfold f3. destruct (given (q_messageType q)); [|exact I2].
    eapply incl_tran; [apply incl_filter | exact I2]. }
  assert (F3 : exists kept, filter_outcome (in_areas (split_comma
                 (match q_areas q with Some a => a | None => EmptyString end))) f3
               = Ret kept /\ incl kept f3).
  { apply filter_outcome_all. apply Forall_forall. intros r Hr.
    rewrite Forall_forall in H. destruct (H r (I3 r Hr)) as [areas Ha].
    unfold in_areas. rewrite Ha. simpl. eexists; reflexivity. }
  destruct (q_areas q) as [a|].
  - destruct (negb (a =? EmptyString)%string).
    + destruct F3 as [kept [E I]]. exists kept. split; [exact E|].
      eapply incl_tran; [exact I | exact I3].
    + exists f3. split; [reflexivity | exact I3].
  - exists f3. split; [reflexivity | exact I3].
Qed.

Lemma buildSummary_all (rows : list row) (summary : jsobject summaryItem) :
  Forall (fun r => exists areas, extractAreaNames r = Ret areas) rows ->
  exists grouped, forEach summary_step rows summary = Ret grouped.
Proof.
  intros H. revert summary; induction H as [|r rows [areas Ha] _ IH];
    intros summary; simpl.
  - eexists; reflexivity.
  - unfold summary_step at 1. rewrite Ha. simpl. apply IH.
Qed.

Lemma outageSummary_returns (q : summaryQuery) (data : list row) :
  Forall (fun r => exists areas, extractAreaNames r = Ret areas) data ->
  exists resp, outageSummary q data = Ret resp.
Proof.
  intros H. destruct (filterRows_all q data H) as [filtered [E I]].
  unfold outageSummary, buildSummary. rewrite E. simpl.
  destruct (buildSummary_all filtered []) as [grouped G].
  - apply Forall_forall. intros r Hr. rewrite Forall_forall in H.
    apply H, I, Hr.
  - rewrite G. simpl. eexists; reflexivity.
Qed.

(** C9. No summary holds two rows with the same (area, year, outage type,
    status) tuple, whatever the messages and the filters; and the summary is
    produced for every dataset whose rows were loaded (rows on which
    [extractAreaNames] returned). *)
Theorem summary_tuples_unique (q : summaryQuery) (data : list row) :
  (forall resp, outageSummary q data = Ret resp ->
                NoDup (map groupingTuple (summary resp)))
  /\ (Forall (fun r => exists areas, extractAreaNames r = Ret areas) data ->
      exists resp, outageSummary q data = Ret resp).
Proof.
  split.
  - intros resp E. unfold outageSummary in E.
    destruct (filterRows q data) as [filtered|]; simpl in E; [|discriminate].
    unfold buildSummary in E.
    destruct (forEach summary_step filtered []) as [grouped|] eqn:G;
      simpl in E; [|discriminate].
    injection E as <-. simpl.
    assert (Hok : summary_ok grouped).
    { apply (forEach_summary_step_ok filtered [] grouped); [|exact G].
      split; [constructor | intros k item []]. }
    rewrite (summary_ok_values grouped Hok). apply summary_ok_tuples, Hok.
  - apply outageSummary_returns.
Qed.

End SummaryFacts.

(** ** Contributions of a message to the groups of its areas *)

Lemma string_length_append (a b : string) :
  String.length (a ++ b) = String.length a + String.length b.
Proof. induction a as [|c a IH]; simpl; [reflexivity | rewrite IH; reflexivity]. Qed.




Section ContributionFacts.
Context {RT : JSRuntime}.








Lemma areaStatsOf_cons (e : areaEvent) (events : list areaEvent)
      (stats : jsobject areaStat) :
  areaStatsOf (e :: events) stats
  = areaStatsOf events (areaStats_add stats (ev_area e) (ev_mw e)).
Proof. reflexivity. Qed.




End ContributionFacts.


(** ** Ranking of the areas *)

Lemma dedup_strings_ext (s1 s2 l : list string) :
  (forall x, existsb (String.eqb x) s1 = existsb (String.eqb x) s2) ->
  dedup_strings s1 l = dedup_strings s2 l.
Proof.
  revert s1 s2; induction l as [|a l IH]; intros s1 s2 H; simpl.
  - reflexivity.
  - rewrite <- (H a). destruct (existsb (String.eqb a) s1).
    + apply IH, H.
    + f_equal. apply IH. intros x. simpl. rewrite (H x). reflexivity.
Qed.

Lemma dedup_strings_In (seen l : list string) (x : string) :
  In x (dedup_strings seen l) -> In x l.
Proof.
  revert seen; induction l as [|a l IH]; intros seen H; simpl in *.
  - exact H.
  - destruct (existsb (String.eqb a) seen).
    + right. apply (IH seen), H.
    + destruct H as [H|H]; [left; exact H | right; apply (IH _ H)].
Qed.

Lemma existsb_eqb_In (x : string) (l : list string) :
  existsb (String.eqb x) l = true <-> In x l.
Proof.
  rewrite existsb_exists. split.
  - intros [y [Hy E]]. apply String.eqb_eq in E. rewrite E. exact Hy.
  - intros H. exists x. split; [exact H | apply String.eqb_refl].
Qed.

Lemma obj_get_In {V : Type} (o : jsobject V) (k : string) (v : V) :
  NoDup (map fst o) -> In (k, v) o -> obj_get o k = Some v.
Proof.
  induction o as [|[k' v'] o IH]; simpl; intros Hn Hin; [contradiction|].
  inversion Hn as [|? ? Hk Hl]; subst.
  destruct Hin as [E|Hin].
  - injection E as -> ->. rewrite String.eqb_refl. reflexivity.
  - destruct (String.eqb_spec k' k) as [E|_].
    + exfalso. apply Hk. rewrite E. apply (in_map fst _ _ Hin).
    + apply IH; assumption.
Qed.

Section RankingFacts.
Context {RT : JSRuntime}.







End RankingFacts.


Lemma summary_tuples_unique_witness :
  exists resp,
    outageSummary (RT := RefRuntime) no_filter [scenario_C_row; scenario_C_row]
    = Ret resp
    /\ NoDup (map groupingTuple (summary resp)).
Proof.
  destruct (proj2 (@summary_tuples_unique RefRuntime no_filter
                     [scenario_C_row; scenario_C_row])) as [resp E].
  - repeat constructor; eexists; reflexivity.
  - exists resp. split; [exact E|].
    apply (proj1 (@summary_tuples_unique RefRuntime no_filter
                    [scenario_C_row; scenario_C_row]) resp E).
Defined.

(** ** Large events *)


Lemma In_obj_get {V : Type} (o : jsobject V) (k : string) (v : V) :
  obj_get o k = Some v -> In (k, v) o.
Proof.
  induction o as [|[k' v'] o IH]; simpl; [discriminate|].
  destruct (String.eqb_spec k' k) as [E|_].
  - intros H. injection H as <-. left. rewrite E. reflexivity.
  - intros H. right. apply IH, H.
Qed.

Lemma obj_get_key_In {V : Type} (o : jsobject V) (k : string) :
  In k (map fst o) <-> exists v, obj_get o k = Some v.
Proof.
  induction o as [|[k' v'] o IH]; simpl.
  - split; [intros [] | intros [v H]; discriminate].
  - destruct (String.eqb_spec k' k) as [E|Hne].
    + split; [intros _; eexists; reflexivity | intros _; left; exact E].
    + rewrite <- IH. split; [intros [H|H]; [contradiction | exact H] | intros H; right; exact H].
Qed.

Section LargeEventFacts.
Context {RT : JSRuntime}.














End LargeEventFacts.


Section AreaEventFacts.
Context {RT : JSRuntime}.







Lemma Object_values_perm {V : Type} (o : jsobject V) :
  Permutation (Object_values o) (map snd o).
Proof. unfold Object_values. apply Permutation_map, Object_entries_perm. Qed.


End AreaEventFacts.



(** ** Loading *)

Section LoadingFacts.
Context {RT : JSRuntime}.

Lemma on_data_areas (r : row) (d : loadedRow) :
  on_data r = Ret d ->
  raw d = r /\ exists areas, extractAreaNames r = Ret areas.
Proof.
  unfold on_data. intros H.
  destruct (extractAreaNames r) as [areas|]; simpl in H; [|discriminate].
  destruct (extractUnitNames (production_units_json r)); simpl in H; [|discriminate].
  destruct (extractUnitNames (generation_units_json r)); simpl in H; [|discriminate].
  destruct (extractCapacityInfo r); simpl in H; [|discriminate].
  injection H as <-. split; [reflexivity | eexists; reflexivity].
Qed.

Lemma map_outcome_raw (rows : list row) (data : list loadedRow) :
  map_outcome on_data rows = Ret data ->
  map raw data = rows
  /\ Forall (fun r => exists areas, extractAreaNames r = Ret areas) rows.
Proof.
  revert data; induction rows as [|r rows IH]; intros data H; simpl in H.
  - injection H as <-. split; [reflexivity | constructor].
  - destruct (on_data r) as [d|] eqn:E; simpl in H; [|discriminate].
    destruct (map_outcome on_data rows) as [ds|]; simpl in H; [|discriminate].
    injection H as <-. destruct (on_data_areas r d E) as [R A].
    destruct (IH ds eq_refl) as [M F]. simpl. rewrite R, M.
    split; [reflexivity | constructor; assumption].
Qed.

Lemma loadData_rejects (now at_end : Z) (rows : list row) (c : cache) :
  cache_hit now c = None ->
  Forall (fun r => exists d, on_data r = Ret d) rows ->
  loadData now at_end (Fails rows) c = (Rejected, c).
Proof.
  intros Hc Hr. unfold loadData. rewrite Hc.
  destruct (map_outcome_all on_data rows Hr) as [data E]. rewrite E. reflexivity.
Qed.

Lemma loadData_resolves (now at_end : Z) (rows : list row) (c : cache) :
  cache_hit now c = None ->
  Forall (fun r => exists d, on_data r = Ret d) rows ->
  exists data,
    map_outcome on_data rows = Ret data
    /\ loadData now at_end (Ends rows) c
       = (Resolved data, {| cachedData := Some data; cacheTime := Some at_end |}).
Proof.
  intros Hc Hr. unfold loadData. rewrite Hc.
  destruct (map_outcome_all on_data rows Hr) as [data E].
  exists data. rewrite E. split; reflexivity.
Qed.


(** The file stream's own error: no listener of [loadData] hears it, the
    promise is never settled and the request is not answered. *)
Remark loadData_source_error (q : summaryQuery) (now at_end : Z) (c : cache) :
  cache_hit now c = None ->
  loadData now at_end SourceFails c = (Unhandled, c)
  /\ summaryRoute q now at_end SourceFails c = (NoResponse, c).
Proof.
  intros Hc. unfold summaryRoute, loadData. rewrite Hc. split; reflexivity.
Qed.


End LoadingFacts.



(** * Further properties of the back ends *)

(** ** Unit names and null items *)

Lemma list_sum_perm (l1 l2 : list nat) :
  Permutation l1 l2 -> list_sum l1 = list_sum l2.
Proof.
  induction 1 as [| x l1 l2 _ IH | x y l | l1 l2 l3 _ IH1 _ IH2]; simpl; lia.
Qed.

Lemma forEach_throws {A S : Type} (f : S -> A -> outcome S) (bad : A)
      (items : list A) (s : S) :
  (forall s', f s' bad = Throw) -> In bad items -> forEach f items s = Throw.
Proof.
  intros Hbad. revert s; induction items as [|x items IH]; intros s Hin;
    simpl in *; [contradiction|].
  destruct Hin as [->|Hin]; [rewrite Hbad; reflexivity|].
  destruct (f s x); simpl; [apply IH, Hin | reflexivity].
Qed.

Lemma map_outcome_throws {A B : Type} (f : A -> outcome B) (bad : A)
      (l : list A) :
  f bad = Throw -> In bad l -> map_outcome f l = Throw.
Proof.
  intros Hbad. induction l as [|x l IH]; intros Hin; simpl in *;
    [contradiction|].
  destruct Hin as [->|Hin]; [rewrite Hbad; reflexivity|].
  destruct (f x); simpl; [rewrite (IH Hin); reflexivity | reflexivity].
Qed.

Section UnitFacts.
Context {RT : JSRuntime}.

Lemma unit_name_defined (item : jsval) :
  is_nullish item = false -> unit_name item = Ret (unitNameOf item).
Proof.
  intros H. unfold unit_name, unitNameOf, js_or.
  rewrite !(prop_defined _ item H). simpl.
  destruct (truthy (field_of "name" item)); [reflexivity|].
  destruct (truthy (field_of "productionUnitName" item)); reflexivity.
Qed.

Lemma extractUnitNames_defined (jsonArray : option string) :
  Forall (fun item => is_nullish item = false) (parseJSON jsonArray) ->
  extractUnitNames jsonArray
  = Ret (sort_default (dedup_truthy (map unitNameOf (parseJSON jsonArray)))).
Proof.
  intros H. unfold extractUnitNames, dedup_truthy.
  rewrite <- fold_left_map.
  rewrite (forEach_pure _ (fun names item => add_if_truthy names (unitNameOf item))).
  - reflexivity.
  - intros s x Hx. rewrite Forall_forall in H.
    rewrite (unit_name_defined x (H x Hx)). reflexivity.
Qed.

(** X1. The unit names of a sub-document whose items are not null: the
    call returns; the names are in ascending order of their text; each is a
    truthy value that the preference [name], then [productionUnitName],
    then [generationUnitName] picks from some item; every non-empty string
    so picked is among them; and no string is there twice. *)
Theorem extractUnitNames_sorted_set (jsonArray : option string) :
  Forall (fun item => is_nullish item = false) (parseJSON jsonArray) ->
  exists names,
    extractUnitNames jsonArray = Ret names
    /\ StronglySorted
         (fun a b => String.leb (ToString a) (ToString b) = true) names
    /\ (forall x, In x names ->
                  truthy x = true
                  /\ exists item, In item (parseJSON jsonArray)
                                  /\ unitNameOf item = x)
    /\ (forall item s, In item (parseJSON jsonArray) ->
                       unitNameOf item = JStr s -> s <> EmptyString ->
                       In (JStr s) names)
    /\ (forall s, List.length (filter (same_value_zero (JStr s)) names) <= 1).
Proof.
  intros H. rewrite (extractUnitNames_defined jsonArray H).
  eexists. split; [reflexivity|].
  set (cands := map unitNameOf (parseJSON jsonArray)).
  assert (P : Permutation (sort_default (dedup_truthy cands)) (dedup_truthy cands))
    by apply stable_sort_perm.
  split; [apply sort_default_sorted|]. split; [|split].
  - intros x Hx. apply (Permutation_in _ P) in Hx.
    destruct (fold_add_origin _ _ _ Hx) as [[]|[Hc Ht]].
    split; [exact Ht|]. unfold cands in Hc. apply in_map_iff in Hc.
    destruct Hc as [item [E Hi]]. exists item. split; assumption.
  - intros item s Hi E Hs. apply (Permutation_in _ (Permutation_sym P)).
    apply fold_add_string; [|exact Hs].
    unfold cands. rewrite <- E. apply in_map, Hi.
  - intros s. rewrite (filter_length_perm _ _ _ P).
    apply fold_add_once. simpl. lia.
Qed.

Lemma add_prop_null (k : string) (areas : list jsval) :
  add_prop k areas JNull = Throw.
Proof. reflexivity. Qed.

Lemma extractAreaNames_null (r : row) :
  In JNull (parseJSON (areas_json r))
  \/ In JNull (parseJSON (production_units_json r))
  \/ In JNull (parseJSON (generation_units_json r))
  \/ In JNull (parseJSON (transmission_units_json r)) ->
  extractAreaNames r = Throw.
Proof.
  intros H. unfold extractAreaNames, collectAreaNames.
  destruct (forEach (add_prop "name") (parseJSON (areas_json r)) []) as [a1|] eqn:E1.
  2: reflexivity.
  destruct H as [H|H].
  { rewrite (forEach_throws (add_prop "name") JNull _ []) in E1;
      [discriminate | apply add_prop_null | exact H]. }
  simpl.
  destruct (forEach (add_prop "areaName") (parseJSON (production_units_json r)) a1)
    as [a2|] eqn:E2.
  2: reflexivity.
  destruct H as [H|H].
  { rewrite (forEach_throws (add_prop "areaName") JNull _ a1) in E2;
      [discriminate | apply add_prop_null | exact H]. }
  simpl.
  destruct (forEach (add_prop "areaName") (parseJSON (generation_units_json r)) a2)
    as [a3|] eqn:E3.
  2: reflexivity.
  destruct H as [H|H].
  { rewrite (forEach_throws (add_prop "areaName") JNull _ a2) in E3;
      [discriminate | apply add_prop_null | exact H]. }
  simpl.
  rewrite (forEach_throws _ JNull _ a3); [reflexivity | | exact H].
  intros s. reflexivity.
Qed.

(** X2. A null element in the areas, production, generation or
    transmission sub-document of a row makes the [data] listener throw on
    that row. The exception is raised in the stream, outside the promise:
    a load of a file that holds such a row never settles, leaves the cache
    variables as they were, and the summary request gets no answer. *)
Theorem null_item_breaks_load (q : summaryQuery) (now at_end : Z)
        (rows : list row) (r : row) (c : cache) :
  In r rows ->
  cache_hit now c = None ->
  In JNull (parseJSON (areas_json r))
  \/ In JNull (parseJSON (production_units_json r))
  \/ In JNull (parseJSON (generation_units_json r))
  \/ In JNull (parseJSON (transmission_units_json r)) ->
  on_data r = Throw
  /\ loadData now at_end (Ends rows) c = (Unhandled, c)
  /\ summaryRoute q now at_end (Ends rows) c = (NoResponse, c).
Proof.
  intros Hin Hc Hnull.
  assert (D : on_data r = Throw).
  { unfold on_data. rewrite (extractAreaNames_null r Hnull). reflexivity. }
  assert (L : loadData now at_end (Ends rows) c = (Unhandled, c)).
  { unfold loadData. rewrite Hc.
    rewrite (map_outcome_throws on_data r rows D Hin). reflexivity. }
  split; [exact D|]. split; [exact L|].
  unfold summaryRoute. rewrite L. reflexivity.
Qed.

(** ** The cache of [loadData] *)

(** X3. After a load that ended at the clock value [at_end], a call made
    less than ten minutes after [at_end] resolves with the same rows and
    reads nothing, whatever has become of the file; from ten minutes on the
    file is read again: a failure is then reported although rows are still
    held, and a successful read replaces them. *)
Theorem loadData_cache_window (now at_end later e2 : Z) (rows : list row)
        (c : cache) :
  cache_hit now c = None ->
  Forall loads rows ->
  at_end <> 0%Z ->
  exists data,
    let c1 := {| cachedData := Some data; cacheTime := Some at_end |} in
    loadData now at_end (Ends rows) c = (Resolved data, c1)
    /\ ((later - at_end < CACHE_DURATION)%Z ->
        forall file, loadData later e2 file c1 = (Resolved data, c1))
    /\ ((CACHE_DURATION <= later - at_end)%Z ->
        loadData later e2 SourceFails c1 = (Unhandled, c1)
        /\ (forall bad, Forall loads bad ->
                        loadData later e2 (Fails bad) c1 = (Rejected, c1))
        /\ (forall rows2, Forall loads rows2 ->
              exists data2,
                map raw data2 = rows2
                /\ loadData later e2 (Ends rows2) c1
                   = (Resolved data2,
                      {| cachedData := Some data2; cacheTime := Some e2 |}))).
Proof.
  intros Hc Hr Ht.
  destruct (loadData_resolves now at_end rows c Hc Hr) as [data [M L]].
  exists data. cbv zeta. split; [exact L|]. split.
  - intros Hlt file. unfold loadData, cache_hit. simpl.
    destruct (Z.eqb_spec at_end 0) as [E|_]; [contradiction|].
    destruct (Z.ltb_spec (later - at_end) CACHE_DURATION) as [_|Hge]; [|lia].
    reflexivity.
  - intros Hge.
    assert (Miss : cache_hit later
                     {| cachedData := Some data; cacheTime := Some at_end |}
                   = None).
    { unfold cache_hit. simpl.
      destruct (Z.ltb_spec (later - at_end) CACHE_DURATION) as [Hlt|_]; [lia|].
      rewrite andb_false_r. reflexivity. }
    split; [|split].
    + unfold loadData. rewrite Miss. reflexivity.
    + intros bad Hb. apply loadData_rejects; assumption.
    + intros rows2 H2.
      destruct (loadData_resolves later e2 rows2 _ Miss H2) as [data2 [M2 L2]].
      exists data2. split; [|exact L2].
      apply (map_outcome_raw rows2 data2 M2).
Qed.

End UnitFacts.

Lemma extractUnitNames_sorted_set_witness :
  extractUnitNames (RT := RefRuntime) (Some two_units_text)
  = Ret [JStr "Aurland"; JStr "Tonstad"].
Proof.
  destruct (@extractUnitNames_sorted_set RefRuntime (Some two_units_text))
    as [names [E _]].
  - repeat constructor.
  - rewrite E. vm_compute in E. injection E as <-. reflexivity.
Defined.

Lemma null_item_breaks_load_witness :
  loadData (RT := RefRuntime) 1000 2000 (Ends [scenario_A_row; null_unit_row])
           empty_cache
  = (Unhandled, empty_cache).
Proof.
  apply (@null_item_breaks_load RefRuntime no_filter 1000 2000
           [scenario_A_row; null_unit_row] null_unit_row empty_cache).
  - right; left; reflexivity.
  - reflexivity.
  - right; left. left; reflexivity.
Defined.

Lemma loadData_cache_window_witness :
  exists data,
    loadData (RT := RefRuntime) 1000 2000 (Ends [scenario_A_row]) empty_cache
    = (Resolved data, {| cachedData := Some data; cacheTime := Some 2000%Z |})
    /\ loadData (RT := RefRuntime) 3000 4000 SourceFails
                {| cachedData := Some data; cacheTime := Some 2000%Z |}
       = (Resolved data, {| cachedData := Some data; cacheTime := Some 2000%Z |}).
Proof.
  destruct (@loadData_cache_window RefRuntime 1000 2000 3000 4000
              [scenario_A_row] empty_cache) as [data [L [Hit _]]].
  - reflexivity.
  - repeat constructor; eexists; reflexivity.
  - discriminate.
  - exists data. split; [exact L|]. apply Hit. reflexivity.
Defined.

(** ** The outage summary: what is counted *)

Lemma obj_upsert_sum {V : Type} (m : V -> nat) (k : string) (fresh : V)
      (f : V -> V) (d : nat) (o : jsobject V) :
  (forall v, m (f v) = m v + d) -> m fresh = 0 ->
  list_sum (map (fun kv => m (snd kv)) (obj_upsert k fresh f o))
  = list_sum (map (fun kv => m (snd kv)) o) + d.
Proof.
  intros Hf Hfresh. induction o as [|[k' v] o IH]; simpl.
  - rewrite Hf, Hfresh. lia.
  - destruct (k' =? k)%string; simpl; [rewrite Hf | rewrite IH]; lia.
Qed.

Lemma prefix_split (p s : string) :
  prefix p s = true -> exists t, s = (p ++ t)%string.
Proof.
  revert s; induction p as [|a p IH]; intros s H; simpl in *.
  - exists s. reflexivity.
  - destruct s as [|b s]; simpl in H; [discriminate|].
    destruct (ascii_dec a b) as [->|]; [|discriminate].
    destruct (IH s H) as [t ->]. exists t. reflexivity.
Qed.

Lemma prefix_append (p t : string) : prefix p (p ++ t) = true.
Proof.
  induction p as [|a p IH]; simpl; [destruct t; reflexivity|].
  destruct (ascii_dec a a) as [_|N]; [exact IH | contradiction].
Qed.

Lemma includes_prefix (p s : string) : prefix p s = true -> includes p s = true.
Proof. intros H. destruct s; cbn [includes]; rewrite H; reflexivity. Qed.

Lemma includes_after (x y t : string) : includes y (x ++ y ++ t) = true.
Proof.
  induction x as [|c x IH]; cbn [append includes].
  - apply includes_prefix, prefix_append.
  - destruct (prefix y (String c (x ++ y ++ t))); [reflexivity | exact IH].
Qed.

Lemma includes_split (p s : string) :
  includes p s = true -> exists a t, s = (a ++ p ++ t)%string.
Proof.
  induction s as [|c s IH]; cbn [includes].
  - destruct (prefix p EmptyString) eqn:P; [|discriminate].
    intros _. apply prefix_split in P. destruct P as [t E].
    exists EmptyString, t. exact E.
  - destruct (prefix p (String c s)) eqn:P.
    + intros _. apply prefix_split in P. destruct P as [t E].
      exists EmptyString, t. exact E.
    + intros H. destruct (IH H) as [a [t E]].
      exists (String c a), t. simpl. rewrite E. reflexivity.
Qed.

Lemma string_append_assoc (a b c : string) :
  ((a ++ b) ++ c = a ++ b ++ c)%string.
Proof. induction a as [|x a IH]; simpl; [reflexivity | rewrite IH; reflexivity]. Qed.

(** A text that includes [x ++ y] includes [y]. *)
Lemma includes_tail (x y s : string) :
  includes (x ++ y) s = true -> includes y s = true.
Proof.
  intros H. destruct (includes_split _ _ H) as [a [t E]].
  rewrite E, string_append_assoc, <- string_append_assoc.
  apply includes_after.
Qed.

Section CountingFacts.
Context {RT : JSRuntime}.

Lemma summary_add_sum (year : option Z) (messageType : option string)
      (st : status) (areas : list jsval) (summary : jsobject summaryItem) :
  list_sum (map (fun kv => s_count (snd kv))
                (fold_left (summary_add year messageType st) areas summary))
  = list_sum (map (fun kv => s_count (snd kv)) summary) + List.length areas.
Proof.
  revert summary; induction areas as [|a areas IH]; intros summary; simpl.
  - lia.
  - rewrite IH. unfold summary_add.
    rewrite (obj_upsert_sum s_count _ _ count_up 1).
    + lia.
    + intros v. simpl. lia.
    + reflexivity.
Qed.

Lemma buildSummary_sum (rows : list row) (summary grouped : jsobject summaryItem) :
  forEach summary_step rows summary = Ret grouped ->
  list_sum (map (fun kv => s_count (snd kv)) grouped)
  = list_sum (map (fun kv => s_count (snd kv)) summary)
    + list_sum (map areaCount rows).
Proof.
  revert summary; induction rows as [|r rows IH]; intros summary H; simpl in *.
  - injection H as <-. lia.
  - unfold summary_step at 1 in H. unfold areaCount at 1.
    destruct (extractAreaNames r) as [areas|]; simpl in H; [|discriminate].
    rewrite (IH _ H), summary_add_sum. lia.
Qed.

(** X4. Every area of every message that passes the filters is counted
    once: the counts of the summary rows add up to the number of (message,
    area) pairs of the filtered messages, [totalRecords] is the number of
    filtered messages, and those are outage messages of the dataset. A
    message on which no area is found is in [totalRecords] and in no
    summary row. *)
Theorem summary_counts_conserved (q : summaryQuery) (data : list row) :
  Forall (fun r => exists areas, extractAreaNames r = Ret areas) data ->
  exists filtered resp,
    filterRows q data = Ret filtered
    /\ outageSummary q data = Ret resp
    /\ totalRecords resp = List.length filtered
    /\ list_sum (map s_count (summary resp)) = list_sum (map areaCount filtered)
    /\ incl filtered data
    /\ Forall (fun r => is_outage r = true) filtered.
Proof.
  intros H. destruct (filterRows_all q data H) as [filtered [E I]].
  assert (Hf : Forall (fun r => exists areas, extractAreaNames r = Ret areas)
                      filtered).
  { apply Forall_forall. intros r Hr. rewrite Forall_forall in H.
    apply H, I, Hr. }
  destruct (buildSummary_all filtered [] Hf) as [grouped G].
  exists filtered.
  exists {| summary := Object_values grouped;
            topAreasOf := topAreas (Object_values grouped) (topN_value q);
            totalRecords := List.length filtered |}.
  split; [exact E|]. split.
  { unfold outageSummary, buildSummary. rewrite E. simpl. rewrite G. reflexivity. }
  split; [reflexivity|]. split.
  { simpl. rewrite (list_sum_perm _ _ (Permutation_map s_count
                                        (Object_values_perm grouped))).
    rewrite map_map. rewrite (buildSummary_sum filtered [] grouped G).
    reflexivity. }
  split; [exact I|].
  clear - E. unfold filterRows in E.
  set (f1 := filter is_outage data) in E.
  assert (F1 : Forall (fun r => is_outage r = true) f1).
  { apply Forall_forall. intros r Hr. apply filter_In in Hr. apply Hr. }
  set (f2 := match q_year q with
             | Some y => if (negb (y =? EmptyString) && negb (y =? "all"))%string
                         then filter (in_year y) f1 else f1
             | None => f1
             end) in E.
  assert (F2 : Forall (fun r => is_outage r = true) f2).
  { unfold f2. destruct (q_year q) as [y|]; [|exact F1].
    destruct (negb (y =? EmptyString) && negb (y =? "all"))%string; [|exact F1].
    apply Forall_forall. intros r Hr. apply filter_In in Hr.
    rewrite Forall_forall in F1. apply F1, Hr. }
  set (f3 := if given (q_messageType q) then filter (fun _ => false) f2 else f2)
    in E.
  assert (F3 : Forall (fun r => is_outage r = true) f3).
  { unfold f3. destruct (given (q_messageType q)); [|exact F2].
    apply Forall_forall. intros r Hr. apply filter_In in Hr.
    rewrite Forall_forall in F2. apply F2, Hr. }
  assert (K : forall p kept, filter_outcome p f3 = Ret kept ->
                             Forall (fun r => is_outage r = true) kept).
  { intros p. clear E. induction F3 as [|r l Hr _ IH]; intros kept Hk;
      simpl in Hk.
    - injection Hk as <-. constructor.
    - destruct (p r) as [keep|]; simpl in Hk; [|discriminate].
      destruct (filter_outcome p l) as [kept'|]; simpl in Hk; [|discriminate].
      injection Hk as <-. destruct keep; [constructor; [exact Hr|] |];
        apply IH; reflexivity. }
  destruct (q_areas q) as [a|].
  - destruct (negb (a =? EmptyString)%string).
    + apply (K _ _ E).
    + injection E as <-. exact F3.
  - injection E as <-. exact F3.
Qed.

Lemma filter_none {A : Type} (l : list A) : filter (fun _ => false) l = [].
Proof. induction l; simpl; [reflexivity | assumption]. Qed.


(** X6. The keyword [unplanned] never decides a status: a text that
    includes it includes [planned], so a message without a code 1 or 2
    whose remarks mention [unplanned] is classified Planned; a message is
    classified Unplanned only by the code 2 or by one of [unexpected],
    [fault], [failure], [emergency]. *)
Theorem unplanned_keyword_reads_planned (r : row) :
  (code_is 1 (unavailabilityType r) = false ->
   code_is 2 (unavailabilityType r) = false ->
   includes "unplanned" (lowered_remarks r) = true ->
   plannedStatus r = Planned)
  /\ (plannedStatus r = Unplanned ->
      code_is 2 (unavailabilityType r) = true
      \/ some_keyword ["unexpected"; "fault"; "failure"; "emergency"]
                      (lowered_remarks r) = true).
Proof.
  split.
  - intros H1 H2 Hu. unfold plannedStatus. rewrite H1, H2.
    assert (Hp : includes "planned" (lowered_remarks r) = true)
      by apply (includes_tail "un" "planned" _ Hu).
    unfold some_keyword, plannedKeywords. simpl. rewrite Hp. reflexivity.
  - unfold plannedStatus.
    destruct (code_is 1 (unavailabilityType r)); [discriminate|].
    destruct (code_is 2 (unavailabilityType r)); [left; reflexivity|].
    destruct (some_keyword plannedKeywords (lowered_remarks r)) eqn:P;
      [discriminate|].
    destruct (some_keyword unplannedKeywords (lowered_remarks r)) eqn:U;
      [|discriminate].
    intros _. right. unfold some_keyword, unplannedKeywords in U.
    unfold some_keyword, plannedKeywords in P. simpl in U, P.
    destruct (includes "unplanned" (lowered_remarks r)) eqn:Hu.
    + rewrite (includes_tail "un" "planned" _ Hu) in P. discriminate.
    + simpl in U. unfold some_keyword. simpl. exact U.
Qed.

End CountingFacts.

Lemma summary_counts_conserved_witness :
  exists filtered resp,
    filterRows (RT := RefRuntime) no_filter [scenario_C_row; scenario_A_row]
    = Ret filtered
    /\ outageSummary (RT := RefRuntime) no_filter
                     [scenario_C_row; scenario_A_row] = Ret resp
    /\ totalRecords resp = 2
    /\ list_sum (map s_count (summary resp)) = 3.
Proof.
  destruct (@summary_counts_conserved RefRuntime no_filter
              [scenario_C_row; scenario_A_row])
    as (filtered & resp & E & O & T & S & _).
  - repeat constructor; eexists; reflexivity.
  - exists filtered, resp. split; [exact E|]. split; [exact O|].
    vm_compute in E. injection E as <-. split; [exact T | exact S].
Defined.


Lemma unplanned_keyword_reads_planned_witness :
  plannedStatus (RT := RefRuntime) unplanned_remark_row = Planned.
Proof.
  apply (proj1 (@unplanned_keyword_reads_planned RefRuntime
                  unplanned_remark_row)); reflexivity.
Defined.

(** ** The area events: what the totals add up to *)

Lemma sum_Q_app (l1 l2 : list Q) : (sum_Q (l1 ++ l2) == sum_Q l1 + sum_Q l2)%Q.
Proof.
  induction l1 as [|x l1 IH]; simpl.
  - ring.
  - rewrite IH. ring.
Qed.

Lemma sum_Q_perm (l1 l2 : list Q) :
  Permutation l1 l2 -> (sum_Q l1 == sum_Q l2)%Q.
Proof.
  induction 1 as [| x l1 l2 _ IH | x y l | l1 l2 l3 _ IH1 _ IH2]; simpl.
  - reflexivity.
  - rewrite IH. reflexivity.
  - ring.
  - rewrite IH1. exact IH2.
Qed.

Lemma obj_upsert_sum_Q {V : Type} (m : V -> Q) (k : string) (fresh : V)
      (f : V -> V) (d : Q) (o : jsobject V) :
  (forall v, m (f v) == m v + d)%Q -> (m fresh == 0)%Q ->
  (sum_Q (map (fun kv => m (snd kv)) (obj_upsert k fresh f o))
   == sum_Q (map (fun kv => m (snd kv)) o) + d)%Q.
Proof.
  intros Hf Hfresh. induction o as [|[k' v] o IH]; simpl.
  - rewrite Hf, Hfresh. ring.
  - destruct (k' =? k)%string; simpl; [rewrite Hf | rewrite IH]; ring.
Qed.

Lemma fold_upsert_keys {E V : Type} (key : E -> string) (fresh : E -> V)
      (f : E -> V -> V) (events : list E) (o : jsobject V) :
  map fst (fold_left (fun o' e => obj_upsert (key e) (fresh e) (f e) o')
                     events o)
  = map fst o ++ dedup_strings (map fst o) (map key events).
Proof.
  revert o; induction events as [|e events IH]; intros o; simpl.
  - rewrite app_nil_r. reflexivity.
  - rewrite IH, obj_upsert_keys.
    destruct (in_dec string_dec (key e) (map fst o)) as [Hin|Hn].
    + apply (proj2 (existsb_eqb_In _ _)) in Hin. rewrite Hin. reflexivity.
    + destruct (existsb (String.eqb (key e)) (map fst o)) eqn:Eb;
        [apply existsb_eqb_In in Eb; contradiction|].
      rewrite <- app_assoc. simpl. f_equal. f_equal.
      apply dedup_strings_ext. intros x.
      rewrite existsb_app. simpl. rewrite orb_false_r. apply orb_comm.
Qed.

Section TotalsFacts.
Context {RT : JSRuntime}.

Lemma areaStats_fold_sums {E : Type} (area : E -> string) (mw : E -> Q)
      (events : list E) (stats : jsobject areaStat) :
  list_sum (map (fun kv => st_count (snd kv))
                (fold_left (fun st e => areaStats_add st (area e) (mw e))
                           events stats))
  = list_sum (map (fun kv => st_count (snd kv)) stats) + List.length events
  /\ (sum_Q (map (fun kv => st_totalMW (snd kv))
                 (fold_left (fun st e => areaStats_add st (area e) (mw e))
                            events stats))
      == sum_Q (map (fun kv => st_totalMW (snd kv)) stats)
         + sum_Q (map mw events))%Q.
Proof.
  revert stats; induction events as [|e events IH]; intros stats; simpl.
  - split; [lia | ring].
  - destruct (IH (areaStats_add stats (area e) (mw e))) as [C T].
    rewrite C, T. unfold areaStats_add. split.
    + rewrite (obj_upsert_sum st_count _ _ _ 1); [lia | | reflexivity].
      intros v. simpl. lia.
    + rewrite (obj_upsert_sum_Q st_totalMW _ _ _ (mw e)).
      * ring.
      * intros v. simpl. reflexivity.
      * simpl. reflexivity.
Qed.

Lemma sortByTotalMW_perm (stats : jsobject areaStat) :
  Permutation (sortByTotalMW stats) (map snd stats).
Proof.
  unfold sortByTotalMW.
  eapply Permutation_trans; [apply stable_sort_perm | apply Object_values_perm].
Qed.

Lemma sortByTotalMW_sums (stats : jsobject areaStat) :
  list_sum (map st_count (sortByTotalMW stats))
  = list_sum (map (fun kv => st_count (snd kv)) stats)
  /\ (sum_Q (map st_totalMW (sortByTotalMW stats))
      == sum_Q (map (fun kv => st_totalMW (snd kv)) stats))%Q.
Proof.
  pose proof (sortByTotalMW_perm stats) as P. split.
  - rewrite (list_sum_perm _ _ (Permutation_map st_count P)).
    rewrite map_map. reflexivity.
  - rewrite (sum_Q_perm _ _ (Permutation_map st_totalMW P)).
    rewrite map_map. reflexivity.
Qed.

Lemma sum_Q_constant {A : Type} (c : Q) (k : list A) :
  (sum_Q (map (fun _ => c) k) == inject_Z (Z.of_nat (List.length k)) * c)%Q.
Proof.
  induction k as [|x k IH].
  - simpl. ring.
  - change (sum_Q (map (fun _ : A => c) (x :: k)))
      with (c + sum_Q (map (fun _ : A => c) k))%Q.
    rewrite IH. cbn [List.length].
    rewrite Nat2Z.inj_succ, <- Z.add_1_r, inject_Z_plus. ring.
Qed.

Lemma eventsOfRow_carried (r : dbRow) :
  (sum_Q (map ev_mw (eventsOfRow r)) == carriedMW r)%Q.
Proof.
  unfold eventsOfRow, carriedMW, mwPerArea, numAreasOf.
  rewrite map_map. cbn [ev_mw].
  destruct (areaListOf r) as [|a l]; [reflexivity|].
  rewrite sum_Q_constant. cbn [List.length].
  assert (Hn : ~ (inject_Z (Z.of_nat (S (List.length l))) == 0)%Q).
  { unfold Qeq. simpl. lia. }
  generalize dependent (inject_Z (Z.of_nat (S (List.length l)))).
  intros d Hd. field. exact Hd.
Qed.

Lemma eventsOfRows_carried (rows : list dbRow) :
  (sum_Q (map ev_mw (eventsOfRows rows)) == sum_Q (map carriedMW rows))%Q.
Proof.
  induction rows as [|r rows IH]; [reflexivity|].
  unfold eventsOfRows in *. cbn [flat_map map sum_Q fold_right].
  rewrite map_app, sum_Q_app, IH, eventsOfRow_carried. reflexivity.
Qed.

Lemma eventsOfRows_length (rows : list dbRow) :
  List.length (eventsOfRows rows)
  = list_sum (map (fun r => List.length (areaListOf r)) rows).
Proof.
  induction rows as [|r rows IH]; [reflexivity|].
  unfold eventsOfRows in *. cbn [flat_map map list_sum fold_right].
  rewrite length_app, IH. unfold eventsOfRow. rewrite length_map. reflexivity.
Qed.

Lemma areaStatsOf_inv (events : list areaEvent) (stats : jsobject areaStat) :
  (forall k v, In (k, v) stats -> st_area v = k) ->
  forall k v, In (k, v) (areaStatsOf events stats) -> st_area v = k.
Proof.
  revert stats; induction events as [|e events IH]; intros stats Ha;
    [exact Ha|].
  rewrite areaStatsOf_cons. apply IH. unfold areaStats_add.
  apply (obj_upsert_In areaStat _ _ _ stats (fun k v => st_area v = k)).
  - exact Ha.
  - intros v Hv. exact Hv.
  - reflexivity.
Qed.

(** X7. The area events of the SQLite back end lose and invent nothing:
    a message becomes one event per listed area (so none when it lists no
    area); the counts of the summary add up to [totalEvents]; the
    [totalMW] of the summary add up to the capacities of the messages that
    list an area, each message counted once however many areas it lists;
    and [uniqueAreas] holds exactly the areas of the summary, each once. *)
Theorem area_events_totals_conserved (rows : list dbRow) :
  Forall (fun ev => inherited_name (ev_area ev) = false) (eventsOfRows rows) ->
  let answer := dbAreaEventsOf rows in
  dbe_totalEvents answer
  = list_sum (map (fun r => List.length (areaListOf r)) rows)
  /\ list_sum (map st_count (dbe_summary answer)) = dbe_totalEvents answer
  /\ (sum_Q (map st_totalMW (dbe_summary answer))
      == sum_Q (map carriedMW rows))%Q
  /\ Permutation (dbe_uniqueAreas answer) (map st_area (dbe_summary answer))
  /\ NoDup (dbe_uniqueAreas answer).
Proof.
  intros _ answer. unfold answer, dbAreaEventsOf. cbn [dbe_totalEvents
    dbe_summary dbe_uniqueAreas].
  destruct (sortByTotalMW_sums (areaStatsOf (eventsOfRows rows) [])) as [C T].
  destruct (areaStats_fold_sums ev_area ev_mw (eventsOfRows rows) []) as [C2 T2].
  fold (areaStatsOf (eventsOfRows rows) []) in C2, T2.
  split; [apply eventsOfRows_length|]. split; [rewrite C, C2; reflexivity|].
  split.
  { rewrite T, T2. simpl. rewrite eventsOfRows_carried. ring. }
  assert (K : map fst (areaStatsOf (eventsOfRows rows) [])
              = dedup_strings [] (map ev_area (eventsOfRows rows))).
  { unfold areaStatsOf, areaStats_add.
    rewrite (fold_upsert_keys ev_area
               (fun ev => {| st_area := ev_area ev; st_totalMW := 0;
                             st_count := 0 |})
               (fun ev st => {| st_area := st_area st;
                                st_totalMW := (st_totalMW st + ev_mw ev)%Q;
                                st_count := S (st_count st) |})).
    reflexivity. }
  assert (A : map st_area (map snd (areaStatsOf (eventsOfRows rows) []))
              = map fst (areaStatsOf (eventsOfRows rows) [])).
  { rewrite map_map. apply map_ext_in. intros [k v] Hin. simpl.
    apply (areaStatsOf_inv (eventsOfRows rows) []); [intros ? ? []|exact Hin]. }
  assert (P : Permutation
                (stable_sort String.leb
                   (dedup_strings [] (map ev_area (eventsOfRows rows))))
                (map st_area (sortByTotalMW (areaStatsOf (eventsOfRows rows) [])))).
  { eapply Permutation_trans; [apply stable_sort_perm|].
    rewrite <- K, <- A. apply Permutation_sym, Permutation_map.
    apply sortByTotalMW_perm. }
  split; [exact P|].
  apply (Permutation_NoDup (Permutation_sym (stable_sort_perm _ _ _))).
  rewrite <- K.
  assert (D : forall (events : list areaEvent) (stats : jsobject areaStat),
             NoDup (map fst stats) ->
             NoDup (map fst (areaStatsOf events stats))).
  { induction events as [|e events IH]; intros stats Hs; [exact Hs|].
    rewrite areaStatsOf_cons. apply IH. unfold areaStats_add.
    apply obj_upsert_NoDup, Hs. }
  apply D. constructor.
Qed.

Lemma filterEvents_facts (q : eventsQuery) (results : list csvEvent) :
  incl (filterEvents q results) results
  /\ (thresholdOf q = None -> filterEvents q results = [])
  /\ (forall s, q_status q = Some s -> s <> "Both" ->
        Forall (fun e => ce_status e = Some s) (filterEvents q results))
  /\ (given (q_eventAreas q) = true ->
      Forall (fun e => exists a, ce_area e = Some a
                                 /\ In a (split_comma
                                            (column_text (q_eventAreas q))))
             (filterEvents q results)).
Proof.
  unfold filterEvents.
  set (f1 := filter (fun e => reaches (thresholdOf q) (ce_mw e)) results).
  set (wanted := match q_status q with Some s => s | None => "Both" end).
  set (f2 := if (wanted =? "Both")%string then f1
             else filter (fun e => option_string_eqb (ce_status e) (Some wanted))
                         f1).
  assert (I1 : incl f1 results) by apply incl_filter.
  assert (I2 : incl f2 f1).
  { unfold f2. destruct (wanted =? "Both")%string;
      [apply incl_refl | apply incl_filter]. }
  assert (S2 : forall s, q_status q = Some s -> s <> "Both" ->
                         Forall (fun e => ce_status e = Some s) f2).
  { intros s Hs Hne. unfold f2, wanted. rewrite Hs.
    destruct (String.eqb_spec s "Both") as [E|_]; [contradiction|].
    apply Forall_forall. intros e He. apply filter_In in He.
    destruct He as [_ He]. destruct (ce_status e) as [x|]; simpl in He;
      [|discriminate].
    apply String.eqb_eq in He. rewrite He. reflexivity. }
  assert (E1 : thresholdOf q = None -> f1 = []).
  { intros Hn. unfold f1. rewrite Hn. simpl. apply filter_none. }
  destruct (given (q_eventAreas q)) eqn:G.
  - split; [|split; [|split]].
    + eapply incl_tran; [apply incl_filter|].
      eapply incl_tran; [exact I2 | exact I1].
    + intros Hn. assert (F : f2 = []).
      { destruct f2 as [|e l]; [reflexivity|].
        assert (Hin : In e f1) by (apply I2; left; reflexivity).
        rewrite (E1 Hn) in Hin. contradiction. }
      rewrite F. reflexivity.
    + intros s Hs Hne. apply Forall_forall. intros e He.
      apply filter_In in He. destruct He as [He _].
      specialize (S2 s Hs Hne). rewrite Forall_forall in S2. apply S2, He.
    + intros _. apply Forall_forall. intros e He. apply filter_In in He.
      destruct He as [_ He]. destruct (ce_area e) as [a|]; [|discriminate].
      exists a. split; [reflexivity|]. apply existsb_eqb_In, He.
  - split; [|split; [|split]].
    + eapply incl_tran; [exact I2 | exact I1].
    + intros Hn. destruct f2 as [|e l]; [reflexivity|].
      assert (Hin : In e f1) by (apply I2; left; reflexivity).
      rewrite (E1 Hn) in Hin. contradiction.
    + exact S2.
    + discriminate.
Qed.

(** X8. The area events of the CSV back end: the events of the answer are
    events of the file; none is returned when the threshold is not a
    number; a status other than [Both] keeps only the events of that
    status, and an area list only the events of a listed area; the counts
    of the summary add up to the number of events returned and the
    [totalMW] to the sum of their capacities. *)
Theorem csv_area_events_conserved (q : eventsQuery) (rows : list eventRow) :
  let results := map readEvent rows in
  let events := filterEvents q results in
  Forall (fun e => inherited_name (column_text (ce_area e)) = false) events ->
  incl events results
  /\ (thresholdOf q = None -> events = [])
  /\ (forall s, q_status q = Some s -> s <> "Both" ->
        Forall (fun e => ce_status e = Some s) events)
  /\ (given (q_eventAreas q) = true ->
      Forall (fun e => exists a, ce_area e = Some a
                                 /\ In a (split_comma
                                            (column_text (q_eventAreas q))))
             events)
  /\ list_sum (map st_count (csvAreaEventsSummary q rows)) = List.length events
  /\ (sum_Q (map st_totalMW (csvAreaEventsSummary q rows))
      == sum_Q (map ce_mw events))%Q.
Proof.
  intros results events _.
  destruct (filterEvents_facts q results) as (F1 & F2 & F3 & F4).
  split; [exact F1|]. split; [exact F2|]. split; [exact F3|].
  split; [exact F4|].
  unfold csvAreaEventsSummary. fold results. fold events.
  destruct (sortByTotalMW_sums (csvAreaStats events)) as [C T].
  destruct (areaStats_fold_sums (fun e => column_text (ce_area e)) ce_mw
                                events []) as [C2 T2].
  fold (csvAreaStats events) in C2, T2.
  split; [rewrite C, C2; reflexivity|].
  rewrite T, T2. simpl. ring.
Qed.

End TotalsFacts.

Lemma area_events_totals_conserved_witness :
  dbe_totalEvents (dbAreaEventsOf repeated_area_rows) = 4
  /\ list_sum (map st_count (dbe_summary (dbAreaEventsOf repeated_area_rows)))
     = 4
  /\ (sum_Q (map st_totalMW (dbe_summary (dbAreaEventsOf repeated_area_rows)))
      == 160 # 1)%Q
  /\ dbe_uniqueAreas (dbAreaEventsOf repeated_area_rows) = ["NO1"; "NO2"].
Proof.
  destruct (@area_events_totals_conserved repeated_area_rows)
    as (T & C & M & _).
  - repeat constructor.
  - split; [exact T|]. split; [rewrite C; exact T|]. split.
    + rewrite M. reflexivity.
    + reflexivity.
Defined.

Lemma csv_area_events_conserved_witness :
  list_sum (map st_count (csvAreaEventsSummary (RT := RefRuntime) threshold_50
                                               three_event_rows)) = 2
  /\ (sum_Q (map st_totalMW (csvAreaEventsSummary (RT := RefRuntime)
                                                  threshold_50 three_event_rows))
      == 580 # 1)%Q.
Proof.
  destruct (@csv_area_events_conserved RefRuntime threshold_50 three_event_rows)
    as (_ & _ & _ & _ & C & M).
  - repeat constructor.
  - split; [rewrite C; reflexivity | rewrite M; reflexivity].
Defined.

(** ** The area of a record in the prototype server *)






Section AreaOfRecord.
Context {RT : JSRuntime}.





End AreaOfRecord.


(** ** The summary of the prototype server *)

Lemma map_set_by_get {V : Type} (k : string) (g : option V -> V) (fresh : V)
      (m : list (string * V)) :
  g None = g (Some fresh) ->
  map_set k (g (obj_get m k)) m = obj_upsert k fresh (fun v => g (Some v)) m.
Proof.
  intros Hg. induction m as [|[k' v'] m IH]; simpl.
  - rewrite Hg. reflexivity.
  - destruct (k' =? k)%string; [reflexivity | rewrite IH; reflexivity].
Qed.

Lemma filter_length_mono {A : Type} (p q : A -> bool) (l : list A) :
  (forall x, p x = true -> q x = true) ->
  List.length (filter p l) <= List.length (filter q l).
Proof.
  intros H. induction l as [|x l IH]; simpl; [lia|].
  destruct (p x) eqn:Px.
  - rewrite (H x Px). simpl. lia.
  - destruct (q x); simpl; lia.
Qed.

Lemma sorted_by_leb {A : Type} (f : A -> nat) (l : list A) :
  StronglySorted (fun a b => f b <= f a)
                 (stable_sort (fun a b => (f b <=? f a)%nat) l).
Proof.
  assert (S : StronglySorted (fun a b : A => (f b <=? f a)%nat = true)
                (stable_sort (fun a b => (f b <=? f a)%nat) l)).
  { apply stable_sort_sorted.
    - intros x y H. apply Nat.leb_le. apply Nat.leb_gt in H. lia.
    - intros x y z H1 H2. apply Nat.leb_le in H1, H2. apply Nat.leb_le. lia. }
  induction S as [|a l' _ IH F]; constructor; [exact IH|].
  rewrite Forall_forall in *. intros b Hb. apply Nat.leb_le, F, Hb.
Qed.


Section TallyFacts.
Context {RT : JSRuntime}.
Variable A : Type.
Variable key : A -> string.

Lemma count_in_upsert (m : list (string * nat)) (k : string) :
  count_in m k = obj_upsert k 0 (fun n => n + 1) m.
Proof.
  unfold count_in.
  apply (map_set_by_get k (fun o => match o with Some n => n | None => 0 end + 1) 0).
  reflexivity.
Qed.

Lemma count_in_sum (m : list (string * nat)) (k : string) :
  list_sum (map snd (count_in m k)) = list_sum (map snd m) + 1.
Proof.
  rewrite count_in_upsert. induction m as [|[k' v] m IH]; simpl; [lia|].
  destruct (k' =? k)%string; simpl; lia.
Qed.

Lemma tally_sum (l : list A) (m : list (string * nat)) :
  list_sum (map snd (fold_left (fun acc x => count_in acc (key x)) l m))
  = list_sum (map snd m) + List.length l.
Proof.
  revert m; induction l as [|x l IH]; intros m; simpl; [lia|].
  rewrite IH, count_in_sum. lia.
Qed.

Lemma tally_NoDup (l : list A) (m : list (string * nat)) :
  NoDup (map fst m) ->
  NoDup (map fst (fold_left (fun acc x => count_in acc (key x)) l m)).
Proof.
  revert m; induction l as [|x l IH]; intros m H; simpl; [exact H|].
  apply IH. rewrite count_in_upsert. apply obj_upsert_NoDup, H.
Qed.

Lemma tally_get (l : list A) (m : list (string * nat)) (k : string) :
  tally_at (fold_left (fun acc x => count_in acc (key x)) l m) k
  = tally_at m k + List.length (filter (fun x => (key x =? k)%string) l).
Proof.
  revert m; induction l as [|x l IH]; intros m; simpl; [lia|].
  rewrite IH, count_in_upsert. unfold tally_at.
  destruct (String.eqb_spec (key x) k) as [E|Hne].
  - rewrite E, obj_get_upsert_same. simpl.
    destruct (obj_get m k); lia.
  - rewrite obj_get_upsert_other by (intros E; apply Hne; symmetry; exact E).
    lia.
Qed.

Lemma tally_keys (l : list A) (m : list (string * nat)) (k : string) :
  In k (map fst (fold_left (fun acc x => count_in acc (key x)) l m))
  <-> In k (map fst m) \/ In k (map key l).
Proof.
  revert m; induction l as [|x l IH]; intros m; simpl.
  - split; [intros H; left; exact H | intros [H|[]]; exact H].
  - rewrite IH, count_in_upsert, obj_upsert_keys.
    destruct (in_dec string_dec (key x) (map fst m)) as [Hin|Hn].
    + split.
      * intros [H|H]; [left; exact H | right; right; exact H].
      * intros [H|[H|H]]; [left; exact H | left; rewrite <- H; exact Hin
                          | right; exact H].
    + rewrite in_app_iff. simpl. split.
      * intros [[H|[H|[]]]|H];
          [left; exact H | right; left; exact H | right; right; exact H].
      * intros [H|[H|H]];
          [left; left; exact H | left; right; left; exact H | right; exact H].
Qed.

Lemma tally_positive (l : list A) (k : string) (n : nat) :
  In (k, n) (fold_left (fun acc x => count_in acc (key x)) l []) ->
  n = List.length (filter (fun x => (key x =? k)%string) l) /\ 0 < n.
Proof.
  intros Hin.
  assert (D : NoDup (map fst (fold_left (fun acc x => count_in acc (key x)) l [])))
    by (apply tally_NoDup; constructor).
  pose proof (tally_get l [] k) as G. unfold tally_at at 1 in G.
  rewrite (obj_get_In _ _ _ D Hin) in G. simpl in G.
  split; [exact G|].
  assert (K : In k (map key l)).
  { apply (in_map fst) in Hin. simpl in Hin. apply tally_keys in Hin.
    destruct Hin as [[]|H]. exact H. }
  apply in_map_iff in K. destruct K as [x [E Hx]].
  rewrite G.
  assert (F : In x (filter (fun x => (key x =? k)%string) l)).
  { apply filter_In. split; [exact Hx | apply String.eqb_eq, E]. }
  destruct (filter (fun x => (key x =? k)%string) l); [contradiction | simpl; lia].
Qed.

Variable amount : A -> Q.




End TallyFacts.

Section PrototypeSummaryFacts.
Context {RT : JSRuntime}.

Lemma summary_loop_fields (records : list ummItem) (s : summaryState) :
  let s' := fold_left summary_loop records s in
  totalsByArea s'
  = fold_left (fun acc item => count_in acc (areaOf (item_core item)))
              records (totalsByArea s)
  /\ capacityByArea s'
     = fold_left (fun acc item => add_in acc (areaOf (item_core item))
                                         (capOf (item_core item)))
                 records (capacityByArea s)
  /\ statusCounts s'
     = fold_left (fun acc item => count_in acc (statusOf item))
                 records (statusCounts s)
  /\ typeCounts s'
     = fold_left (fun acc item => count_in acc (typeOf item))
                 records (typeCounts s)
  /\ largeEvents s'
     = fold_left largeEvents_step (map item_core records) (largeEvents s)
  /\ (capacitySum s'
      == capacitySum s + sum_Q (map (fun item => capOf (item_core item)) records))%Q
  /\ activeCount s'
     = activeCount s
       + List.length (filter (fun item => (statusOf item =? "Active")%string)
                             records).
Proof.
  revert s; induction records as [|item records IH]; intros s; cbv zeta.
  - simpl. repeat split; try reflexivity; [ring | lia].
  - cbn [fold_left].
    destruct (IH (summary_loop s item)) as (Ht & Hc & Hs & Hy & Hl & Hq & Hn).
    rewrite Ht, Hc, Hs, Hy, Hl, Hq, Hn. cbn [map filter sum_Q fold_right].
    unfold summary_loop at 1 2 3 4 5 6 7. cbn [totalsByArea capacityByArea
      statusCounts typeCounts largeEvents capacitySum activeCount].
    repeat split; try reflexivity.
    + fold (sum_Q (map (fun item0 => capOf (item_core item0)) records)). ring.
    + destruct (statusOf item =? "Active")%string; simpl; lia.
Qed.

(** X10. The counters of the summary of the prototype server agree with
    each other: the [issues] of the areas, the counts of the status
    breakdown and those of the outage type breakdown each add up to
    [totalMessages], the number of records; [activeMessages] is the number
    of records whose status is Active; each row of the status breakdown
    holds a status once, with the positive number of records of that
    status; the breakdown is in descending order of count; and
    [largeOutages] is computed from the areas and capacities alone. *)
Theorem buildUmmSummary_counts (records : list ummItem) :
  let s := buildUmmSummary records in
  totalMessages s = List.length records
  /\ list_sum (map issues (areaTotalsOf s)) = totalMessages s
  /\ list_sum (map snd (statusBreakdown s)) = totalMessages s
  /\ list_sum (map snd (outageTypeBreakdown s)) = totalMessages s
  /\ activeMessages s
     = List.length (filter (fun item => (statusOf item =? "Active")%string)
                           records)
  /\ activeMessages s <= totalMessages s
  /\ NoDup (map fst (statusBreakdown s))
  /\ (forall st n, In (st, n) (statusBreakdown s) ->
        n = List.length (filter (fun item => (statusOf item =? st)%string)
                                records)
        /\ 0 < n)
  /\ StronglySorted (fun a b => snd b <= snd a) (statusBreakdown s)
  /\ largeOutagesOf s = largeOutages (map item_core records).
Proof.
  cbv zeta. unfold buildUmmSummary.
  destruct (summary_loop_fields records summary_start)
    as (Ht & Hc & Hs & Hy & Hl & Hq & Hn). cbv zeta in Ht, Hc, Hs, Hy, Hl, Hq, Hn.
  cbn [totalMessages areaTotalsOf statusBreakdown outageTypeBreakdown
       activeMessages largeOutagesOf].
  rewrite Ht, Hs, Hy, Hl, Hn. cbn [summary_start totalsByArea statusCounts
    typeCounts largeEvents activeCount].
  split; [reflexivity|]. split.
  { rewrite (list_sum_perm _ _ (Permutation_map issues (stable_sort_perm _ _ _))).
    rewrite map_map. cbn [issues].
    rewrite (map_ext _ snd (fun _ => eq_refl)).
    rewrite (tally_sum ummItem (fun item => areaOf (item_core item)) records []).
    reflexivity. }
  split.
  { rewrite (list_sum_perm _ _ (Permutation_map snd (stable_sort_perm _ _ _))).
    rewrite (tally_sum ummItem statusOf records []). reflexivity. }
  split.
  { rewrite (list_sum_perm _ _ (Permutation_map snd (stable_sort_perm _ _ _))).
    rewrite (tally_sum ummItem typeOf records []). reflexivity. }
  split; [reflexivity|]. split.
  { simpl. apply List.filter_length_le. }
  split.
  { apply (Permutation_NoDup
             (Permutation_sym (Permutation_map fst (stable_sort_perm _ _ _)))).
    apply tally_NoDup. constructor. }
  split.
  { intros st n Hin. apply stable_sort_In in Hin.
    apply (tally_positive ummItem statusOf records st n Hin). }
  split; [apply (sorted_by_leb snd)|].
  reflexivity.
Qed.


End PrototypeSummaryFacts.

(** ** The analysis of a unit *)

Lemma upsert_succ_sum (k : string) (o : jsobject nat) :
  list_sum (map snd (obj_upsert k 0 (fun n => n + 1) o))
  = list_sum (map snd o) + 1.
Proof.
  induction o as [|[k' v] o IH]; simpl; [lia|].
  destruct (k' =? k)%string; simpl; lia.
Qed.

Lemma firstn_length_min {A : Type} (n : nat) (l : list A) :
  List.length (firstn n l) = Nat.min n (List.length l).
Proof. apply length_firstn. Qed.

Lemma firstn_In {A : Type} (n : nat) (l : list A) (x : A) :
  In x (firstn n l) -> In x l.
Proof.
  revert l; induction n as [|n IH]; intros l H; simpl in H; [contradiction|].
  destruct l as [|y l]; [contradiction|]. destruct H as [H|H].
  - left; exact H.
  - right; apply IH, H.
Qed.

Section UnitRouteFacts.
Context {RT : JSRuntime}.

Lemma breakdown_counts (rows : list row) (b : breakdown) :
  nPlanned (fold_left breakdown_step rows b)
  = nPlanned b
    + List.length (filter (fun r => status_eqb (plannedStatus r) Planned) rows)
  /\ nUnplanned (fold_left breakdown_step rows b)
     = nUnplanned b
       + List.length (filter (fun r => status_eqb (plannedStatus r) Unplanned) rows)
  /\ nUnknown (fold_left breakdown_step rows b)
     = nUnknown b
       + List.length (filter (fun r => status_eqb (plannedStatus r) Unknown) rows).
Proof.
  revert b; induction rows as [|r rows IH]; intros b; simpl.
  - repeat split; lia.
  - destruct (IH (breakdown_step b r)) as (P & U & K).
    rewrite P, U, K, breakdown_step_status.
    destruct (plannedStatus r); simpl; repeat split; lia.
Qed.

Lemma passes_own_status (r : row) :
  (plannedStatus r = Planned -> passes_plannedStatus "Planned" r = true)
  /\ (plannedStatus r = Unplanned -> passes_plannedStatus "Unplanned" r = true)
  /\ (passes_plannedStatus "Unknown" r = true <-> plannedStatus r = Unknown).
Proof.
  unfold plannedStatus, passes_plannedStatus. cbv zeta.
  generalize (some_keyword plannedKeywords (lowered_remarks r)),
             (some_keyword unplannedKeywords (lowered_remarks r)),
             (code_is 1 (unavailabilityType r)),
             (code_is 2 (unavailabilityType r)).
  intros [] [] [] []; simpl; (split; [|split; [|split]]); intros; congruence.
Qed.

(** X12. The status filter of a unit's events and the breakdown of the
    same events do not sort a message alike. Every message counted as
    Planned passes the filter Planned and every one counted as Unplanned
    passes the filter Unplanned, but the filters look at the remarks even
    when the other code is set: a message with code 2 whose remarks hold a
    planned keyword is counted as Unplanned and listed under Planned too.
    So the filter Planned lists at least the messages counted as Planned,
    the filter Unplanned at least those counted as Unplanned, the filter
    Unknown exactly those counted as Unknown, and any other text lists
    every message. *)
Theorem planned_filter_and_breakdown (rows : list row) :
  let b := plannedUnplannedBreakdown rows in
  (forall r, plannedStatus r = Planned ->
             passes_plannedStatus "Planned" r = true)
  /\ (forall r, plannedStatus r = Unplanned ->
                passes_plannedStatus "Unplanned" r = true)
  /\ (forall r, passes_plannedStatus "Unknown" r = true <->
                plannedStatus r = Unknown)
  /\ (forall r, code_is 2 (unavailabilityType r) = true ->
                some_keyword plannedKeywords (lowered_remarks r) = true ->
                plannedStatus r = Unplanned
                /\ passes_plannedStatus "Planned" r = true
                /\ passes_plannedStatus "Unplanned" r = true)
  /\ (forall w r, w <> "Planned" -> w <> "Unplanned" -> w <> "Unknown" ->
                  passes_plannedStatus w r = true)
  /\ nPlanned b <= List.length (filter (passes_plannedStatus "Planned") rows)
  /\ nUnplanned b <= List.length (filter (passes_plannedStatus "Unplanned") rows)
  /\ nUnknown b = List.length (filter (passes_plannedStatus "Unknown") rows).
Proof.
  cbv zeta.
  split; [intros r; apply passes_own_status|].
  split; [intros r; apply passes_own_status|].
  split; [intros r; apply passes_own_status|].
  split.
  { intros r C2 Kw. unfold plannedStatus, passes_plannedStatus. cbv zeta.
    rewrite (code_is_1_2 _ C2), C2, Kw. repeat split. }
  split.
  { intros w r H1 H2 H3. unfold passes_plannedStatus. cbv zeta.
    destruct (String.eqb_spec w "Planned") as [E|_]; [contradiction|].
    destruct (String.eqb_spec w "Unplanned") as [E|_]; [contradiction|].
    destruct (String.eqb_spec w "Unknown") as [E|_]; [contradiction|].
    reflexivity. }
  unfold plannedUnplannedBreakdown.
  destruct (breakdown_counts rows {| nPlanned := 0; nUnplanned := 0;
                                     nUnknown := 0 |}) as (P & U & K).
  rewrite P, U, K. simpl. split; [|split].
  - apply filter_length_mono. intros r H. apply passes_own_status.
    destruct (plannedStatus r); [reflexivity | discriminate | discriminate].
  - apply filter_length_mono. intros r H. apply passes_own_status.
    destruct (plannedStatus r); [discriminate | reflexivity | discriminate].
  - f_equal. apply filter_ext. intros r.
    destruct (passes_own_status r) as (_ & _ & [K1 K2]).
    destruct (passes_plannedStatus "Unknown" r) eqn:E.
    + rewrite (K1 eq_refl). reflexivity.
    + destruct (plannedStatus r) eqn:Es; try reflexivity.
      discriminate (K2 eq_refl).
Qed.

Lemma forEach_returns_items {S : Type} (f : S -> jsval -> outcome S)
      (items : list jsval) (s s' : S) :
  (forall st item, is_nullish item = true -> f st item = Throw) ->
  forEach f items s = Ret s' ->
  Forall (fun item => is_nullish item = false) items.
Proof.
  intros Hf. revert s; induction items as [|x items IH]; intros s H;
    simpl in H; [constructor|].
  destruct (is_nullish x) eqn:N.
  - rewrite (Hf s x N) in H. discriminate.
  - destruct (f s x) as [s1|]; simpl in H; [|discriminate].
    constructor; [exact N | apply (IH s1 H)].
Qed.

Lemma extractUnitNames_items (jsonArray : option string) (names : list jsval) :
  extractUnitNames jsonArray = Ret names ->
  Forall (fun item => is_nullish item = false) (parseJSON jsonArray).
Proof.
  unfold extractUnitNames. intros H.
  destruct (forEach _ (parseJSON jsonArray) []) as [found|] eqn:E;
    simpl in H; [|discriminate].
  refine (forEach_returns_items _ _ _ _ _ E).
  intros st item N. destruct item; simpl in N; try discriminate; reflexivity.
Qed.

Lemma loaded_units (d : loadedRow) :
  loaded d ->
  Forall (fun item => is_nullish item = false)
         (parseJSON (production_units_json (raw d))
          ++ parseJSON (generation_units_json (raw d))).
Proof.
  unfold loaded, on_data. intros H.
  destruct (extractAreaNames (raw d)); simpl in H; [|discriminate].
  destruct (extractUnitNames (production_units_json (raw d))) as [p|] eqn:P;
    simpl in H; [|discriminate].
  destruct (extractUnitNames (generation_units_json (raw d))) as [g|] eqn:G;
    simpl in H; [|discriminate].
  apply Forall_app. split.
  - apply (extractUnitNames_items _ _ P).
  - apply (extractUnitNames_items _ _ G).
Qed.

Lemma unitInfo_step_returns (unitName : string) (info : list jsval * jsval)
      (unit : jsval) :
  is_nullish unit = false -> exists info', unitInfo_step unitName info unit = Ret info'.
Proof.
  intros N. unfold unitInfo_step.
  rewrite (unit_name_defined unit N). cbn [bind].
  destruct (same_value_zero (JStr unitName) (unitNameOf unit)).
  - rewrite !(prop_defined _ unit N). cbn [bind]. eexists; reflexivity.
  - eexists; reflexivity.
Qed.

Lemma forEach_returns {A S : Type} (f : S -> A -> outcome S) (P : A -> Prop)
      (items : list A) (s : S) :
  (forall st x, P x -> exists st', f st x = Ret st') ->
  Forall P items -> exists s', forEach f items s = Ret s'.
Proof.
  intros Hf H. revert s; induction H as [|x items Hx _ IH]; intros s; simpl.
  - eexists; reflexivity.
  - destruct (Hf s x Hx) as [s1 E]. rewrite E. simpl. apply IH.
Qed.

Lemma unitInfoOf_returns (unitName : string) (unitData : list loadedRow) :
  Forall loaded unitData ->
  exists info, unitInfoOf unitName unitData = Ret info.
Proof.
  intros H. unfold unitInfoOf.
  apply (forEach_returns (unitInfo_row unitName) loaded).
  - intros st d Hd. unfold unitInfo_row.
    apply (forEach_returns (unitInfo_step unitName)
                           (fun item => is_nullish item = false)).
    + intros st' x Hx. apply unitInfo_step_returns, Hx.
    + apply loaded_units, Hd.
  - apply Forall_forall. intros d Hd. rewrite Forall_forall in H.
    apply H. apply (firstn_In _ _ _ Hd).
Qed.

Lemma yearlyBreakdown_inv (rows : list loadedRow) (yb : jsobject (jsobject nat)) :
  NoDup (map fst yb) ->
  NoDup (map fst (fold_left
                    (fun acc d =>
                       obj_upsert (year_text (eventYear (raw d))) []
                                  (obj_upsert (column_text (message_type (raw d)))
                                              0 (fun n => n + 1))
                                  acc)
                    rows yb))
  /\ list_sum (map (fun kv => list_sum (map snd (snd kv)))
                   (fold_left
                      (fun acc d =>
                         obj_upsert (year_text (eventYear (raw d))) []
                                    (obj_upsert (column_text (message_type (raw d)))
                                                0 (fun n => n + 1))
                                    acc)
                      rows yb))
     = list_sum (map (fun kv => list_sum (map snd (snd kv))) yb)
       + List.length rows.
Proof.
  revert yb; induction rows as [|d rows IH]; intros yb Hn; simpl.
  - split; [exact Hn | lia].
  - destruct (IH (obj_upsert (year_text (eventYear (raw d))) []
                             (obj_upsert (column_text (message_type (raw d)))
                                         0 (fun n => n + 1)) yb))
      as [Hd Hs].
    + apply obj_upsert_NoDup, Hn.
    + split; [exact Hd|]. rewrite Hs.
      rewrite (obj_upsert_sum (fun inner : jsobject nat => list_sum (map snd inner))
                              _ _ _ 1).
      * unfold jsobject in *. lia.
      * intros v. apply upsert_succ_sum.
      * reflexivity.
Qed.

Lemma yearlyData_total (yb : jsobject (jsobject nat)) :
  NoDup (map fst yb) ->
  list_sum (map yr_total (yearlyDataOf yb))
  = list_sum (map (fun kv => list_sum (map snd (snd kv))) yb).
Proof.
  intros Hn. unfold yearlyDataOf, availableYearsOf. rewrite map_map.
  cbn [yr_total].
  set (g := fun yr : string =>
              list_sum (Object_values match obj_get yb yr with
                                      | Some c => c
                                      | None => []
                                      end)).
  change (list_sum (map g (stable_sort String.leb (map fst (Object_entries yb))))
          = list_sum (map (fun kv => list_sum (map snd (snd kv))) yb)).
  assert (P : Permutation (stable_sort String.leb (map fst (Object_entries yb)))
                          (map fst yb)).
  { eapply Permutation_trans; [apply stable_sort_perm|].
    apply Permutation_map, Object_entries_perm. }
  rewrite (list_sum_perm _ _ (Permutation_map g P)). rewrite map_map.
  f_equal. apply map_ext_in. intros [k inner] Hin. unfold g. simpl.
  rewrite (obj_get_In _ _ _ Hn Hin).
  apply list_sum_perm, Object_values_perm.
Qed.

Lemma unit_route_found (unitName : string) (q : unitQuery)
      (data : list loadedRow) :
  Forall loaded data ->
  unitDataOf unitName data <> [] ->
  exists body, unitAnalysisOf unitName q data = UnitFound body.
Proof.
  intros Hl Hne.
  assert (Hu : Forall loaded (unitDataOf unitName data)).
  { apply Forall_forall. intros d Hd. rewrite Forall_forall in Hl.
    apply Hl. unfold unitDataOf in Hd. apply filter_In in Hd. apply Hd. }
  destruct (unitInfoOf_returns unitName _ Hu) as [info Hi].
  unfold unitAnalysisOf. rewrite Hi.
  destruct (unitDataOf unitName data); [contradiction|].
  eexists; reflexivity.
Qed.

Lemma dedup_strings_complete (seen l : list string) (x : string) :
  ~ In x seen -> In x l -> In x (dedup_strings seen l).
Proof.
  revert seen; induction l as [|a l IH]; intros seen Hs Hin; simpl in *;
    [contradiction|].
  destruct (existsb (String.eqb a) seen) eqn:E.
  - destruct Hin as [->|Hin]; [|apply IH; assumption].
    apply existsb_eqb_In in E. contradiction.
  - destruct Hin as [->|Hin]; [left; reflexivity|].
    destruct (string_dec a x) as [->|Hne]; [left; reflexivity|].
    right. apply IH; [|exact Hin].
    intros [H|H]; [contradiction | apply Hs, H].
Qed.

(** X13. The analysis of a unit, on loaded rows. An unknown unit is
    answered with 404 and a known one with the analysis; [totalEvents] is
    the number of messages that name the unit, [filteredEvents] never
    exceeds it, and [events] holds the first 100 filtered messages; the
    three counters of the status breakdown add up to [totalEvents]. The
    yearly figures are computed before the filters: without a message-type
    parameter their totals add up to [totalEvents]; with one, the column
    (a text) is compared with a number by [===], so that [yearlyData] and
    [availableYears] are empty, while the list of events is filtered by
    comparing text with text. The counts of the message-type breakdown add
    up to [totalEvents] as well. The message types are asked not to name
    an inherited member of an object. *)
Theorem unit_analysis_answer (unitName : string) (q : unitQuery)
        (data : list loadedRow) :
  Forall loaded data ->
  Forall (fun d => inherited_name (column_text (message_type (raw d))) = false)
         data ->
  let unitData := unitDataOf unitName data in
  (unitData = [] -> unitAnalysisOf unitName q data = UnitNotFound)
  /\ (unitData <> [] ->
      exists body,
        unitAnalysisOf unitName q data = UnitFound body
        /\ ua_totalEvents body = List.length unitData
        /\ 0 < ua_totalEvents body
        /\ ua_filteredEvents body <= ua_totalEvents body
        /\ ua_events body = firstn 100 (filteredEventsOf q unitData)
        /\ List.length (ua_events body) = Nat.min 100 (ua_filteredEvents body)
        /\ nPlanned (ua_plannedUnplannedBreakdown body)
           + nUnplanned (ua_plannedUnplannedBreakdown body)
           + nUnknown (ua_plannedUnplannedBreakdown body)
           = ua_totalEvents body
        /\ list_sum (map snd (ua_messageTypeBreakdown body))
           = ua_totalEvents body
        /\ (given (uq_messageType q) = true ->
            ua_yearlyData body = [] /\ ua_availableYears body = [])
        /\ (given (uq_messageType q) = false ->
            list_sum (map yr_total (ua_yearlyData body)) = ua_totalEvents body
            /\ NoDup (ua_availableYears body))).
Proof.
  intros Hl _ unitData. split.
  - intros E. unfold unitAnalysisOf. fold unitData. rewrite E. reflexivity.
  - intros Hne.
    assert (Hu : Forall loaded unitData).
    { apply Forall_forall. intros d Hd. rewrite Forall_forall in Hl.
      apply Hl. unfold unitData, unitDataOf in Hd. apply filter_In in Hd.
      apply Hd. }
    destruct (unitInfoOf_returns unitName unitData Hu) as [info Hi].
    unfold unitAnalysisOf. fold unitData. rewrite Hi.
    destruct unitData as [|d0 rest] eqn:E; [contradiction|]. rewrite <- E in *.
    eexists. split; [reflexivity|].
    cbn [ua_totalEvents ua_filteredEvents ua_events ua_messageTypeBreakdown
         ua_plannedUnplannedBreakdown ua_yearlyData ua_availableYears].
    assert (Fl : List.length (filteredEventsOf q unitData)
                 <= List.length unitData).
    { unfold filteredEventsOf.
      set (f1 := match uq_year q with
                 | Some y => if negb (y =? EmptyString)%string
                             then filter (fun d => in_year y (raw d)) unitData
                             else unitData
                 | None => unitData
                 end).
      assert (L1 : List.length f1 <= List.length unitData).
      { unfold f1. destruct (uq_year q) as [y|]; [|lia].
        destruct (negb (y =? EmptyString)%string); [apply List.filter_length_le | lia]. }
      set (f2 := match uq_messageType q with
                 | Some t => if negb (t =? EmptyString)%string
                             then filter (fun d => option_string_eqb
                                                     (message_type (raw d)) (Some t))
                                         f1
                             else f1
                 | None => f1
                 end).
      assert (L2 : List.length f2 <= List.length f1).
      { unfold f2. destruct (uq_messageType q) as [t|]; [|lia].
        destruct (negb (t =? EmptyString)%string); [apply List.filter_length_le | lia]. }
      destruct (uq_plannedStatus q) as [w|]; [|lia].
      destruct (negb (w =? EmptyString)%string); [|lia].
      pose proof (List.filter_length_le
                    (fun d => passes_plannedStatus w (raw d)) f2). lia. }
    split; [reflexivity|]. split; [rewrite E; simpl; lia|].
    split; [exact Fl|]. split; [reflexivity|].
    split; [apply firstn_length_min|]. split.
    { unfold plannedUnplannedBreakdown.
      rewrite (breakdown_total (map raw unitData)). simpl.
      rewrite length_map. reflexivity. }
    split.
    { unfold messageTypeBreakdownOf.
      assert (M : forall (l : list loadedRow) (acc : jsobject nat),
                 list_sum (map snd
                   (fold_left (fun acc d =>
                                 obj_upsert (messageTypeLabel (message_type (raw d)))
                                            0 (fun n => n + 1) acc) l acc))
                 = list_sum (map snd acc) + List.length l).
      { induction l as [|d l IH]; intros acc; simpl; [lia|].
        rewrite IH, upsert_succ_sum. lia. }
      rewrite M. reflexivity. }
    split.
    + intros G. unfold dataForYearlyCalc. rewrite G, filter_none.
      split; reflexivity.
    + intros G. unfold dataForYearlyCalc. rewrite G.
      destruct (yearlyBreakdown_inv unitData []) as [Dk Sk]; [constructor|].
      unfold yearlyBreakdownOf. split.
      * etransitivity; [exact (yearlyData_total _ Dk)|].
        etransitivity; [exact Sk | reflexivity].
      * unfold availableYearsOf.
        apply (Permutation_NoDup (Permutation_sym (stable_sort_perm _ _ _))).
        apply (Permutation_NoDup
                 (Permutation_sym (Permutation_map fst (Object_entries_perm _ _)))).
        exact Dk.
Qed.

End UnitRouteFacts.

Lemma planned_filter_and_breakdown_witness :
  plannedStatus (RT := RefRuntime)
    (with_message empty_row (Some "1") None (Some "2")
                  (Some "Failure during maintenance")) = Unplanned
  /\ passes_plannedStatus (RT := RefRuntime) "Planned"
       (with_message empty_row (Some "1") None (Some "2")
                     (Some "Failure during maintenance")) = true.
Proof.
  destruct (@planned_filter_and_breakdown RefRuntime [])
    as (_ & _ & _ & H & _).
  destruct (H (with_message empty_row (Some "1") None (Some "2")
                            (Some "Failure during maintenance")))
    as (S & P & _); [reflexivity | reflexivity |].
  split; [exact S | exact P].
Defined.

Lemma unit_analysis_answer_witness :
  exists body,
    unitAnalysisOf (RT := RefRuntime) "Aurland" no_unit_filter aurland_data
    = UnitFound body
    /\ ua_totalEvents body = 2
    /\ list_sum (map yr_total (ua_yearlyData body)) = 2.
Proof.
  destruct (@unit_analysis_answer RefRuntime "Aurland" no_unit_filter
              aurland_data) as [_ H].
  - repeat constructor.
  - repeat constructor.
  - destruct H as (body & E & T & _ & _ & _ & _ & _ & _ & _ & Y).
    + discriminate.
    + exists body. split; [exact E|]. split; [exact T|].
      rewrite (proj1 (Y eq_refl)). exact T.
Defined.

(** ** Statistics, filter values and the yearly chart *)

Section DatasetFacts.
Context {RT : JSRuntime}.

Lemma unique_keeps (xs s : list jsval) (y : jsval) :
  In y s -> In y (fold_left set_add xs s).
Proof.
  revert s; induction xs as [|x xs IH]; intros s H; simpl; [exact H|].
  apply IH, set_add_In. left; exact H.
Qed.

Lemma unique_origin (xs s : list jsval) (y : jsval) :
  In y (fold_left set_add xs s) -> In y s \/ In y xs.
Proof.
  revert s; induction xs as [|x xs IH]; intros s H; simpl in *.
  - left; exact H.
  - destruct (IH _ H) as [H1|H1]; [|right; right; exact H1].
    apply set_add_In in H1. destruct H1 as [H1|[-> _]].
    + left; exact H1.
    + right; left; reflexivity.
Qed.

Lemma unique_string (xs s : list jsval) (a : string) :
  In (JStr a) xs -> In (JStr a) (fold_left set_add xs s).
Proof.
  intros Hin. revert s; induction xs as [|x xs IH]; intros s;
    simpl in *; [contradiction|].
  destruct Hin as [->|Hin]; [|apply IH, Hin].
  apply unique_keeps, set_add_In.
  destruct (set_has s (JStr a)) eqn:E.
  - left. apply set_has_string, E.
  - right. split; reflexivity.
Qed.

Lemma unique_once (xs s : list jsval) (a : string) :
  List.length (filter (same_value_zero (JStr a)) s) <= 1 ->
  List.length (filter (same_value_zero (JStr a)) (fold_left set_add xs s)) <= 1.
Proof.
  revert s; induction xs as [|c xs IH]; intros s H; simpl; [exact H|].
  apply IH. unfold set_add. destruct (set_has s c) eqn:E; [exact H|].
  rewrite filter_app, length_app.
  replace (filter (same_value_zero (JStr a)) [c])
    with (if same_value_zero (JStr a) c then [c] else []) by reflexivity.
  destruct (same_value_zero (JStr a) c) eqn:Ec; [|simpl; lia].
  apply same_string in Ec. rewrite Ec in E.
  rewrite (set_has_filter _ _ E). simpl. lia.
Qed.

Lemma names_include_In (names : list jsval) (s : string) :
  names_include names s = true <-> In (JStr s) names.
Proof.
  unfold names_include. rewrite existsb_exists. split.
  - intros [y [Hy E]]. apply same_string in E. rewrite <- E. exact Hy.
  - intros H. exists (JStr s). split; [exact H|]. simpl. apply String.eqb_refl.
Qed.

(** X14. The statistics and the filter values of a dataset agree with
    each other and with the unit analysis: the counts of [messageTypes]
    add up to [totalMessages]; [areas] of the statistics is the number of
    areas offered by the filters, which are in ascending order, hold every
    area name of every row and no name twice; every unit name offered by
    the filters is known to the unit analysis (it is not answered with
    404); and the message types offered are the non-empty types of the
    rows, each once. The message types are asked not to name an inherited
    member of an object. *)
Theorem stats_and_filters_agree (data : list loadedRow) :
  Forall loaded data ->
  Forall (fun d => inherited_name (column_text (message_type (raw d))) = false)
         data ->
  ds_totalMessages (statsOf data) = List.length data
  /\ list_sum (map snd (ds_messageTypes (statsOf data)))
     = ds_totalMessages (statsOf data)
  /\ ds_areas (statsOf data) = List.length (df_areas (filtersOf data))
  /\ StronglySorted (fun a b => String.leb (ToString a) (ToString b) = true)
                    (df_areas (filtersOf data))
  /\ (forall d s, In d data -> In (JStr s) (area_names d) ->
                  In (JStr s) (df_areas (filtersOf data)))
  /\ (forall x, In x (df_areas (filtersOf data)) ->
                exists d, In d data /\ In x (area_names d))
  /\ (forall s, List.length (filter (same_value_zero (JStr s))
                                    (df_areas (filtersOf data))) <= 1)
  /\ (forall s q, In (JStr s) (df_units (filtersOf data)) ->
                  exists body, unitAnalysisOf s q data = UnitFound body)
  /\ (forall t, In t (df_messageTypes (filtersOf data)) <->
                t <> EmptyString
                /\ exists d, In d data /\ message_type (raw d) = Some t).
Proof.
  intros Hl _. split; [reflexivity|]. split.
  { unfold statsOf. cbn [ds_messageTypes ds_totalMessages].
    assert (M : forall (l : list loadedRow) (acc : jsobject nat),
               list_sum (map snd
                 (fold_left (fun acc d =>
                               obj_upsert (column_text (message_type (raw d)))
                                          0 (fun n => n + 1) acc) l acc))
               = list_sum (map snd acc) + List.length l).
    { induction l as [|d l IH]; intros acc; simpl; [lia|].
      rewrite IH, upsert_succ_sum. lia. }
    rewrite M. reflexivity. }
  assert (P : Permutation (df_areas (filtersOf data))
                          (unique (flat_map area_names data)))
    by apply stable_sort_perm.
  split.
  { unfold statsOf. cbn [ds_areas]. symmetry. apply Permutation_length, P. }
  split; [apply sort_default_sorted|]. split.
  { intros d s Hd Hs. apply (Permutation_in _ (Permutation_sym P)).
    apply unique_string. apply in_flat_map. exists d. split; assumption. }
  split.
  { intros x Hx. apply (Permutation_in _ P) in Hx.
    destruct (unique_origin _ _ _ Hx) as [[]|H].
    apply in_flat_map in H. exact H. }
  split.
  { intros s. rewrite (filter_length_perm _ _ _ P). apply unique_once.
    simpl. lia. }
  split.
  { intros s q Hs. apply stable_sort_In in Hs.
    destruct (unique_origin _ _ _ Hs) as [[]|H].
    assert (Hd : exists d, In d data
                           /\ (In (JStr s) (production_unit_names d)
                               \/ In (JStr s) (generation_unit_names d))).
    { apply in_app_iff in H. destruct H as [H|H]; apply in_flat_map in H;
        destruct H as [d [Hd Hin]]; exists d; split; auto. }
    destruct Hd as [d [Hd Hin]].
    assert (Hu : In d (unitDataOf s data)).
    { unfold unitDataOf. apply filter_In. split; [exact Hd|].
      apply orb_true_iff.
      destruct Hin as [Hin|Hin]; [left | right]; apply names_include_In, Hin. }
    destruct (unit_route_found s q data Hl) as [body E].
    - intros E. rewrite E in Hu. contradiction.
    - exists body. exact E. }
  intros t. unfold filtersOf. cbn [df_messageTypes].
  set (types := flat_map (fun d => match message_type (raw d) with
                                   | Some t => if (t =? EmptyString)%string
                                               then [] else [t]
                                   | None => []
                                   end) data).
  assert (T : In t types <->
              t <> EmptyString
              /\ exists d, In d data /\ message_type (raw d) = Some t).
  { unfold types. rewrite in_flat_map. split.
    - intros [d [Hd Hin]]. destruct (message_type (raw d)) as [x|] eqn:E;
        [|contradiction].
      destruct (String.eqb_spec x EmptyString) as [_|Hne]; [contradiction|].
      destruct Hin as [<-|[]]. split; [exact Hne|]. exists d. split; assumption.
    - intros [Hne [d [Hd E]]]. exists d. split; [exact Hd|]. rewrite E.
      destruct (String.eqb_spec t EmptyString) as [E0|_]; [contradiction|].
      left; reflexivity. }
  rewrite <- T. split; [apply dedup_strings_In|].
  intros H. apply dedup_strings_complete; [intros [] | exact H].
Qed.

Lemma fold_left_ext {A S : Type} (f g : S -> A -> S) (l : list A) (s : S) :
  (forall st x, f st x = g st x) -> fold_left f l s = fold_left g l s.
Proof.
  intros H. revert s; induction l as [|x l IH]; intros s; simpl;
    [reflexivity|].
  rewrite H. apply IH.
Qed.

Lemma string_leb_sorted (l : list string) :
  StronglySorted (fun a b => String.leb a b = true) (stable_sort String.leb l).
Proof.
  apply stable_sort_sorted.
  - intros x y. apply string_leb_false.
  - intros x y z. apply string_leb_trans.
Qed.

Lemma chartFiltered_facts (q : chartQuery) (data : list loadedRow) :
  incl (chartFiltered q data) data
  /\ (forall a, cq_area q = Some a -> a <> EmptyString ->
        Forall (fun d => In (JStr a) (area_names d)) (chartFiltered q data))
  /\ (forall t, cq_messageType q = Some t -> t <> EmptyString ->
        Forall (fun d => message_type (raw d) = Some t) (chartFiltered q data)).
Proof.
  unfold chartFiltered.
  set (f1 := match cq_area q with
             | Some a => if negb (a =? EmptyString)%string
                         then filter (fun d => names_include (area_names d) a) data
                         else data
             | None => data
             end).
  assert (I1 : incl f1 data).
  { unfold f1. destruct (cq_area q) as [a|]; [|apply incl_refl].
    destruct (negb (a =? EmptyString)%string);
      [apply incl_filter | apply incl_refl]. }
  assert (A1 : forall a, cq_area q = Some a -> a <> EmptyString ->
                         Forall (fun d => In (JStr a) (area_names d)) f1).
  { intros a Ea Hne. unfold f1. rewrite Ea.
    destruct (String.eqb_spec a EmptyString) as [E|_]; [contradiction|]. simpl.
    apply Forall_forall. intros d Hd. apply filter_In in Hd.
    apply names_include_In, Hd. }
  destruct (cq_messageType q) as [t|].
  - destruct (String.eqb_spec t EmptyString) as [E|Hne]; simpl.
    + split; [exact I1|]. split; [exact A1|].
      intros t' Et. injection Et as <-. contradiction.
    + split; [eapply incl_tran; [apply incl_filter | exact I1]|]. split.
      * intros a Ea Ha. apply Forall_forall. intros d Hd.
        apply filter_In in Hd. destruct Hd as [Hd _].
        specialize (A1 a Ea Ha). rewrite Forall_forall in A1. apply A1, Hd.
      * intros t' Et _. injection Et as <-. apply Forall_forall.
        intros d Hd. apply filter_In in Hd. destruct Hd as [_ Hd].
        destruct (message_type (raw d)) as [x|]; simpl in Hd; [|discriminate].
        apply String.eqb_eq in Hd. rewrite Hd. reflexivity.
  - split; [exact I1|]. split; [exact A1 | discriminate].
Qed.

(** X15. The yearly chart counts every message that passes its filters
    once: the counts of the rows add up to the number of filtered
    messages; there is one row per year that has a message, with the
    positive number of the messages of that year, and the rows are in
    ascending order of the text of the year; the filtered messages are
    messages of the dataset, of the area and of the message type asked
    for. Here the message type is compared with the parameter itself, text
    with text, so the filter does select. *)
Theorem chart_yearly_counts (q : chartQuery) (data : list loadedRow) :
  let filtered := chartFiltered q data in
  let rows := chartYearly q data in
  list_sum (map ch_count rows) = List.length filtered
  /\ NoDup (map ch_key rows)
  /\ StronglySorted (fun a b => String.leb (ch_key a) (ch_key b) = true) rows
  /\ (forall row, In row rows ->
        ch_count row
        = List.length (filter (fun d => (year_text (eventYear (raw d))
                                         =? ch_key row)%string) filtered)
        /\ 0 < ch_count row)
  /\ incl filtered data
  /\ (forall a, cq_area q = Some a -> a <> EmptyString ->
        Forall (fun d => In (JStr a) (area_names d)) filtered)
  /\ (forall t, cq_messageType q = Some t -> t <> EmptyString ->
        Forall (fun d => message_type (raw d) = Some t) filtered).
Proof.
  intros filtered rows.
  destruct (chartFiltered_facts q data) as (F1 & F2 & F3).
  assert (Y : yearlyCounts filtered
              = fold_left (fun acc d => count_in acc (year_text (eventYear (raw d))))
                          filtered []).
  { unfold yearlyCounts. apply fold_left_ext. intros st x.
    symmetry. apply count_in_upsert. }
  set (yc := yearlyCounts filtered) in *.
  set (keys := stable_sort String.leb (map fst (Object_entries yc))).
  assert (Dn : NoDup (map fst yc)).
  { rewrite Y. apply tally_NoDup. constructor. }
  assert (Pk : Permutation keys (map fst yc)).
  { unfold keys. eapply Permutation_trans; [apply stable_sort_perm|].
    apply Permutation_map, Object_entries_perm. }
  assert (R : rows = map (fun year => {| ch_key := year; ch_year := parseInt year;
                                         ch_count := match obj_get yc year with
                                                     | Some n => n
                                                     | None => 0
                                                     end |}) keys)
    by reflexivity.
  assert (K : map ch_key rows = keys).
  { rewrite R, map_map. cbn [ch_key]. apply map_id. }
  split.
  { rewrite R, map_map. cbn [ch_count].
    rewrite (list_sum_perm _ _ (Permutation_map
               (fun year => match obj_get yc year with
                            | Some n => n
                            | None => 0
                            end) Pk)).
    rewrite map_map.
    rewrite (map_ext_in _ snd).
    - rewrite Y. rewrite (tally_sum loadedRow _ filtered []). reflexivity.
    - intros [k n] Hin. simpl. rewrite (obj_get_In _ _ _ Dn Hin). reflexivity. }
  split.
  { rewrite K. apply (Permutation_NoDup (Permutation_sym Pk) Dn). }
  split.
  { rewrite R. assert (S0 := string_leb_sorted (map fst (Object_entries yc))).
    fold keys in S0. clear - S0.
    induction S0 as [|k l _ IH F]; simpl; constructor; [exact IH|].
    rewrite Forall_forall in *. intros x Hx. apply in_map_iff in Hx.
    destruct Hx as [y [<- Hy]]. simpl. apply F, Hy. }
  split.
  { intros row Hrow. rewrite R in Hrow. apply in_map_iff in Hrow.
    destruct Hrow as [k [<- Hk]]. cbn [ch_count ch_key].
    apply (Permutation_in _ Pk) in Hk. apply obj_get_key_In in Hk.
    destruct Hk as [n Hn]. rewrite Hn. apply In_obj_get in Hn.
    rewrite Y in Hn.
    apply (tally_positive loadedRow
             (fun d => year_text (eventYear (raw d))) filtered k n Hn). }
  split; [exact F1|]. split; [exact F2 | exact F3].
Qed.

End DatasetFacts.

Lemma stats_and_filters_agree_witness :
  ds_totalMessages (statsOf aurland_data) = 2
  /\ list_sum (map snd (ds_messageTypes (statsOf aurland_data))) = 2
  /\ df_units (filtersOf (RT := RefRuntime) aurland_data) = [JStr "Aurland"]
  /\ exists body,
       unitAnalysisOf (RT := RefRuntime) "Aurland" planned_unit_filter
                      aurland_data
       = UnitFound body.
Proof.
  destruct (@stats_and_filters_agree RefRuntime aurland_data)
    as (T & M & _ & _ & _ & _ & _ & U & _).
  - repeat constructor.
  - repeat constructor.
  - split; [exact T|]. split; [rewrite M; exact T|].
    split; [reflexivity|].
    apply U. left. reflexivity.
Defined.

(** ** The outage summary of the SQLite back end *)

Lemma append_same_length (x y s t : string) :
  String.length s = String.length t ->
  (x ++ s = y ++ t)%string -> x = y /\ s = t.
Proof.
  intros Hl. revert y; induction x as [|c x IH]; intros [|d y] H; simpl in H.
  - split; [reflexivity | exact H].
  - exfalso. apply (f_equal String.length) in H. simpl in H.
    rewrite string_length_append in H. lia.
  - exfalso. apply (f_equal String.length) in H. simpl in H.
    rewrite string_length_append in H. lia.
  - injection H as -> H. destruct (IH y H) as [-> ->]. split; reflexivity.
Qed.

Lemma status_suffix_inj (x y : string) (a b : status) :
  (x ++ "|" ++ status_text a = y ++ "|" ++ status_text b)%string -> a = b.
Proof.
  intros H.
  destruct a, b; try reflexivity; exfalso; simpl in H.
  - change (y ++ "|Unplanned")%string with (y ++ ("|U" ++ "nplanned"))%string in H.
    rewrite <- string_append_assoc in H.
    apply append_same_length in H; [|reflexivity]. destruct H as [_ H].
    discriminate H.
  - apply append_same_length in H; [|reflexivity]. destruct H as [_ H].
    discriminate H.
  - change (x ++ "|Unplanned")%string with (x ++ ("|U" ++ "nplanned"))%string in H.
    rewrite <- string_append_assoc in H.
    apply append_same_length in H; [|reflexivity]. destruct H as [_ H].
    discriminate H.
  - change (x ++ "|Unplanned")%string with (x ++ ("|U" ++ "nplanned"))%string in H.
    rewrite <- string_append_assoc in H.
    apply append_same_length in H; [|reflexivity]. destruct H as [_ H].
    discriminate H.
  - apply append_same_length in H; [|reflexivity]. destruct H as [_ H].
    discriminate H.
  - change (y ++ "|Unplanned")%string with (y ++ ("|U" ++ "nplanned"))%string in H.
    rewrite <- string_append_assoc in H.
    apply append_same_length in H; [|reflexivity]. destruct H as [_ H].
    discriminate H.
Qed.

Section DbSummaryFacts.
Context {RT : JSRuntime}.

Lemma dbSummaryKey_status (area area' : string) (year year' type type' : option Z)
      (a b : status) :
  dbSummaryKey area year type a = dbSummaryKey area' year' type' b -> a = b.
Proof.
  unfold dbSummaryKey. intros H.
  apply (status_suffix_inj (area ++ "|" ++ year_text year ++ "|" ++ type_text type)
                           (area' ++ "|" ++ year_text year' ++ "|" ++ type_text type')).
  rewrite !string_append_assoc. exact H.
Qed.

Lemma db_upsert_keyed (area : string) (year type : option Z) (st : status)
      (acc : jsobject dbSummaryItem) :
  db_keyed acc ->
  db_keyed (obj_upsert (dbSummaryKey area year type st)
                       {| di_area := area; di_year := year;
                          di_messageType := type; di_plannedStatus := st;
                          di_count := 0 |}
                       di_count_up acc).
Proof.
  intros H. unfold db_keyed.
  apply (obj_upsert_In dbSummaryItem _ _ _ acc (fun k item => k = dbKeyOf item)).
  - exact H.
  - intros v Hv. exact Hv.
  - reflexivity.
Qed.

Lemma dbSummary_row_keyed (r : dbMessage) (acc : jsobject dbSummaryItem) :
  db_keyed acc -> db_keyed (dbSummary_row acc r).
Proof.
  unfold dbSummary_row. cbv zeta. generalize (dbRowAreas r) as areas.
  intros areas. revert acc; induction areas as [|a areas IH]; intros acc H;
    simpl; [exact H|].
  apply IH, db_upsert_keyed, H.
Qed.

Lemma filter_upsert_other (st : status) (area : string) (year type : option Z)
      (other : status) (acc : jsobject dbSummaryItem) :
  db_keyed acc -> other <> st ->
  filter (fun kv => status_eqb (di_plannedStatus (snd kv)) st)
         (obj_upsert (dbSummaryKey area year type other)
                     {| di_area := area; di_year := year;
                        di_messageType := type; di_plannedStatus := other;
                        di_count := 0 |}
                     di_count_up acc)
  = filter (fun kv => status_eqb (di_plannedStatus (snd kv)) st) acc.
Proof.
  intros Hk Hne.
  assert (Ho : status_eqb other st = false)
    by (destruct other, st; try reflexivity; contradiction).
  induction acc as [|[k v] acc IH]; simpl.
  - rewrite Ho. reflexivity.
  - destruct (String.eqb_spec k (dbSummaryKey area year type other)) as [E|_].
    + assert (Ev : di_plannedStatus v = other).
      { assert (Kv : k = dbKeyOf v) by (apply Hk; left; reflexivity).
        rewrite Kv in E. apply (dbSummaryKey_status _ _ _ _ _ _ _ _ E). }
      simpl. rewrite Ev, Ho. reflexivity.
    + simpl. rewrite IH; [reflexivity|].
      intros k' item Hin. apply Hk. right; exact Hin.
Qed.

Lemma filter_upsert_same (st : status) (area : string) (year type : option Z)
      (acc : jsobject dbSummaryItem) :
  db_keyed acc ->
  filter (fun kv => status_eqb (di_plannedStatus (snd kv)) st)
         (obj_upsert (dbSummaryKey area year type st)
                     {| di_area := area; di_year := year;
                        di_messageType := type; di_plannedStatus := st;
                        di_count := 0 |}
                     di_count_up acc)
  = obj_upsert (dbSummaryKey area year type st)
               {| di_area := area; di_year := year;
                  di_messageType := type; di_plannedStatus := st;
                  di_count := 0 |}
               di_count_up
               (filter (fun kv => status_eqb (di_plannedStatus (snd kv)) st) acc).
Proof.
  intros Hk.
  assert (Hs : status_eqb st st = true) by (destruct st; reflexivity).
  induction acc as [|[k v] acc IH]; simpl.
  - rewrite Hs. reflexivity.
  - assert (Hk' : db_keyed acc)
      by (intros k' item Hin; apply Hk; right; exact Hin).
    destruct (String.eqb_spec k (dbSummaryKey area year type st)) as [E|Hne].
    + assert (Ev : di_plannedStatus v = st).
      { assert (Kv : k = dbKeyOf v) by (apply Hk; left; reflexivity).
        rewrite Kv in E. apply (dbSummaryKey_status _ _ _ _ _ _ _ _ E). }
      simpl. rewrite Ev, Hs. simpl.
      destruct (String.eqb_spec k (dbSummaryKey area year type st)) as [_|N];
        [reflexivity | contradiction].
    + simpl. destruct (status_eqb (di_plannedStatus v) st); simpl.
      * destruct (String.eqb_spec k (dbSummaryKey area year type st)) as [E|_];
          [contradiction|].
        rewrite (IH Hk'). reflexivity.
      * apply (IH Hk').
Qed.

Lemma filter_dbSummary_row (st : status) (r : dbMessage)
      (acc : jsobject dbSummaryItem) :
  db_keyed acc ->
  filter (fun kv => status_eqb (di_plannedStatus (snd kv)) st)
         (dbSummary_row acc r)
  = if status_eqb (dbStatus r) st
    then dbSummary_row (filter (fun kv => status_eqb (di_plannedStatus (snd kv)) st)
                               acc) r
    else filter (fun kv => status_eqb (di_plannedStatus (snd kv)) st) acc.
Proof.
  unfold dbSummary_row. cbv zeta. generalize (dbRowAreas r) as areas.
  intros areas. revert acc; induction areas as [|a areas IH]; intros acc Hk;
    cbn [fold_left].
  - destruct (status_eqb (dbStatus r) st); reflexivity.
  - rewrite IH by (apply db_upsert_keyed, Hk).
    destruct (status_eqb (dbStatus r) st) eqn:E.
    + assert (Es : dbStatus r = st)
        by (destruct (dbStatus r), st; try discriminate; reflexivity).
      rewrite Es. rewrite (filter_upsert_same st _ _ _ _ Hk). reflexivity.
    + apply filter_upsert_other; [exact Hk|].
      intros Es. rewrite Es in E. destruct st; discriminate.
Qed.

Lemma filter_dbSummary (st : status) (rows : list dbMessage)
      (acc : jsobject dbSummaryItem) :
  db_keyed acc ->
  filter (fun kv => status_eqb (di_plannedStatus (snd kv)) st)
         (fold_left dbSummary_row rows acc)
  = fold_left dbSummary_row
              (filter (fun r => status_eqb (dbStatus r) st) rows)
              (filter (fun kv => status_eqb (di_plannedStatus (snd kv)) st) acc).
Proof.
  revert acc; induction rows as [|r rows IH]; intros acc Hk; cbn [fold_left filter].
  - reflexivity.
  - rewrite IH by (apply dbSummary_row_keyed, Hk).
    rewrite (filter_dbSummary_row st r acc Hk).
    destruct (status_eqb (dbStatus r) st); reflexivity.
Qed.

Lemma dbSummary_plain (rows : list dbMessage) :
  Object_values (dbSummaryOf rows) = map snd (dbSummaryOf rows).
Proof.
  unfold Object_values. f_equal. apply Object_entries_plain.
  assert (K : db_keyed (dbSummaryOf rows)).
  { unfold dbSummaryOf.
    assert (G : forall l acc, db_keyed acc -> db_keyed (fold_left dbSummary_row l acc)).
    { induction l as [|r l IH]; intros acc H; simpl; [exact H|].
      apply IH, dbSummary_row_keyed, H. }
    apply G. intros ? ? []. }
  apply Forall_forall. intros [k item] Hin. simpl.
  rewrite (K k item Hin). unfold dbKeyOf, dbSummaryKey.
  apply key_with_bar_not_index.
Qed.

Lemma filter_map_snd {V : Type} (p : V -> bool) (o : jsobject V) :
  filter p (map snd o) = map snd (filter (fun kv => p (snd kv)) o).
Proof.
  induction o as [|[k v] o IH]; simpl; [reflexivity|].
  destruct (p v); simpl; rewrite IH; reflexivity.
Qed.

(** X16. In the SQLite back end the status filter of the summary is
    applied after the grouping, and nothing is lost by that: the rows it
    keeps are the summary of the messages of that status alone, in the
    same order and with the same counts. [totalRecords] stays the number
    of all messages of the query, whatever the status asked for; and a
    status text other than Planned, Unplanned and Unknown empties the
    summary and the top areas. *)
Theorem status_filter_after_grouping (q : dbSummaryQuery)
        (rows : list dbMessage) :
  (forall st, dq_plannedStatus q = Some (status_text st) ->
     da_summary (dbOutageSummary q rows)
     = Object_values
         (dbSummaryOf (filter (fun r => status_eqb (dbStatus r) st) rows))
     /\ list_sum (map di_count (da_summary (dbOutageSummary q rows)))
        = list_sum (map (fun r => List.length (dbRowAreas r))
                        (filter (fun r => status_eqb (dbStatus r) st) rows)))
  /\ da_totalRecords (dbOutageSummary q rows) = List.length rows
  /\ (forall p, dq_plannedStatus q = Some p -> p <> EmptyString ->
        p <> "Planned" -> p <> "Unplanned" -> p <> "Unknown" ->
        da_summary (dbOutageSummary q rows) = []
        /\ da_topAreas (dbOutageSummary q rows) = [])
  /\ (given (dq_plannedStatus q) = false ->
      da_summary (dbOutageSummary q rows) = Object_values (dbSummaryOf rows)).
Proof.
  split; [|split; [reflexivity|split]].
  - intros st Hq.
    assert (E : da_summary (dbOutageSummary q rows)
                = Object_values
                    (dbSummaryOf (filter (fun r => status_eqb (dbStatus r) st)
                                         rows))).
    { unfold dbOutageSummary, dbSummaryArray. cbn [da_summary]. rewrite Hq.
      assert (Hne : negb (status_text st =? EmptyString)%string = true)
        by (destruct st; reflexivity).
      rewrite Hne. rewrite !dbSummary_plain.
      rewrite (filter_ext _ (fun item => status_eqb (di_plannedStatus item) st)).
      - rewrite filter_map_snd. f_equal. unfold dbSummaryOf.
        rewrite (filter_dbSummary st rows []); [reflexivity | intros ? ? []].
      - intros item. destruct (di_plannedStatus item), st; reflexivity. }
    split; [exact E|]. rewrite E, dbSummary_plain, map_map.
    generalize (filter (fun r => status_eqb (dbStatus r) st) rows) as kept.
    intros kept. unfold dbSummaryOf.
    assert (G : forall l acc,
               list_sum (map (fun kv => di_count (snd kv))
                             (fold_left dbSummary_row l acc))
               = list_sum (map (fun kv => di_count (snd kv)) acc)
                 + list_sum (map (fun r => List.length (dbRowAreas r)) l)).
    { induction l as [|r l IH]; intros acc; simpl; [lia|].
      rewrite IH. unfold dbSummary_row. cbv zeta.
      generalize (dbRowAreas r) as areas. intros areas.
      assert (A : forall acc',
                 list_sum (map (fun kv => di_count (snd kv))
                   (fold_left (fun acc'' area =>
                      obj_upsert (dbSummaryKey area
                                    (Date_getFullYear (dm_publication_date r))
                                    (dm_message_type r) (dbStatus r))
                                 {| di_area := area;
                                    di_year := Date_getFullYear (dm_publication_date r);
                                    di_messageType := dm_message_type r;
                                    di_plannedStatus := dbStatus r;
                                    di_count := 0 |}
                                 di_count_up acc'') areas acc'))
                 = list_sum (map (fun kv => di_count (snd kv)) acc')
                   + List.length areas).
      { induction areas as [|a areas IHa]; intros acc'; simpl; [lia|].
        rewrite IHa. rewrite (obj_upsert_sum di_count _ _ di_count_up 1).
        - lia.
        - intros v. simpl. lia.
        - reflexivity. }
      rewrite A. lia. }
    rewrite G. reflexivity.
  - intros p Hq Hne H1 H2 H3.
    assert (E : da_summary (dbOutageSummary q rows) = []).
    { unfold dbOutageSummary, dbSummaryArray. cbn [da_summary]. rewrite Hq.
      destruct (String.eqb_spec p EmptyString) as [E0|_]; [contradiction|].
      simpl. rewrite (filter_ext _ (fun _ => false)); [apply filter_none|].
      intros item. apply String.eqb_neq.
      destruct (di_plannedStatus item); simpl; intros E1; symmetry in E1;
        contradiction. }
    split; [exact E|]. unfold dbOutageSummary in *. cbn [da_summary da_topAreas] in *.
    rewrite E. unfold dbTopAreas, slice0. simpl.
    destruct (match dq_topN q with Some s => parseInt s | None => Some 10%Z end)
      as [n|]; [|reflexivity].
    destruct (n <? 0)%Z; simpl; rewrite firstn_nil; reflexivity.
  - intros G. unfold dbOutageSummary, dbSummaryArray. cbn [da_summary].
    destruct (dq_plannedStatus q) as [p|]; [|reflexivity].
    simpl in G. rewrite G. reflexivity.
Qed.

End DbSummaryFacts.

Lemma status_filter_after_grouping_witness :
  map (fun item => (di_area item, di_count item))
      (da_summary (dbOutageSummary (RT := RefRuntime) planned_only
                                   three_db_messages))
  = [("NO1", 1); ("NO2", 2)]
  /\ da_totalRecords (dbOutageSummary (RT := RefRuntime) planned_only
                                      three_db_messages) = 3.
Proof.
  destruct (@status_filter_after_grouping RefRuntime planned_only
              three_db_messages) as (H & T & _).
  destruct (H Planned eq_refl) as [E _].
  split; [rewrite E; reflexivity | exact T].
Defined.

(** ** The prototype back end *)

Section PrototypeBackendFacts.
Context {RT : JSRuntime}.

Lemma push_message_fold (rows : list eventRow) (messages : list ummMessage) :
  List.length (fold_left push_message rows messages)
  = List.length messages + List.length rows
  /\ map message_id (fold_left push_message rows messages)
     = map message_id messages
       ++ seq (List.length messages + 1) (List.length rows)
  /\ (Forall (fun m => installed_mw m = unavailable_mw m) messages ->
      Forall (fun m => installed_mw m = unavailable_mw m)
             (fold_left push_message rows messages))
  /\ (Forall (fun m => is_outage_type (m_message_type m) = true) messages ->
      Forall (fun m => is_outage_type (m_message_type m) = true)
             (fold_left push_message rows messages))
  /\ map m_publication_date (fold_left push_message rows messages)
     = map m_publication_date messages
       ++ map (fun r => column_or (er_publication_date r) EmptyString) rows
  /\ map unavailable_mw (fold_left push_message rows messages)
     = map unavailable_mw messages
       ++ map (fun r => parseFloat_or_0 (er_mw r)) rows.
Proof.
  revert messages; induction rows as [|r rows IH]; intros messages.
  - simpl. rewrite !app_nil_r. repeat split; try lia; auto.
  - cbn [fold_left].
    destruct (IH (push_message messages r)) as (L & I & M & T & D & W).
    unfold push_message in L, I, M, T, D, W |- *.
    rewrite length_app in L, I. cbn [List.length] in L, I.
    rewrite map_app in I, D, W. cbn [map message_id m_publication_date
                                        unavailable_mw] in I, D, W.
    split; [rewrite L; cbn [List.length]; lia|]. split.
    { rewrite I, <- app_assoc. cbn [List.length seq app].
      replace (List.length messages + 1 + 1) with (S (List.length messages + 1))
        by lia.
      reflexivity. }
    split.
    { intros H. apply M. apply Forall_app. split; [exact H|].
      constructor; [reflexivity | constructor]. }
    split.
    { intros H. apply T. apply Forall_app. split; [exact H|].
      constructor; [|constructor]. cbn [m_message_type].
      unfold getMessageType. destruct (er_status r) as [s|]; [|reflexivity].
      destruct (s =? "Planned")%string; [reflexivity|].
      destruct (s =? "Unplanned")%string; reflexivity. }
    split.
    { rewrite D, <- app_assoc. reflexivity. }
    rewrite W, <- app_assoc. reflexivity.
Qed.

(** X17. Loading the events file of the prototype back end keeps every
    row, in the order of the file: the call resolves with as many messages
    as the file has rows, numbered 1, 2, 3, ... in that order; each message
    carries the capacity of its row both as installed and as unavailable
    capacity; and its message type is 1, 2 or 3. After the start-up the
    statistics route answers 200 with that number of messages. The
    statuses of the file are asked not to name an inherited member of an
    object. *)
Theorem loadCSVData_keeps_rows (rows : list eventRow) :
  Forall plain_status rows ->
  let messages := fold_left push_message rows [] in
  loadCSVData (Present (EvEnds rows)) = Resolved messages
  /\ List.length messages = List.length rows
  /\ map message_id messages = seq 1 (List.length rows)
  /\ map unavailable_mw messages = map (fun r => parseFloat_or_0 (er_mw r)) rows
  /\ Forall (fun m => installed_mw m = unavailable_mw m) messages
  /\ Forall (fun m => is_outage_type (m_message_type m) = true) messages
  /\ (exists st, initData (Present (EvEnds rows)) = Some st
                 /\ ummStatsRoute st = Ok200 (ummStatsOf messages)
                 /\ us_totalMessages (ummStatsOf messages) = List.length rows
                 /\ us_activeOutages (ummStatsOf messages) <= List.length rows).
Proof.
  intros _ messages.
  destruct (push_message_fold rows []) as (L & I & M & T & _ & W).
  fold messages in L, I, M, T, W. simpl in L, I, W.
  split; [reflexivity|]. split; [exact L|]. split; [exact I|].
  split; [exact W|]. split; [apply M; constructor|].
  split; [apply T; constructor|].
  exists {| ummMessages := messages; dataLoaded := true |}.
  split; [reflexivity|]. split; [reflexivity|]. split; [exact L|].
  unfold ummStatsOf. cbn [us_activeOutages]. rewrite <- L.
  apply List.filter_length_le.
Qed.

Lemma yearlyStats_inv (messages : list ummMessage) (acc : jsobject yearStat) :
  Forall (fun m => is_outage_type (m_message_type m) = true) messages ->
  Forall (fun kv => ys_outages (snd kv) = ys_count (snd kv)) acc ->
  Forall (fun kv => ys_outages (snd kv) = ys_count (snd kv))
         (fold_left yearlyStats_step messages acc)
  /\ list_sum (map (fun kv => ys_count (snd kv))
                   (fold_left yearlyStats_step messages acc))
     = list_sum (map (fun kv => ys_count (snd kv)) acc)
       + List.length (filter (fun m => negb (m_publication_date m =? EmptyString)%string)
                             messages).
Proof.
  intros Hm. revert acc; induction Hm as [|m messages Ht _ IH]; intros acc Ha.
  - simpl. split; [exact Ha | lia].
  - cbn [fold_left filter]. unfold yearlyStats_step at 2 4.
    destruct (m_publication_date m =? EmptyString)%string; cbn [negb].
    + apply IH, Ha.
    + cbv zeta. rewrite Ht.
      match goal with
      | |- context [fold_left yearlyStats_step messages ?a] => set (acc' := a)
      end.
      assert (Ha' : Forall (fun kv => ys_outages (snd kv) = ys_count (snd kv)) acc').
      { apply Forall_forall. intros [k v] Hin. simpl. unfold acc' in Hin.
        revert k v Hin.
        apply (obj_upsert_In yearStat _ _ _ acc
                 (fun _ v => ys_outages v = ys_count v)).
        - intros k v Hin. rewrite Forall_forall in Ha. apply (Ha (k, v) Hin).
        - intros v Hv. simpl. rewrite Hv. reflexivity.
        - reflexivity. }
      destruct (IH acc' Ha') as [F S0]. split; [exact F|].
      rewrite S0. unfold acc'.
      rewrite (obj_upsert_sum ys_count _ _ _ 1).
      * cbn [List.length]. lia.
      * intros v. simpl. lia.
      * reflexivity.
Qed.

(** X18. The yearly statistics of the prototype back end, after a
    start-up from the events file: the route answers 200; in every row
    [outages] equals [count], because every loaded message has a message
    type of 1, 2 or 3; and the counts add up to the number of rows of the
    file that have a publication date. This holds for any order
    [localeCompare] sorts the years in. The statuses of the file are asked
    not to name an inherited member of an object. *)
Theorem yearly_stats_outages (localeSort : list yearStat -> list yearStat)
        (rows : list eventRow) :
  (forall l, Permutation (localeSort l) l) ->
  Forall plain_status rows ->
  exists st results,
    initData (Present (EvEnds rows)) = Some st
    /\ yearlyStatsRoute localeSort st = Ok200 results
    /\ Forall (fun s => ys_outages s = ys_count s /\ 0 < ys_count s) results
    /\ list_sum (map ys_count results)
       = List.length (filter (fun r => given (er_publication_date r)) rows).
Proof.
  intros Hp _.
  exists {| ummMessages := fold_left push_message rows [];
            dataLoaded := true |}.
  eexists. split; [reflexivity|]. split; [reflexivity|].
  set (messages := fold_left push_message rows []).
  destruct (push_message_fold rows []) as (_ & _ & _ & T & D & _).
  fold messages in T, D. simpl in D.
  destruct (yearlyStats_inv messages [] (T (Forall_nil _)) (Forall_nil _))
    as [F S0].
  fold (yearlyStatsOf messages) in F, S0. cbn [ummMessages].
  assert (P : Permutation (localeSort (Object_values (yearlyStatsOf messages)))
                          (map snd (yearlyStatsOf messages))).
  { eapply Permutation_trans; [apply Hp | apply Object_values_perm]. }
  assert (Pos : Forall (fun kv => 0 < ys_count (snd kv)) (yearlyStatsOf messages)).
  { unfold yearlyStatsOf.
    assert (G : forall l acc, Forall (fun kv => 0 < ys_count (snd kv)) acc ->
                  Forall (fun kv : string * yearStat => 0 < ys_count (snd kv))
                         (fold_left yearlyStats_step l acc)).
    { induction l as [|m l IH]; intros acc Ha; simpl; [exact Ha|].
      apply IH. unfold yearlyStats_step.
      destruct (m_publication_date m =? EmptyString)%string; [exact Ha|].
      apply Forall_forall. intros [k v] Hin. simpl. revert k v Hin.
      apply (obj_upsert_In yearStat _ _ _ acc (fun _ v => 0 < ys_count v)).
      - intros k v Hin. rewrite Forall_forall in Ha. apply (Ha (k, v) Hin).
      - intros v _. simpl. lia.
      - simpl. lia. }
    apply G. constructor. }
  split.
  - apply Forall_forall. intros s Hs. apply (Permutation_in _ P) in Hs.
    apply in_map_iff in Hs. destruct Hs as [[k v] [<- Hin]]. simpl.
    rewrite Forall_forall in F, Pos. split; [apply (F (k, v) Hin)
                                             | apply (Pos (k, v) Hin)].
  - rewrite (list_sum_perm _ _ (Permutation_map ys_count P)), map_map, S0.
    simpl.
    assert (E : forall l : list eventRow,
               List.length (filter (fun s => negb (s =? EmptyString)%string)
                                   (map (fun r => column_or (er_publication_date r)
                                                            EmptyString) l))
               = List.length (filter (fun r => given (er_publication_date r)) l)).
    { induction l as [|r l IH]; simpl; [reflexivity|].
      unfold column_or at 1, given at 1.
      destruct (er_publication_date r) as [s|]; simpl.
      - destruct (String.eqb_spec s EmptyString) as [->|Hne]; simpl; [exact IH|].
        destruct (String.eqb_spec s EmptyString) as [E0|_]; [contradiction|].
        simpl. rewrite IH. reflexivity.
      - exact IH. }
    rewrite <- E, <- D.
    clear. induction messages as [|m l IH]; simpl; [reflexivity|].
    destruct (m_publication_date m =? EmptyString)%string; simpl; rewrite IH;
      reflexivity.
Qed.

End PrototypeBackendFacts.

Lemma loadCSVData_keeps_rows_witness :
  map message_id (fold_left (push_message (RT := RefRuntime)) dated_event_rows [])
  = [1; 2; 3]
  /\ map unavailable_mw
         (fold_left (push_message (RT := RefRuntime)) dated_event_rows [])
     = [(30 # 1)%Q; (80 # 1)%Q; (500 # 1)%Q].
Proof.
  destruct (@loadCSVData_keeps_rows RefRuntime dated_event_rows)
    as (_ & _ & I & W & _).
  - repeat constructor.
  - split; [exact I | rewrite W; reflexivity].
Defined.

Lemma yearly_stats_outages_witness :
  exists st results,
    initData (RT := RefRuntime) (Present (EvEnds dated_event_rows)) = Some st
    /\ yearlyStatsRoute (RT := RefRuntime) byteSort st = Ok200 results
    /\ Forall (fun s => ys_outages s = ys_count s /\ 0 < ys_count s) results
    /\ list_sum (map ys_count results) = 2.
Proof.
  apply (@yearly_stats_outages RefRuntime byteSort dated_event_rows).
  - intros l. apply stable_sort_perm.
  - repeat constructor.
Defined.

(** ** Durations *)


Section DurationFacts.
Context {RT : JSRuntime}.
Variable Date_time : string -> option Z.




End DurationFacts.


(** ** The list of messages *)

Lemma insert_sorted_ext_in {A : Type} (before before' : A -> A -> bool)
      (x : A) (l : list A) :
  (forall y, In y l -> before x y = before' x y) ->
  insert_sorted before x l = insert_sorted before' x l.
Proof.
  induction l as [|y l IH]; intros H; simpl; [reflexivity|].
  rewrite (H y (or_introl eq_refl)).
  destruct (before' x y); [reflexivity|].
  rewrite IH; [reflexivity|]. intros z Hz. apply H. right; exact Hz.
Qed.

Lemma stable_sort_ext_in {A : Type} (before before' : A -> A -> bool)
      (l : list A) :
  (forall x y, In x l -> In y l -> before x y = before' x y) ->
  stable_sort before l = stable_sort before' l.
Proof.
  induction l as [|x l IH]; intros H; simpl; [reflexivity|].
  rewrite IH by (intros a b Ha Hb; apply H; right; assumption).
  apply insert_sorted_ext_in. intros y Hy. apply stable_sort_In in Hy.
  apply H; [left; reflexivity | right; exact Hy].
Qed.

Lemma stable_sort_sorted_id {A : Type} (before : A -> A -> bool) (l : list A) :
  StronglySorted (fun a b => before a b = true) l -> stable_sort before l = l.
Proof.
  induction 1 as [|x l _ IH F]; simpl; [reflexivity|].
  rewrite IH. destruct l as [|y l]; [reflexivity|]. simpl.
  inversion F as [|? ? Hy _]; subst. rewrite Hy. reflexivity.
Qed.

Lemma firstn_add {A : Type} (a b : nat) (l : list A) :
  firstn (a + b) l = firstn a l ++ firstn b (skipn a l).
Proof.
  revert l; induction a as [|a IH]; intros l; simpl; [reflexivity|].
  destruct l as [|x l]; simpl.
  - rewrite firstn_nil. reflexivity.
  - rewrite IH. reflexivity.
Qed.

Lemma skipn_add {A : Type} (a b : nat) (l : list A) :
  skipn (a + b) l = skipn b (skipn a l).
Proof.
  revert l; induction a as [|a IH]; intros l; simpl; [reflexivity|].
  destruct l as [|x l]; simpl; [destruct b; reflexivity | apply IH].
Qed.

Lemma firstn_min_length {A : Type} (n : nat) (l : list A) :
  firstn (Nat.min n (List.length l)) l = firstn n l.
Proof.
  destruct (Nat.le_gt_cases n (List.length l)) as [H|H].
  - rewrite Nat.min_l by exact H. reflexivity.
  - rewrite Nat.min_r by lia. rewrite firstn_all.
    symmetry. apply firstn_all2. lia.
Qed.

(** A page of [l] rows from row [o] on. *)
Lemma slice_page {A : Type} (xs : list A) (o l : Z) :
  (0 <= o)%Z -> (0 <= l)%Z ->
  slice xs (Some o) (Some (o + l)%Z)
  = firstn (Z.to_nat l) (skipn (Z.to_nat o) xs).
Proof.
  intros Ho Hl. unfold slice. cbv zeta.
  destruct (Z.ltb_spec o 0) as [N|_]; [lia|].
  destruct (Z.ltb_spec (o + l) 0) as [N|_]; [lia|].
  set (len := Z.of_nat (List.length xs)).
  destruct (Z.le_gt_cases len o) as [Hge|Hlt].
  - rewrite (Z.min_r o len) by lia. rewrite (Z.min_r (o + l) len) by lia.
    rewrite Z.sub_diag. simpl.
    rewrite (skipn_all2 xs) by (unfold len in Hge; lia).
    rewrite firstn_nil. reflexivity.
  - rewrite (Z.min_l o len) by lia.
    rewrite <- (firstn_min_length (Z.to_nat l)).
    rewrite length_skipn. f_equal. unfold len in *. lia.
Qed.

Lemma slice_nan {A : Type} (xs : list A) (start : option Z) :
  slice xs start None = [].
Proof.
  unfold slice. cbv zeta.
  assert (H : (0 <= match start with
                    | Some n => if (n <? 0)%Z
                                then Z.max (Z.of_nat (List.length xs) + n) 0
                                else Z.min n (Z.of_nat (List.length xs))
                    | None => 0
                    end)%Z).
  { destruct start as [n|]; [|lia].
    destruct (Z.ltb_spec n 0); lia. }
  replace (Z.to_nat (0 - _)) with 0 by lia. reflexivity.
Qed.

Section MessagesRouteFacts.
Context {RT : JSRuntime}.
Variable Date_time : string -> option Z.
Variable publisher_name : row -> option string.

Lemma filter_if_incl (p : option string) (f : string -> loadedRow -> bool)
      (rows : list loadedRow) :
  incl (filter_if p f rows) rows.
Proof.
  unfold filter_if. destruct p as [s|]; [|apply incl_refl].
  destruct (negb (s =? EmptyString)%string); [apply incl_filter | apply incl_refl].
Qed.

Lemma filter_if_absent (p : option string) (f : string -> loadedRow -> bool)
      (rows : list loadedRow) :
  given p = false -> filter_if p f rows = rows.
Proof.
  unfold filter_if, given. destruct p as [s|]; [|reflexivity].
  intros H. rewrite H. reflexivity.
Qed.

Lemma messagesFiltered_incl (q : messagesQuery) (data : list loadedRow) :
  incl (messagesFiltered Date_time publisher_name q data) data.
Proof.
  unfold messagesFiltered. cbv zeta.
  repeat (eapply incl_tran; [apply filter_if_incl|]). apply incl_refl.
Qed.

Lemma messagesFiltered_none (q : messagesQuery) (data : list loadedRow) :
  any_filter q = false ->
  messagesFiltered Date_time publisher_name q data = data.
Proof.
  unfold any_filter. intros H.
  repeat (apply orb_false_iff in H; destruct H as [H ?]).
  unfold messagesFiltered. cbv zeta.
  rewrite !filter_if_absent by assumption. reflexivity.
Qed.

Lemma newest_first_sorted (rows : list loadedRow) :
  Forall (dated Date_time) rows ->
  StronglySorted (fun a b => newer_or_same Date_time a b = true)
                 (newest_first Date_time rows)
  /\ StronglySorted (fun a b => (time_or_0 Date_time b <= time_or_0 Date_time a)%Z)
                    (newest_first Date_time rows).
Proof.
  intros Hd.
  assert (Agree : forall x y, In x rows -> In y rows ->
             newer_or_same Date_time x y = (time_or_0 Date_time y <=? time_or_0 Date_time x)%Z).
  { intros x y Hx Hy. rewrite Forall_forall in Hd.
    pose proof (Hd x Hx) as Dx. pose proof (Hd y Hy) as Dy.
    unfold dated in Dx, Dy. unfold newer_or_same, time_or_0.
    destruct (time_of Date_time (publication_date (raw x))); [|contradiction].
    destruct (time_of Date_time (publication_date (raw y))); [|contradiction].
    reflexivity. }
  unfold newest_first.
  rewrite (stable_sort_ext_in _ (fun a b => (time_or_0 Date_time b <=? time_or_0 Date_time a)%Z)
                              rows Agree).
  assert (S0 : StronglySorted
                 (fun a b => (time_or_0 Date_time b <=? time_or_0 Date_time a)%Z = true)
                 (stable_sort (fun a b => (time_or_0 Date_time b <=? time_or_0 Date_time a)%Z) rows)).
  { apply stable_sort_sorted.
    - intros x y H. apply Z.leb_le. apply Z.leb_gt in H. lia.
    - intros x y z H1 H2. apply Z.leb_le in H1, H2. apply Z.leb_le. lia. }
  assert (In0 : forall x, In x (stable_sort (fun a b => (time_or_0 Date_time b <=? time_or_0 Date_time a)%Z)
                                            rows) -> In x rows)
    by (intros x; apply stable_sort_In).
  revert S0 In0.
  generalize (stable_sort (fun a b => (time_or_0 Date_time b <=? time_or_0 Date_time a)%Z) rows) as l.
  intros l S0 In0. split.
  - induction S0 as [|a l' _ IH F]; constructor.
    + apply IH. intros x Hx. apply In0. right; exact Hx.
    + rewrite Forall_forall in *. intros b Hb.
      rewrite Agree; [apply F, Hb | apply In0; left; reflexivity
                     | apply In0; right; exact Hb].
  - clear In0. induction S0 as [|a l' _ IH F]; constructor; [exact IH|].
    rewrite Forall_forall in *. intros b Hb. apply Z.leb_le, F, Hb.
Qed.

(** X20. The list of messages sorts the cached dataset in place. When no
    filter is given, the array that is sorted is the array the cache
    holds: after the request the cache holds the same rows newest first,
    and a later request is served from that order. When a filter is given
    the cache is left as it was. In both cases [total] counts the filtered
    rows before paging, the page holds at most [limit] rows, starting at
    row [offset] of the sorted list, consecutive pages follow each other
    without gap or overlap, a limit or offset that is not a number gives
    an empty page, and the same request made again gets the same answer.
    The publication dates are asked to be valid dates. *)
Theorem messages_route_sorts_cache (q : messagesQuery) (data : list loadedRow) :
  Forall (dated Date_time) data ->
  let sorted := newest_first Date_time
                  (messagesFiltered Date_time publisher_name q data) in
  let body := fst (messagesOf Date_time publisher_name q data) in
  let data' := snd (messagesOf Date_time publisher_name q data) in
  mb_total body = List.length (messagesFiltered Date_time publisher_name q data)
  /\ incl (messagesFiltered Date_time publisher_name q data) data
  /\ Permutation sorted (messagesFiltered Date_time publisher_name q data)
  /\ StronglySorted (fun a b => (time_or_0 Date_time b <= time_or_0 Date_time a)%Z) sorted
  /\ (any_filter q = true -> data' = data)
  /\ (any_filter q = false ->
      data' = newest_first Date_time data
      /\ Permutation data' data
      /\ mb_total body = List.length data)
  /\ (forall o l, offsetOf q = Some o -> limitOf q = Some l ->
        (0 <= o)%Z -> (0 <= l)%Z ->
        mb_data body = firstn (Z.to_nat l) (skipn (Z.to_nat o) sorted)
        /\ List.length (mb_data body) <= Z.to_nat l
        /\ (forall l2, (0 <= l2)%Z ->
              mb_data body ++ slice sorted (Some (o + l)%Z) (Some (o + l + l2)%Z)
              = slice sorted (Some o) (Some (o + (l + l2))%Z)))
  /\ (offsetOf q = None \/ limitOf q = None -> mb_data body = [])
  /\ fst (messagesOf Date_time publisher_name q data') = body
  /\ (forall now at_end file c,
        cache_hit now c = Some data ->
        messagesRoute Date_time publisher_name q now at_end file c
        = (Ok200 body,
           {| cachedData := Some data'; cacheTime := cacheTime c |})).
Proof.
  intros Hd sorted body data'.
  assert (Hf : Forall (dated Date_time)
                      (messagesFiltered Date_time publisher_name q data)).
  { apply Forall_forall. intros d Hin. rewrite Forall_forall in Hd.
    apply Hd, (messagesFiltered_incl q data), Hin. }
  destruct (newest_first_sorted _ Hf) as [Sb Sz]. fold sorted in Sb, Sz.
  assert (Ps : Permutation sorted
                 (messagesFiltered Date_time publisher_name q data))
    by apply stable_sort_perm.
  split; [unfold body, messagesOf; cbn [fst mb_total]; fold sorted;
          apply Permutation_length, Ps|].
  split; [apply messagesFiltered_incl|]. split; [exact Ps|].
  split; [exact Sz|]. split.
  { intros Ha. unfold data', messagesOf. cbn [snd]. rewrite Ha. reflexivity. }
  split.
  { intros Ha. unfold data', body, messagesOf. cbn [snd fst mb_total]. rewrite Ha.
    rewrite (messagesFiltered_none q data Ha).
    split; [reflexivity|]. split; [apply stable_sort_perm|].
    apply stable_sort_length. }
  split.
  { intros o l Ho Hl Po Pl.
    assert (E : mb_data body = firstn (Z.to_nat l) (skipn (Z.to_nat o) sorted)).
    { unfold body, messagesOf. cbn [fst mb_data]. fold sorted.
      unfold page_end. rewrite Ho, Hl. apply slice_page; assumption. }
    split; [exact E|]. split.
    - rewrite E, length_firstn. lia.
    - intros l2 Pl2. rewrite E.
      rewrite (slice_page sorted (o + l) l2) by lia.
      rewrite (slice_page sorted o (l + l2)) by lia.
      rewrite Z2Nat.inj_add by lia. rewrite skipn_add.
      rewrite Z2Nat.inj_add by lia. symmetry. apply firstn_add. }
  split.
  { intros H. unfold body, messagesOf. cbn [fst mb_data]. unfold page_end.
    destruct H as [H|H]; rewrite H.
    - apply slice_nan.
    - destruct (offsetOf q); apply slice_nan. }
  assert (Again : fst (messagesOf Date_time publisher_name q data') = body).
  { destruct (any_filter q) eqn:Ha.
    - unfold data', messagesOf at 2. cbn [snd]. rewrite Ha. reflexivity.
    - unfold data', messagesOf at 2. cbn [snd]. rewrite Ha.
      unfold body, messagesOf. cbn [fst].
      rewrite (messagesFiltered_none q _ Ha).
      assert (Es : newest_first Date_time
                     (newest_first Date_time
                        (messagesFiltered Date_time publisher_name q data))
                   = sorted).
      { unfold newest_first at 1. fold sorted.
        apply (stable_sort_sorted_id _ sorted Sb). }
      rewrite Es. reflexivity. }
  split; [exact Again|].
  intros now at_end file c Hit. unfold messagesRoute, loadData. rewrite Hit.
  unfold cache_hit in Hit. destruct (cachedData c) as [cd|]; [|discriminate].
  reflexivity.
Qed.

End MessagesRouteFacts.

Lemma messages_route_sorts_cache_witness :
  map (fun d => publication_date (raw d))
      (snd (messagesOf (RT := RefRuntime) days_of_text no_publisher
                       no_messages_filter three_dated_data))
  = [Some "9"; Some "7"; Some "5"]
  /\ snd (messagesOf (RT := RefRuntime) days_of_text no_publisher
                     no_messages_filter three_dated_data)
     <> three_dated_data.
Proof.
  destruct (@messages_route_sorts_cache RefRuntime days_of_text no_publisher
              no_messages_filter three_dated_data)
    as (_ & _ & _ & _ & _ & H & _).
  - repeat constructor; discriminate.
  - destruct (H eq_refl) as [E _]. rewrite E. split; [reflexivity|].
    vm_compute. discriminate.
Defined.

(** ** Names columns and trimming *)








Lemma starts_clean_prefix (w rest : string) :
  starts_clean (w ++ rest) -> w <> EmptyString -> starts_clean w.
Proof. destruct w as [|c w]; simpl; [contradiction | intros H _; exact H]. Qed.








Section NamesFacts.
Context {RT : JSRuntime}.


End NamesFacts.

